(** * Verification of [instructlab/training/get_perplexity.py]

    A shallow embedding of the process-lifecycle and coordination code of
    the module: the checkpoint resumer ([maybe_resume_training]), the
    cross-rank perplexity evaluation ([get_perplexity], [main]) and the
    subprocess supervision at the end of [run_training].

    Python values are modelled as follows.
    - [int] is [Z]; [//] is floor division and raises on a zero divisor.
    - [str] is [string], a list of 8-bit characters: the model covers
      ASCII text, on which [\w] is [[A-Za-z0-9_]], [\d] is [[0-9]] and
      the white space of [int] is the characters 9 to 13 and 32.  What
      Python does with other characters ([\w], [\d] and [int] know the
      letters, digits and blanks of all of Unicode) is outside the model;
      the statements about arbitrary text say so with [is_ascii].
    - [float] is a type [F] with the operations of the class [PyFloat];
      the code is parametric in it.
    - An exception is a value of [exn]; a statement that may raise returns
      a [pyresult].  Code that also mutates objects or calls the outside
      world runs in the monad [Py S], a state monad over [pyresult]; what
      the outside world answers is read from an explicit environment. *)

From Stdlib Require Import ZArith List String Ascii Bool Lia.
From Stdlib Require Import Decimal DecimalString DecimalNat.
From Stdlib Require Import Reals Lra SpecFloat.
Import ListNotations.

Local Open Scope string_scope.
Local Open Scope Z_scope.

(** ** Exceptions and results *)

Inductive exn : Type :=
| KeyboardInterrupt
| KeyError (key : string)
| ValueError
| AttributeError
| ZeroDivisionError
| OverflowError
| FileNotFoundError
| TimeoutExpired
| ZeRORuntimeException (msg : string)
| OtherError (msg : string).

Inductive pyresult (A : Type) : Type :=
| Ok (a : A)
| Raise (e : exn).

Arguments Ok {A} a.
Arguments Raise {A} e.

(** ** The monad of stateful, fallible code *)

Definition Py (S A : Type) : Type := S -> pyresult A * S.

Definition ret {S A} (a : A) : Py S A := fun s => (Ok a, s).

Definition raise {S A} (e : exn) : Py S A := fun s => (Raise e, s).

Definition bind {S A B} (c : Py S A) (k : A -> Py S B) : Py S B :=
  fun s =>
    match c s with
    | (Ok a, s') => k a s'
    | (Raise e, s') => (Raise e, s')
    end.

Definition lift {S A} (r : pyresult A) : Py S A := fun s => (r, s).

Definition modify {S} (f : S -> S) : Py S unit := fun s => (Ok tt, f s).

Definition gets {S A} (f : S -> A) : Py S A := fun s => (Ok (f s), s).

(** [try: c  except <classes>: h].  The handler table [h] answers [None]
    for an exception that no [except] clause names; such an exception
    propagates. *)
Definition try_except {S A} (c : Py S A) (h : exn -> option (Py S A))
  : Py S A :=
  fun s =>
    match c s with
    | (Ok a, s') => (Ok a, s')
    | (Raise e, s') =>
        match h e with
        | Some handler => handler s'
        | None => (Raise e, s')
        end
    end.

Declare Scope py_scope.
Delimit Scope py_scope with py.
Notation "x <- c ;; k" := (bind c (fun x => k))
  (at level 61, c at next level, right associativity) : py_scope.
Notation "c ;; k" := (bind c (fun _ => k))
  (at level 61, right associativity) : py_scope.
Local Open Scope py_scope.

(** ** Character classes and [int(str)] *)

Definition is_digit (c : ascii) : bool :=
  let n := N_of_ascii c in (48 <=? n)%N && (n <=? 57)%N.

Definition is_alpha (c : ascii) : bool :=
  let n := N_of_ascii c in
  ((65 <=? n)%N && (n <=? 90)%N) || ((97 <=? n)%N && (n <=? 122)%N).

Definition underscore : ascii := "_"%char.

(** [\w] on ASCII text. *)
Definition is_word (c : ascii) : bool :=
  is_alpha c || is_digit c || Ascii.eqb c underscore.

Definition is_space (c : ascii) : bool :=
  let n := N_of_ascii c in ((9 <=? n)%N && (n <=? 13)%N) || (n =? 32)%N.

(** The characters of ASCII text. *)
Definition is_ascii (c : ascii) : bool := (N_of_ascii c <? 128)%N.

Definition digit_value (c : ascii) : Z := Z.of_N (N_of_ascii c) - 48.

Fixpoint all_chars (p : ascii -> bool) (s : string) : bool :=
  match s with
  | EmptyString => true
  | String c s' => p c && all_chars p s'
  end.

Fixpoint lstrip (s : string) : string :=
  match s with
  | String c s' => if is_space c then lstrip s' else s
  | EmptyString => EmptyString
  end.

(** The digits of an integer literal: single underscores may separate
    digits, and white space may follow the last digit. *)
Fixpoint int_digits (acc : Z) (after_digit : bool) (s : string) : option Z :=
  match s with
  | EmptyString => if after_digit then Some acc else None
  | String c s' =>
      if is_digit c then int_digits (10 * acc + digit_value c) true s'
      else if Ascii.eqb c underscore && after_digit then int_digits acc false s'
      else if is_space c && after_digit && all_chars is_space s' then Some acc
      else None
  end.

Fixpoint count_chars (p : ascii -> bool) (s : string) : Z :=
  match s with
  | EmptyString => 0
  | String c s' => (if p c then 1 else 0) + count_chars p s'
  end.

(** [sys.int_max_str_digits] as CPython sets it by default (3.11, and
    the security releases of the older versions): [int] refuses a decimal
    numeral with more digits.  Leading zeros count; the sign, the
    underscores and the white space around the numeral do not. *)
Definition int_max_str_digits : Z := 4300.

(** [int(s)] for a string [s], base ten.  A text that is no numeral and
    a numeral that is too long raise the same class of error. *)
Definition py_int (s : string) : pyresult Z :=
  let body (t : string) := int_digits 0 false t in
  let r :=
    match lstrip s with
    | String c t =>
        if Ascii.eqb c "-" then option_map Z.opp (body t)
        else if Ascii.eqb c "+" then body t
        else body (String c t)
    | EmptyString => None
    end in
  match r with
  | Some n =>
      if int_max_str_digits <? count_chars is_digit s then Raise ValueError
      else Ok n
  | None => Raise ValueError
  end.

(** [a // b] on integers. *)
Definition py_floordiv (a b : Z) : pyresult Z :=
  if b =? 0 then Raise ZeroDivisionError else Ok (a / b).

(** ** Regular expressions, as far as the module uses them

    [re.match] tries the alternatives of a backtracking matcher in order:
    a greedy repetition first takes as many characters as it can and gives
    them back one at a time while the rest of the pattern fails. *)

Inductive regex : Type :=
| RChar (c : ascii)
| RPlus (cls : ascii -> bool)
| RGroup (r : regex)
| RSeq (r1 r2 : regex).

Section Matcher.
Context {A : Type}.

(** One or more characters of class [cls], longest first. *)
Fixpoint plus_greedy (cls : ascii -> bool) (s : string)
         (k : string -> option A) : option A :=
  match s with
  | EmptyString => None
  | String c s' =>
      if cls c then
        match plus_greedy cls s' k with
        | Some r => Some r
        | None => k s'
        end
      else None
  end.

(** The text consumed between the input [s] and what is left, [rest]. *)
Definition consumed (s rest : string) : string :=
  substring 0 (String.length s - String.length rest) s.

Fixpoint rmatch (r : regex) (s : string) (groups : list string)
         (k : string -> list string -> option A) : option A :=
  match r with
  | RChar c =>
      match s with
      | String c' s' => if Ascii.eqb c' c then k s' groups else None
      | EmptyString => None
      end
  | RPlus cls => plus_greedy cls s (fun rest => k rest groups)
  | RGroup r1 =>
      rmatch r1 s groups
        (fun rest gs => k rest (gs ++ [consumed s rest])%list)
  | RSeq r1 r2 =>
      rmatch r1 s groups (fun rest gs => rmatch r2 rest gs k)
  end.
End Matcher.

(** [re.match(pattern, s)]: a match anchored at the start of [s] only;
    the answer is the tuple of groups, or [None]. *)
Definition re_match (pattern : regex) (s : string) : option (list string) :=
  rmatch pattern s [] (fun _ gs => Some gs).

(** The pattern ["\w+_(\d+)"]: the tag, then the underscore and the
    group of digits. *)
Definition separator_then_digits : regex :=
  RSeq (RChar underscore) (RGroup (RPlus is_digit)).

Definition manifest_pattern : regex :=
  RSeq (RPlus is_word) separator_then_digits.

(** ** The checkpoint resumer: [maybe_resume_training] *)

(** The fields of [args] that the resumer and the evaluation read or
    write. *)
Record args : Type := mk_args {
  lora_r : Z;
  output_dir : string;
  effective_batch_size : Z;
  last_step : Z;
  use_dolomite : bool
}.

Definition set_last_step (n : Z) (a : args) : args :=
  {| lora_r := lora_r a;
     output_dir := output_dir a;
     effective_batch_size := effective_batch_size a;
     last_step := n;
     use_dolomite := use_dolomite a |}.

(** [os.environ]. *)
Definition environ : Type := string -> option string.

Definition getenv (env : environ) (key : string) : pyresult string :=
  match env key with
  | Some v => Ok v
  | None => Raise (KeyError key)
  end.

(** [int(os.environ[key])]. *)
Definition getenv_int (env : environ) (key : string) : pyresult Z :=
  match getenv env key with
  | Ok v => py_int v
  | Raise e => Raise e
  end.

(** What the resumer does to the outside world, in order. *)
Inductive resume_event : Type :=
| EvLoad (universal strict : bool)
| EvPrepareUniversal
| EvPrint (msg : string) (value : Z).

(** The outside world of one resume attempt: what the DeepSpeed engine
    answers to the [n]-th call of [load_checkpoint] (given the value of
    its [load_universal_checkpoint] flag and [load_module_strict]), what
    the conversion to a universal checkpoint answers, and what opening
    and reading [ds_native/latest] gives. *)
Record resume_world : Type := mk_world {
  w_load_checkpoint : nat -> bool -> bool -> pyresult unit;
  w_prepare_universal : pyresult unit;
  w_latest : pyresult string
}.

(** The mutable objects of one resume attempt: [model._config.
    load_universal_checkpoint], [args], and the log of calls. *)
Record resume_state : Type := mk_rstate {
  load_universal_checkpoint : bool;
  rs_args : args;
  rs_loads : nat;
  rs_trace : list resume_event
}.

Definition emit (ev : resume_event) : Py resume_state unit :=
  modify (fun st =>
    {| load_universal_checkpoint := load_universal_checkpoint st;
       rs_args := rs_args st;
       rs_loads := rs_loads st;
       rs_trace := (rs_trace st ++ [ev])%list |}).

Definition set_universal (b : bool) : Py resume_state unit :=
  modify (fun st =>
    {| load_universal_checkpoint := b;
       rs_args := rs_args st;
       rs_loads := rs_loads st;
       rs_trace := rs_trace st |}).

Definition update_args (f : args -> args) : Py resume_state unit :=
  modify (fun st =>
    {| load_universal_checkpoint := load_universal_checkpoint st;
       rs_args := f (rs_args st);
       rs_loads := rs_loads st;
       rs_trace := rs_trace st |}).

(** [model.load_checkpoint(output_dir, load_module_strict=strict)]. *)
Definition load_checkpoint (w : resume_world) (strict : bool)
  : Py resume_state unit :=
  fun st =>
    (w_load_checkpoint w (rs_loads st) (load_universal_checkpoint st) strict,
     {| load_universal_checkpoint := load_universal_checkpoint st;
        rs_args := rs_args st;
        rs_loads := S (rs_loads st);
        rs_trace :=
          (rs_trace st ++ [EvLoad (load_universal_checkpoint st) strict])%list
     |}).

Definition prepare_universal_checkpoint_from_latest (w : resume_world)
  : Py resume_state unit :=
  emit EvPrepareUniversal ;; lift (w_prepare_universal w).

Definition world_size_message : string :=
  "The checkpoint being loaded used a DP world size of".

(** Lines 271-293: the load, with the fall-back to the universal
    format. *)
Definition load_with_fallback (w : resume_world) : Py resume_state unit :=
  a <- gets rs_args ;;
  let load_module_strict := lora_r a =? 0 in
  try_except
    (load_checkpoint w load_module_strict)
    (fun e =>
       match e with
       | ZeRORuntimeException msg =>
           Some
             (if String.prefix world_size_message msg then
                prepare_universal_checkpoint_from_latest w ;;
                set_universal true ;;
                load_checkpoint w load_module_strict ;;
                set_universal false
              else raise e)
       | _ => None
       end).

(** The body of the [with open(latest_file)] block, lines 301-306: the
    manifest text to the step counter. *)
Definition parse_manifest (step_folder : string) : pyresult Z :=
  match re_match manifest_pattern step_folder with
  | None => Raise AttributeError
  | Some [samples_seen] => py_int samples_seen
  | Some _ => Raise ValueError
  end.

(** Lines 296-313: the recovery of [last_step]. *)
Definition recover_last_step (w : resume_world) (local_rank : Z)
  : Py resume_state unit :=
  try_except
    (step_folder <- lift (w_latest w) ;;
     samples_seen <- lift (parse_manifest step_folder) ;;
     a <- gets rs_args ;;
     last <- lift (py_floordiv samples_seen (effective_batch_size a)) ;;
     update_args (set_last_step last) ;;
     if local_rank =? 0 then emit (EvPrint "Starting from: " last)
     else ret tt)
    (fun e =>
       match e with
       | FileNotFoundError => Some (ret tt)
       | _ => None
       end).

Definition maybe_resume_training (env : environ) (w : resume_world)
  : Py resume_state unit :=
  local_rank <- lift (getenv_int env "LOCAL_RANK") ;;
  load_with_fallback w ;;
  recover_last_step w local_rank.

(** A resume attempt starts with the flag off and nothing logged. *)
Definition resume_start (a : args) : resume_state :=
  {| load_universal_checkpoint := false;
     rs_args := a;
     rs_loads := 0;
     rs_trace := [] |}.

Definition is_load (ev : resume_event) : bool :=
  match ev with EvLoad _ _ => true | _ => false end.

Definition is_prepare (ev : resume_event) : bool :=
  match ev with EvPrepareUniversal => true | _ => false end.

Definition count_events (p : resume_event -> bool) (st : resume_state) : nat :=
  List.length (List.filter p (rs_trace st)).

(** The loads after the first one. *)
Definition retries (st : resume_state) : nat := Nat.pred (count_events is_load st).

(** ** The evaluation pass: [get_perplexity] and [main] *)

(** Python's [float], with what the module does with it.  [f_single] is
    the rounding of a value stored in a [float32] tensor; [f_exp] is
    [math.exp], which raises on overflow; [f_int] is [int(x)], which
    raises on a NaN or an infinity. *)
Class PyFloat (F : Type) : Type := {
  f_zero : F;
  f_add : F -> F -> F;
  f_div : F -> F -> F;
  f_of_int : Z -> F;
  f_single : F -> F;
  f_exp : F -> pyresult F;
  f_int : F -> pyresult Z
}.

(** A value of a metric record. *)
Inductive value (F : Type) : Type :=
| VFloat (x : F)
| VInt (n : Z)
| VArgs (a : args)
| VExternal (what : string).

Arguments VFloat {F} x.
Arguments VInt {F} n.
Arguments VArgs {F} a.
Arguments VExternal {F} what.

Definition metric_record (F : Type) : Type := list (string * value F).

(** The [AsyncStructuredLogger] of one process: the file it is bound to
    and the records appended to it, oldest first. *)
Record metric_sink (F : Type) : Type := mk_sink {
  sink_path : string;
  sink_lines : list (metric_record F)
}.

Arguments mk_sink {F} sink_path sink_lines.
Arguments sink_path {F} m.
Arguments sink_lines {F} m.

(** What one rank feeds into the reduction for one batch: the loss of
    its forward pass and the two counters popped from its batch. *)
Record shard (F : Type) : Type := mk_shard {
  loss_item : F;
  num_loss_counted_tokens : Z;
  num_samples : Z
}.

Arguments mk_shard {F} loss_item num_loss_counted_tokens num_samples.
Arguments loss_item {F} s.
Arguments num_loss_counted_tokens {F} s.
Arguments num_samples {F} s.

(** One evaluation batch as the collective sees it: the shards of all
    ranks, in rank order. *)
Definition batch (F : Type) : Type := list (shard F).

Record totals (F : Type) : Type := mk_totals {
  total_log_perplexity : F;
  total_num_tokens : Z;
  total_samples : Z
}.

Arguments mk_totals {F} total_log_perplexity total_num_tokens total_samples.
Arguments total_log_perplexity {F} t.
Arguments total_num_tokens {F} t.
Arguments total_samples {F} t.

(** What the calls of [main] into other code answer, in the order of
    the source: the import of [yaml] (line 395), the constructor of the
    logger (line 397), the dump of the arguments to the terminal (line
    402), the logger of the module, the chat template and the tokenizer
    (lines 405-407), the choice of the device (line 411), the process
    group, the data set and the data loader (lines 413-443), the world
    size and the mean sample length (lines 448-449), [setup_model] (line
    460) and the last barrier with the end of the process group (lines
    480-481).  None of these calls is handed the metric logger. *)
Record setup_world : Type := mk_setup {
  sw_import_yaml : pyresult unit;
  sw_new_logger : pyresult unit;
  sw_print_params : pyresult unit;
  sw_tokenizer : pyresult unit;
  sw_set_device : pyresult unit;
  sw_distributed_and_data : pyresult unit;
  sw_params_values : pyresult unit;
  sw_setup_model : pyresult unit;
  sw_teardown : pyresult unit
}.

(** The run in which every one of these calls returns. *)
Definition setup_returns : setup_world :=
  {| sw_import_yaml := Ok tt;
     sw_new_logger := Ok tt;
     sw_print_params := Ok tt;
     sw_tokenizer := Ok tt;
     sw_set_device := Ok tt;
     sw_distributed_and_data := Ok tt;
     sw_params_values := Ok tt;
     sw_setup_model := Ok tt;
     sw_teardown := Ok tt |}.

Definition is_ok {A} (r : pyresult A) : bool :=
  match r with Ok _ => true | Raise _ => false end.

Section Evaluation.
Context {F : Type} `{PyFloat F}.

Definition log_sync (r : metric_record F) : Py (metric_sink F) unit :=
  modify (fun m =>
    {| sink_path := sink_path m;
       sink_lines := (sink_lines m ++ [r])%list |}).

(** [torch.tensor([log_perplexity, num_loss_counted_tokens, num_samples],
    dtype=torch.float32)]. *)
Definition pack (s : shard F) : F * F * F :=
  (f_single (loss_item s),
   f_single (f_of_int (num_loss_counted_tokens s)),
   f_single (f_of_int (num_samples s))).

Definition vadd (u v : F * F * F) : F * F * F :=
  let '(a, b, c) := u in
  let '(a', b', c') := v in
  (f_single (f_add a a'), f_single (f_add b b'), f_single (f_add c c')).

(** [accelerator.reduce(..., reduction="sum")]: every rank receives the
    component-wise sum of the vectors of all ranks. *)
Definition reduce_sum (vs : list (F * F * F)) : F * F * F :=
  match vs with
  | [] => (f_zero, f_zero, f_zero)
  | v :: vs' => fold_left vadd vs' v
  end.

(** [a / n] for a float [a] and an integer [n]. *)
Definition py_truediv (a : F) (n : Z) : pyresult F :=
  if n =? 0 then Raise ZeroDivisionError else Ok (f_div a (f_of_int n)).

Definition batch_record (log_perplexity tokens samples : F) (t : totals F)
  : metric_record F :=
  [("log_perplexity", VFloat log_perplexity);
   ("num_loss_counted_tokens", VFloat tokens);
   ("total_log_perplexity", VFloat (total_log_perplexity t));
   ("total_num_tokens", VInt (total_num_tokens t));
   ("num_samples", VFloat samples);
   ("total_samples", VInt (total_samples t))].

Definition final_record (average_log_perp avg_perplexity : F) (t : totals F)
  : metric_record F :=
  [("average_log_perp", VFloat average_log_perp);
   ("avg_perplexity", VFloat avg_perplexity);
   ("total_log_perplexity", VFloat (total_log_perplexity t));
   ("total_num_tokens", VInt (total_num_tokens t));
   ("total_samples", VInt (total_samples t))].

(** Lines 332-372: the loop over the batches. *)
Fixpoint eval_batches (local_rank : Z) (eval_loader : list (batch F))
         (t : totals F) : Py (metric_sink F) (totals F) :=
  match eval_loader with
  | [] => ret t
  | b :: rest =>
      let '(log_perplexity, tokens, samples) := reduce_sum (map pack b) in
      let tlp := f_add (total_log_perplexity t) log_perplexity in
      tokens_int <- lift (f_int tokens) ;;
      samples_int <- lift (f_int samples) ;;
      let t' :=
        {| total_log_perplexity := tlp;
           total_num_tokens := total_num_tokens t + tokens_int;
           total_samples := total_samples t + samples_int |} in
      (if local_rank =? 0
       then log_sync (batch_record log_perplexity tokens samples t')
       else ret tt) ;;
      eval_batches local_rank rest t'
  end.

Definition totals_start : totals F :=
  {| total_log_perplexity := f_zero;
     total_num_tokens := 0;
     total_samples := 0 |}.

Definition get_perplexity (env : environ) (eval_loader : list (batch F))
  : Py (metric_sink F) F :=
  local_rank <- lift (getenv_int env "LOCAL_RANK") ;;
  _ <- lift (getenv_int env "WORLD_SIZE") ;;
  t <- eval_batches local_rank eval_loader totals_start ;;
  average_log_perp <-
    lift (py_truediv (total_log_perplexity t) (total_num_tokens t)) ;;
  avg_perplexity <- lift (f_exp average_log_perp) ;;
  (if local_rank =? 0
   then log_sync (final_record average_log_perp avg_perplexity t)
   else ret tt) ;;
  ret avg_perplexity.

Definition params_record (a : args) : metric_record F :=
  [("num_gpus", VExternal "torch.distributed.get_world_size()");
   ("avg_sample_len", VExternal "dataset.get_lengths().mean()");
   ("effective_batch_size", VInt (effective_batch_size a));
   ("max_batch_len_per_gpu", VExternal "args.max_batch_len");
   ("packing_max_batch_len", VExternal "None");
   ("grad_accum", VInt 1);
   ("num_batches", VExternal "len(train_loader)");
   ("avg_samples_per_batch", VExternal "len(dataset) / len(train_loader)");
   ("samples_per_gpu", VInt 100)].

(** Line 455, [len(dataset) / len(train_loader)], evaluated while the
    record of the run parameters is built: the division raises when the
    loader has no batch.  [len(train_loader)] is taken to be the number
    of batches that the loader yields to the evaluation. *)
Definition avg_samples_per_batch (train_loader : list (batch F))
  : pyresult unit :=
  match train_loader with
  | [] => Raise ZeroDivisionError
  | _ :: _ => Ok tt
  end.

(** [main] after the logger is bound to its file, lines 401-481.  The
    local rank is read three times: as text for the dump of the
    arguments, and twice as an integer. *)
Definition main_body (sw : setup_world) (env : environ) (a : args)
           (train_loader : list (batch F)) : Py (metric_sink F) unit :=
  local_rank_text <- lift (getenv env "LOCAL_RANK") ;;
  (if String.eqb local_rank_text "0"
   then lift (sw_print_params sw) ;;
        log_sync [("script_params", VArgs a)]
   else ret tt) ;;
  lift (sw_tokenizer sw) ;;
  _ <- lift (getenv_int env "LOCAL_RANK") ;;
  lift (sw_set_device sw) ;;
  local_rank <- lift (getenv_int env "LOCAL_RANK") ;;
  lift (sw_distributed_and_data sw) ;;
  (if local_rank =? 0
   then lift (sw_params_values sw) ;;
        lift (avg_samples_per_batch train_loader) ;;
        log_sync (params_record a)
   else ret tt) ;;
  lift (sw_setup_model sw) ;;
  _ <- get_perplexity env train_loader ;;
  lift (sw_teardown sw).

(** [main] in a given world: the result, and the logger once it
    exists. *)
Definition main_in (sw : setup_world) (env : environ) (a : args)
           (train_loader : list (batch F))
  : pyresult unit * option (metric_sink F) :=
  match sw_import_yaml sw with
  | Raise e => (Raise e, None)
  | Ok _ =>
      match getenv env "RANK" with
      | Raise e => (Raise e, None)
      | Ok rank =>
          match sw_new_logger sw with
          | Raise e => (Raise e, None)
          | Ok _ =>
              let logger :=
                {| sink_path :=
                     output_dir a ++ "/perplexity_log_" ++ rank ++ ".jsonl";
                   sink_lines := [] |} in
              let '(r, m) := main_body sw env a train_loader logger in
              (r, Some m)
          end
      end
  end.

(** [main] when every call into other code returns. *)
Definition main (env : environ) (a : args) (eval_loader : list (batch F))
  : pyresult unit * option (metric_sink F) :=
  main_in setup_returns env a eval_loader.

(** Whether [main] on local rank 0 gets as far as the division of line
    455, given the text of [LOCAL_RANK], and whether it gets past it and
    writes the record of the run parameters. *)
Definition params_values_ready (sw : setup_world) (text : string) : bool :=
  (negb (String.eqb text "0") || is_ok (sw_print_params sw))
  && is_ok (sw_tokenizer sw)
  && is_ok (sw_set_device sw)
  && is_ok (sw_distributed_and_data sw)
  && is_ok (sw_params_values sw).

Definition reaches_params_record (sw : setup_world) (text : string)
           (train_loader : list (batch F)) : bool :=
  params_values_ready sw text
  && is_ok (avg_samples_per_batch train_loader).
End Evaluation.

(** Exact real arithmetic as an instance of [PyFloat]: no rounding, no
    overflow, no NaN.  It is the arithmetic in which the specification
    states its numerical example.  [f_single] is the identity here: a
    real number stored in the tensor comes back unchanged, so this
    instance says nothing about what [float32] loses; [IEEE_float] below
    does. *)
Definition R_trunc (x : R) : Z :=
  if Rle_dec 0 x then Int_part x else (- Int_part (- x))%Z.

#[export] Instance R_float : PyFloat R := {|
  f_zero := 0%R;
  f_add := Rplus;
  f_div := Rdiv;
  f_of_int := IZR;
  f_single := fun x => x;
  f_exp := fun x => Ok (exp x);
  f_int := fun x => Ok (R_trunc x)
|}.

(** IEEE 754 arithmetic as an instance of [PyFloat]: [binary64] for
    Python's [float], [binary32] for the tensor of the reduction.  The
    library has no exponential, so [math.exp] is a parameter; the loop
    over the batches does not call it.  [int_of_float] is [int(x)]: the
    truncation of a finite number, an error on an infinity or a NaN. *)
Definition binary64_of_int (z : Z) : spec_float :=
  binary_normalize 53 1024 z 0 false.

Definition to_binary32 (x : spec_float) : spec_float :=
  match x with
  | S754_finite s m e =>
      binary_normalize 24 128 (if s then Z.neg m else Z.pos m) e s
  | _ => x
  end.

Definition int_of_float (x : spec_float) : pyresult Z :=
  match x with
  | S754_zero _ => Ok 0
  | S754_infinity _ => Raise OverflowError
  | S754_nan => Raise ValueError
  | S754_finite s m e =>
      let magnitude :=
        if 0 <=? e then Z.pos m * 2 ^ e else Z.pos m / 2 ^ (- e) in
      Ok (if s then - magnitude else magnitude)
  end.

Definition IEEE_float (math_exp : spec_float -> pyresult spec_float)
  : PyFloat spec_float := {|
  f_zero := S754_zero false;
  f_add := SFadd 53 1024;
  f_div := SFdiv 53 1024;
  f_of_int := binary64_of_int;
  f_single := to_binary32;
  f_exp := math_exp;
  f_int := int_of_float
|}.

(** ** The supervision of the training subprocess: [run_training] *)

Inductive signal : Type := SIGTERM | SIGKILL.

Inductive pstatus : Type :=
| Running
| Exited (code : Z).

(** Modelled from the spec: the child process behind a [StreamablePopen]
    handle (the class lives in [instructlab.training.utils]).  [grace] is
    the number of seconds the child needs to exit once it has received the
    graceful-termination signal, [None] for a child that ignores it;
    [received] lists the signals delivered to it. *)
Record child : Type := mk_child {
  status : pstatus;
  grace : option Z;
  term_code : Z;
  received : list signal
}.

(** The calls made on the handle, in order.  The supervisor also keeps
    what it prints (without the colour escapes of the source) and the
    number of timeouts [wait] has raised. *)
Inductive call : Type :=
| CallPoll
| CallTerminate
| CallWait (timeout : Z)
| CallKill.

Record supervisor : Type := mk_sup {
  process : option child;
  calls : list call;
  timeouts : nat;
  printed : list string
}.

Definition print (msg : string) : Py supervisor unit :=
  modify (fun s =>
    {| process := process s;
       calls := calls s;
       timeouts := timeouts s;
       printed := (printed s ++ [msg])%list |}).

Definition record_call (c : call) (p : option child) (s : supervisor)
  : supervisor :=
  {| process := p;
     calls := (calls s ++ [c])%list;
     timeouts := timeouts s;
     printed := printed s |}.

(** A method call on [process]; [None] has no methods. *)
Definition on_process {A} (c : call) (f : child -> pyresult A * child)
  : Py supervisor A :=
  fun s =>
    match process s with
    | None => (Raise AttributeError, s)
    | Some p => let '(r, p') := f p in (r, record_call c (Some p') s)
    end.

(** Modelled from the spec: [poll] reports the exit status of a child
    that has exited and [None] for a running one. *)
Definition poll : Py supervisor (option Z) :=
  on_process CallPoll (fun p =>
    match status p with
    | Exited code => (Ok (Some code), p)
    | Running => (Ok None, p)
    end).

Definition deliver (sg : signal) (p : child) : child :=
  {| status := status p;
     grace := grace p;
     term_code := term_code p;
     received := (received p ++ [sg])%list |}.

Definition exit_with (code : Z) (p : child) : child :=
  {| status := Exited code;
     grace := grace p;
     term_code := term_code p;
     received := received p |}.

(** Modelled from the spec: [terminate] sends the graceful-termination
    signal; a child that has exited receives nothing. *)
Definition terminate : Py supervisor unit :=
  on_process CallTerminate (fun p =>
    match status p with
    | Exited _ => (Ok tt, p)
    | Running => (Ok tt, deliver SIGTERM p)
    end).

Definition has_sigterm (p : child) : bool :=
  existsb (fun sg => match sg with SIGTERM => true | SIGKILL => false end)
          (received p).

(** Modelled from the spec: [wait] blocks until the child exits or the
    timeout elapses, and returns the exit status or raises the timeout
    error.  A running child exits within the timeout when it has been
    asked to terminate and its [grace] fits in. *)
Definition wait_child (timeout : Z) (p : child) : pyresult Z * child :=
  match status p with
  | Exited code => (Ok code, p)
  | Running =>
      match grace p with
      | Some d =>
          if has_sigterm p && (d <=? timeout)
          then (Ok (term_code p), exit_with (term_code p) p)
          else (Raise TimeoutExpired, p)
      | None => (Raise TimeoutExpired, p)
      end
  end.

Definition count_timeout {A} (r : pyresult A) (s : supervisor) : supervisor :=
  match r with
  | Raise TimeoutExpired =>
      {| process := process s;
         calls := calls s;
         timeouts := S (timeouts s);
         printed := printed s |}
  | _ => s
  end.

Definition wait (timeout : Z) : Py supervisor Z :=
  fun s =>
    let '(r, s') := on_process (CallWait timeout) (wait_child timeout) s in
    (r, count_timeout r s').

(** Modelled from the spec: [kill] sends the signal that cannot be
    ignored; a running child is gone at once. *)
Definition kill : Py supervisor unit :=
  on_process CallKill (fun p =>
    match status p with
    | Exited _ => (Ok tt, p)
    | Running => (Ok tt, exit_with (-9) (deliver SIGKILL p))
    end).

(** The outside world of one supervised run: what [StreamablePopen(...)]
    gives (the child, or the error of a failed launch), and how
    [process.listen()] ends: the exception it is left by, if any, and the
    child as it is at that moment. *)
Record run_world : Type := mk_run {
  w_popen : pyresult child;
  w_listen : child -> option exn * child
}.

Definition set_process (p : child) : Py supervisor unit :=
  modify (fun s =>
    {| process := Some p;
       calls := calls s;
       timeouts := timeouts s;
       printed := printed s |}).

Definition listen (w : run_world) : Py supervisor unit :=
  fun s =>
    match process s with
    | None => (Raise AttributeError, s)
    | Some p =>
        let '(e, p') := w_listen w p in
        let s' :=
          {| process := Some p';
             calls := calls s;
             timeouts := timeouts s;
             printed := printed s |} in
        match e with
        | Some ex => (Raise ex, s')
        | None => (Ok tt, s')
        end
    end.

(** Lines 613-624: the [try] with its two [except] clauses; the answer
    is the value of [interrupt]. *)
Definition launch_and_listen (w : run_world) : Py supervisor (option exn) :=
  try_except
    (p <- lift (w_popen w) ;;
     set_process p ;;
     listen w ;;
     ret None)
    (fun e =>
       match e with
       | KeyboardInterrupt =>
           Some (print "Training subprocess interrupted by user." ;;
                 ret (Some e))
       | _ =>
           Some (print "An error occurred" ;;
                 ret (Some e))
       end).

(** Lines 625-648: the [finally] block. *)
Definition shutdown (interrupt : option exn) : Py supervisor unit :=
  fun s =>
    match process s with
    | None => (Ok tt, s)
    | Some _ =>
        (code <- poll ;;
         (match code with
          | Some 0 => print "Training subprocess exited successfully!"
          | _ =>
              print "Training subprocess has not exited yet. Sending SIGTERM."
          end) ;;
         print "Sending interrupt signal to Training subprocess." ;;
         terminate ;;
         try_except
           (print "Waiting for process to exit, 60s..." ;;
            _ <- wait 60 ;;
            ret tt)
           (fun e =>
              match e with
              | TimeoutExpired =>
                  Some
                    (print
                       "Training subprocess did not terminate before timeout, sending SIGKILL." ;;
                     kill)
              | _ => None
              end) ;;
         match interrupt with
         | Some e =>
             print "Error caught from training subprocess." ;;
             raise e
         | None => ret tt
         end) s
    end.

Definition supervisor_start : supervisor :=
  {| process := None; calls := []; timeouts := 0; printed := [] |}.

(** [run_training] from the launch of the subprocess on (lines 611-648);
    what precedes only validates the arguments and builds the command. *)
Definition run_training (w : run_world) : pyresult unit * supervisor :=
  (interrupt <- launch_and_listen w ;;
   shutdown interrupt) supervisor_start.

Definition count_call (c : call) (s : supervisor) : nat :=
  List.length
    (List.filter
       (fun c' =>
          match c, c' with
          | CallPoll, CallPoll => true
          | CallTerminate, CallTerminate => true
          | CallKill, CallKill => true
          | CallWait a, CallWait b => a =? b
          | _, _ => false
          end)
       (calls s)).

(** ** Decimal numerals *)

(** The value of a string of decimal digits, most significant first. *)
Fixpoint horner (acc : Z) (ds : string) : Z :=
  match ds with
  | EmptyString => acc
  | String c ds' => horner (10 * acc + digit_value c) ds'
  end.

Definition decimal_value (ds : string) : Z := horner 0 ds.

(** [str(n)] for a natural number [n]. *)
Definition str_of_nat (n : nat) : string :=
  DecimalString.NilZero.string_of_uint (Nat.to_uint n).

Fixpoint replicate (n : nat) (c : ascii) : string :=
  match n with
  | O => EmptyString
  | S n' => String c (replicate n' c)
  end.

(** ["1" * 4301]: one digit more than [int] takes. *)
Definition numeral_of_4301_digits : string := replicate 4301 "1".

(** An underscore with a digit right after it occurs in [s]. *)
Fixpoint has_separator (s : string) : bool :=
  match s with
  | EmptyString => false
  | String c s' =>
      match s' with
      | String d _ => (Ascii.eqb c underscore && is_digit d) || has_separator s'
      | EmptyString => false
      end
  end.

(** [s] begins with an underscore and a digit. *)
Definition starts_separator (s : string) : bool :=
  match s with
  | String c (String d _) => Ascii.eqb c underscore && is_digit d
  | _ => false
  end.

(** ** Worlds, inputs and observations used in the statements *)

(** Full fine-tuning with an effective batch size of 400; [last_step]
    has the default of the command line. *)
Definition args_400 : args :=
  {| lora_r := 0;
     output_dir := "out";
     effective_batch_size := 400;
     last_step := 0;
     use_dolomite := false |}.

(** Every load succeeds at once; reading [ds_native/latest] gives
    [text]. *)
Definition world_with_manifest (text : pyresult string) : resume_world :=
  {| w_load_checkpoint := fun _ _ _ => Ok tt;
     w_prepare_universal := Ok tt;
     w_latest := text |}.

(** The world-size-mismatch condition of line 275. *)
Definition world_size_mismatch (e : exn) : bool :=
  match e with
  | ZeRORuntimeException msg => String.prefix world_size_message msg
  | _ => false
  end.

(** The error DeepSpeed raises for a checkpoint of another world size. *)
Definition mismatch_error : exn :=
  ZeRORuntimeException
    "The checkpoint being loaded used a DP world size of 8 but the current world size is 4.".

(** The first load meets a checkpoint of another world size; afterwards
    the conversion and the loads answer as given. *)
Definition mismatch_world (conversion retry : pyresult unit) : resume_world :=
  {| w_load_checkpoint :=
       fun n universal _ =>
         if universal then retry
         else match n with O => Raise mismatch_error | _ => Ok tt end;
     w_prepare_universal := conversion;
     w_latest := Ok "samples_12000" |}.

(** A record that carries the perplexity value. *)
Definition reports_perplexity {F} (r : metric_record F) : bool :=
  existsb (fun kv => String.eqb (fst kv) "avg_perplexity") r.

(** The logger of rank 0 before anything is written. *)
Definition empty_sink : metric_sink R :=
  {| sink_path := "out/perplexity_log_0.jsonl"; sink_lines := [] |}.

(** The example of the specification: one batch on two ranks, with
    losses 10 and 20 and token counts 100 and 300. *)
Definition example_batch : batch R :=
  [mk_shard 10%R 100 4; mk_shard 20%R 300 6].

(** The test the module makes before every write: the local rank of the
    process, read from [LOCAL_RANK], is 0. *)
Definition is_local_rank_zero (env : environ) : bool :=
  match getenv_int env "LOCAL_RANK" with
  | Ok 0 => true
  | _ => false
  end.

(** The environment [torchrun] gives to one process. *)
Definition torchrun_environ (rank local_rank world_size : string) : environ :=
  fun key =>
    if String.eqb key "RANK" then Some rank
    else if String.eqb key "LOCAL_RANK" then Some local_rank
    else if String.eqb key "WORLD_SIZE" then Some world_size
    else None.

(** What [run_training] answers when [interrupt] holds [i]. *)
Definition outcome_of (i : option exn) : pyresult unit :=
  match i with
  | Some e => Raise e
  | None => Ok tt
  end.

(** A child that is launched running; it takes [g] seconds to exit once
    asked to terminate ([None]: it never does). *)
Definition fresh_child (g : option Z) : child :=
  {| status := Running; grace := g; term_code := -15; received := [] |}.

(** The child runs to a clean exit and [listen] ends by itself, or is
    left by [i]. *)
Definition clean_exit_world (i : option exn) : run_world :=
  {| w_popen := Ok (fresh_child (Some 5));
     w_listen := fun p => (i, exit_with 0 p) |}.

(** [listen] is left by [i] while the child, which takes [g] seconds to
    terminate, is still running. *)
Definition interrupted_world (g : option Z) (i : option exn) : run_world :=
  {| w_popen := Ok (fresh_child g);
     w_listen := fun p => (i, p) |}.

(** ** Further observations on the checkpoint resumer *)

(** [s] is empty or begins with a character outside the class [p]. *)
Definition head_not (p : ascii -> bool) (s : string) : bool :=
  match s with
  | EmptyString => true
  | String c _ => negb (p c)
  end.

(** A manifest as a text editor leaves it: [samples_12000] and a line
    feed. *)
Definition manifest_with_newline : string :=
  "samples_12000" ++ String (ascii_of_nat 10) EmptyString.

Definition is_print (ev : resume_event) : bool :=
  match ev with EvPrint _ _ => true | _ => false end.

(** The value of [load_module_strict] that a load was made with agrees
    with [b]; other events pass. *)
Definition load_is_strict (b : bool) (ev : resume_event) : bool :=
  match ev with
  | EvLoad _ strict => Bool.eqb strict b
  | _ => true
  end.

(** Full fine-tuning with an effective batch size of 0. *)
Definition args_zero_batch : args :=
  {| lora_r := 0;
     output_dir := "out";
     effective_batch_size := 0;
     last_step := 0;
     use_dolomite := false |}.

(** ** Further observations on the supervisor *)

(** The child of the handle has exited. *)
Definition child_has_exited (s : supervisor) : bool :=
  match process s with
  | Some p => match status p with Exited _ => true | Running => false end
  | None => false
  end.

(** The training command cannot be started. *)
Definition failed_launch_world (e : exn) : run_world :=
  {| w_popen := Raise e; w_listen := fun p => (None, p) |}.

(** The child fails with exit status [code] and [listen] ends by
    itself. *)
Definition failed_exit_world (code : Z) : run_world :=
  {| w_popen := Ok (fresh_child (Some 5));
     w_listen := fun p => (None, exit_with code p) |}.

(** ** Further observations on the evaluation *)

Definition Zsum (l : list Z) : Z := fold_right Z.add 0 l.

(** An integer counter as it sits in the [float32] tensor of the
    reduction. *)
Definition tensor_of_int {F : Type} `{PyFloat F} (z : Z) : F :=
  f_single (f_of_int z).

(** What the reduction needs from [float32] to count exactly up to
    [bound]: every integer from 0 to [bound] comes back from the tensor
    as it went in, and the sum of two such integers that stays within
    [bound] is exact.  IEEE [binary32] has a significand of 24 bits: it
    gives this up to 2^24 and no further. *)
Definition float32_exact_to {F : Type} `{PyFloat F} (bound : Z) : Prop :=
  (forall z : Z, 0 <= z <= bound -> f_int (tensor_of_int z) = Ok z) /\
  (forall a b : Z,
      0 <= a -> 0 <= b -> a + b <= bound ->
      f_single (f_add (tensor_of_int a) (tensor_of_int b))
      = tensor_of_int (a + b)).

Definition counts_nonnegative {F : Type} (b : batch F) : bool :=
  forallb
    (fun s => (0 <=? num_loss_counted_tokens s) && (0 <=? num_samples s)) b.

(** A batch with the shard of at least one rank, whose counters are not
    negative and add up, over the ranks, to at most [bound]. *)
Definition counts_within {F : Type} (bound : Z) (b : batch F) : bool :=
  match b with [] => false | _ :: _ => true end
  && counts_nonnegative b
  && (Zsum (map num_loss_counted_tokens b) <=? bound)
  && (Zsum (map num_samples b) <=? bound).

(** The same requirement on IEEE arithmetic, as a test that runs
    through all the integers concerned. *)
Definition spec_float_eqb (x y : spec_float) : bool :=
  match x, y with
  | S754_zero s, S754_zero s' => Bool.eqb s s'
  | S754_infinity s, S754_infinity s' => Bool.eqb s s'
  | S754_nan, S754_nan => true
  | S754_finite s m e, S754_finite s' m' e' =>
      Bool.eqb s s' && (m =? m')%positive && (e =? e')
  | _, _ => false
  end.

Fixpoint integers_to (n : nat) : list Z :=
  match n with
  | O => [0]
  | S n' => Z.of_nat n :: integers_to n'
  end.

Definition binary32_exact_to (bound : nat) : bool :=
  forallb
    (fun z =>
       match int_of_float (to_binary32 (binary64_of_int z)) with
       | Ok z' => z' =? z
       | Raise _ => false
       end)
    (integers_to bound)
  && forallb
       (fun a =>
          forallb
            (fun b =>
               (Z.of_nat bound <? a + b)
               || spec_float_eqb
                    (to_binary32
                       (SFadd 53 1024 (to_binary32 (binary64_of_int a))
                              (to_binary32 (binary64_of_int b))))
                    (to_binary32 (binary64_of_int (a + b))))
            (integers_to bound))
       (integers_to bound).

(** Stands in for [math.exp] where it is not called. *)
Definition no_math_exp (x : spec_float) : pyresult spec_float :=
  Raise OverflowError.

(** Two batches on three ranks, in IEEE arithmetic. *)
Definition example_loader : list (batch spec_float) :=
  [[mk_shard (binary64_of_int 10) 100 4;
    mk_shard (binary64_of_int 20) 300 6;
    mk_shard (binary64_of_int 5) 50 2];
   [mk_shard (binary64_of_int 1) 7 1;
    mk_shard (binary64_of_int 2) 0 0;
    mk_shard (binary64_of_int 3) 13 1]].

(** One batch on two ranks with 2^24 + 1 tokens in all. *)
Definition batch_beyond_float32 : batch spec_float :=
  [mk_shard (binary64_of_int 2) 16777216 3;
   mk_shard (binary64_of_int 3) 1 1].

(** The logger of a process of rank 8 before anything is written. *)
Definition empty_sink_ieee : metric_sink spec_float :=
  {| sink_path := "out/perplexity_log_8.jsonl"; sink_lines := [] |}.

(** ** Parts of [setup_model] *)

(** Lines 121-127.  [int(8 * math.ceil(n / 8.0))]: for a length [n]
    below 2^53 the quotient [n / 8.0] is exact, since 8 is a power of
    two, and [math.ceil] gives the ceiling of [n / 8] as an integer. *)
Definition padded_vocab_size (n : Z) : Z := 8 * (- ((- n) / 8)).

(** The size of the embedding table after the block: it is resized when
    the tokenizer has more tokens than the model has rows. *)
Definition resize_token_embeddings (tokenizer_len vocab_size : Z) : Z :=
  if vocab_size <? tokenizer_len
  then padded_vocab_size tokenizer_len
  else vocab_size.

(** The special token ids of a model configuration or of a tokenizer;
    [None] is Python's [None]. *)
Record token_ids : Type := mk_ids {
  pad_token_id : option Z;
  bos_token_id : option Z;
  eos_token_id : option Z
}.

(** [x is not None]. *)
Definition is_not_none (x : option Z) : bool :=
  match x with Some _ => true | None => false end.

(** The truth value of [x]: [None] and 0 are false. *)
Definition truthy (x : option Z) : bool :=
  match x with Some n => negb (n =? 0) | None => false end.

(** [a != b] on ids. *)
Definition ids_differ (a b : option Z) : bool :=
  match a, b with
  | Some x, Some y => negb (x =? y)
  | None, None => false
  | _, _ => true
  end.

(** Lines 129-156: the model configuration after the three repairs, and
    the names of the ids that were repaired (one warning each). *)
Definition fix_token_ids (model tokenizer : token_ids)
  : token_ids * list string :=
  let fix_pad :=
    is_not_none (pad_token_id model)
    && is_not_none (pad_token_id tokenizer)
    && ids_differ (pad_token_id model) (pad_token_id tokenizer) in
  let fix_bos :=
    is_not_none (bos_token_id model)
    && is_not_none (bos_token_id tokenizer)
    && ids_differ (bos_token_id model) (bos_token_id tokenizer) in
  let fix_eos :=
    is_not_none (eos_token_id model)
    && truthy (eos_token_id tokenizer)
    && ids_differ (eos_token_id model) (eos_token_id tokenizer) in
  ({| pad_token_id :=
        if fix_pad then pad_token_id tokenizer else pad_token_id model;
      bos_token_id :=
        if fix_bos then bos_token_id tokenizer else bos_token_id model;
      eos_token_id :=
        if fix_eos then eos_token_id tokenizer else eos_token_id model |},
   ((if fix_pad then ["pad"] else [])
    ++ (if fix_bos then ["bos"] else [])
    ++ (if fix_eos then ["eos"] else []))%list).

(** [set(l)]: the elements of [l], each once.  The order in which Python
    lists a set is not fixed; here it is that of the last occurrences. *)
Definition py_set (l : list string) : list string := nodup string_dec l.

Definition mem (x : string) (l : list string) : bool :=
  existsb (String.eqb x) l.

(** [a - b] on sets. *)
Definition set_difference (a b : list string) : list string :=
  filter (fun x => negb (mem x b)) a.

(** Lines 181-202: the modules that LoRA is applied to, given
    [args.lora_target_modules] ([None] or a list) and the projection
    layers found in the model; and whether a warning was printed.  The
    [RuntimeError] of line 187 is an [OtherError] here. *)
Definition select_lora_target_modules
           (lora_target_modules : option (list string))
           (proj_layers : list string)
  : pyresult (list string) * bool :=
  let unspecified :=
    match lora_target_modules with
    | None | Some [] => true
    | Some _ => false
    end in
  if unspecified then
    match proj_layers with
    | [] =>
        (Raise (OtherError
                  "could not find any projection layers in the model"),
         true)
    | _ => (Ok proj_layers, true)
    end
  else
    let requested :=
      match lora_target_modules with Some l => l | None => [] end in
    let lora_target_modules_set := py_set requested in
    let diff := set_difference lora_target_modules_set (py_set proj_layers) in
    let layers_to_target := set_difference lora_target_modules_set diff in
    if (List.length diff =? List.length requested)%nat
    then (Raise ValueError, false)
    else (Ok layers_to_target,
          match diff with [] => false | _ => true end).

(** ** [run_training] before the launch, and the parser of the script *)

(** [str(z)] for an integer. *)
Definition str_of_Z (z : Z) : string :=
  if z <? 0 then "-" ++ str_of_nat (Z.to_nat (- z))
  else str_of_nat (Z.to_nat z).

(** The argument classes live in [instructlab.training.config].  A field
    that the function only interpolates into the command is kept as the
    text its f-string gives; a field that it tests or compares has its
    value. *)
Record torchrun_args : Type := mk_torchrun {
  nnodes : string;
  node_rank : string;
  nproc_per_node : string;
  rdzv_id : string;
  rdzv_endpoint : string
}.

(** [train_args.lora].  [lo_target_modules] is the list, empty for
    [None]; [lo_quantize_nf4] is the value of the test of lines 572-575,
    whose enumeration is not in this file. *)
Record lora_options : Type := mk_lora {
  lo_rank : string;
  lo_alpha : string;
  lo_dropout : string;
  lo_target_modules : list string;
  lo_quantize_nf4 : bool
}.

Record training_args : Type := mk_training {
  ta_model_path : string;
  ta_data_path : string;
  ta_data_output_dir : string;
  ta_ckpt_output_dir : string;
  ta_chat_tmpl_path : string;
  ta_max_seq_len : Z;
  ta_max_batch_len : Z;
  ta_num_epochs : string;
  ta_effective_batch_size : string;
  ta_learning_rate : string;
  ta_warmup_steps : string;
  ta_save_samples : string;
  ta_random_seed : string;
  ta_checkpoint_at_epoch : bool;
  ta_accelerate_full_state_at_epoch : bool;
  ta_mock_data : bool;
  ta_mock_len : Z;
  ta_use_dolomite : bool;
  ta_disable_flash_attn : bool;
  ta_lora : option lora_options;
  ta_distributed_backend : string;
  ta_ds_save_samples : option Z;
  ta_ds_cpu_offload_optimizer : bool;
  ta_ds_cpu_offload_optimizer_ratio : string;
  ta_ds_cpu_offload_optimizer_pin_memory : bool;
  ta_fsdp_cpu_offload_params : bool;
  ta_fsdp_sharding_strategy : string
}.

(** Lines 516-536: the part of the command that is always there. *)
Definition base_command (script : string) (torch_args : torchrun_args)
           (train_args : training_args) : list string :=
  ["torchrun";
   "--nnodes=" ++ nnodes torch_args;
   "--node_rank=" ++ node_rank torch_args;
   "--nproc_per_node=" ++ nproc_per_node torch_args;
   "--rdzv_id=" ++ rdzv_id torch_args;
   "--rdzv_endpoint=" ++ rdzv_endpoint torch_args;
   script;
   "--model_name_or_path=" ++ ta_model_path train_args;
   "--data_path=" ++ ta_data_output_dir train_args ++ "/data.jsonl";
   "--output_dir=" ++ ta_ckpt_output_dir train_args;
   "--num_epochs=" ++ ta_num_epochs train_args;
   "--effective_batch_size=" ++ ta_effective_batch_size train_args;
   "--learning_rate=" ++ ta_learning_rate train_args;
   "--num_warmup_steps=" ++ ta_warmup_steps train_args;
   "--save_samples=" ++ ta_save_samples train_args;
   "--log_level=INFO";
   "--max_batch_len=" ++ str_of_Z (ta_max_batch_len train_args);
   "--seed=" ++ ta_random_seed train_args;
   "--chat-tmpl-path=" ++ ta_chat_tmpl_path train_args].

(** Lines 559-577. *)
Definition lora_command (l : lora_options) : list string :=
  ([("--lora_r=" ++ lo_rank l)%string;
    ("--lora_alpha=" ++ lo_alpha l)%string;
    ("--lora_dropout=" ++ lo_dropout l)%string;
    "--lora_target_modules"]
   ++ lo_target_modules l
   ++ (if lo_quantize_nf4 l then ["--lora_quant_bits=4"] else []))%list.

(** Lines 584-608. *)
Definition backend_command (train_args : training_args) : list string :=
  ([("--distributed_training_framework="
     ++ ta_distributed_backend train_args)%string]
   ++ (if truthy (ta_ds_save_samples train_args)
       then [("--save_samples_ds="
              ++ match ta_ds_save_samples train_args with
                 | Some n => str_of_Z n
                 | None => "None"
                 end)%string]
       else [])
   ++ (if ta_ds_cpu_offload_optimizer train_args
       then (["--cpu_offload_optimizer";
              ("--cpu_offload_optimizer_ratio="
               ++ ta_ds_cpu_offload_optimizer_ratio train_args)%string]
             ++ (if ta_ds_cpu_offload_optimizer_pin_memory train_args
                 then ["--cpu_offload_optimizer_pin_memory"]
                 else []))%list
       else [])
   ++ (if ta_fsdp_cpu_offload_params train_args
       then ["--cpu_offload_params_fsdp"]
       else [])
   ++ [("--fsdp_sharding_strategy="
        ++ ta_fsdp_sharding_strategy train_args)%string])%list.

(** Lines 516-608: the command, or the error of line 554 (a
    [RuntimeError], an [OtherError] here). *)
Definition training_command (script : string) (torch_args : torchrun_args)
           (train_args : training_args) : pyresult (list string) :=
  let command :=
    (base_command script torch_args train_args
     ++ (if ta_checkpoint_at_epoch train_args
         then ["--checkpoint_at_epoch"] else [])
     ++ (if ta_accelerate_full_state_at_epoch train_args
         then ["--accelerate_full_state_at_epoch"] else [])
     ++ (if ta_mock_data train_args
         then ("--mock_data"
               :: (if negb (ta_mock_len train_args =? 0)
                   then [("--mock_len="
                          ++ str_of_Z (ta_mock_len train_args))%string]
                   else []))
         else [])
     ++ (if ta_use_dolomite train_args then ["--use_dolomite"] else []))%list
  in
  if ta_disable_flash_attn train_args && ta_use_dolomite train_args then
    Raise (OtherError
             "ERROR: Trying to use padding-free transformer without flash attention is not supported")
  else
    Ok (command
        ++ (if ta_disable_flash_attn train_args
            then ["--disable_flash_attn"] else [])
        ++ (match ta_lora train_args with
            | Some l => lora_command l
            | None => []
            end)
        ++ backend_command train_args)%list.

(** What [run_training] does to the outside world before it supervises
    the subprocess. *)
Inductive front_event : Type :=
| FeMakedirs (path : string)
| FeDataProcess (data_output_path model_path data_path : string)
                (max_seq_len : Z) (chat_tmpl_path : string)
| FePopen (log_path : string) (command : list string).

(** The outside world of the first part: which paths exist, and what
    creating a directory and processing the data answer. *)
Record front_world : Type := mk_front {
  fw_exists : string -> bool;
  fw_makedirs : string -> pyresult unit;
  fw_data_process : pyresult unit
}.

Definition front_emit (ev : front_event) : Py (list front_event) unit :=
  modify (fun evs => (evs ++ [ev])%list).

(** [if not os.path.exists(path): os.makedirs(path, exist_ok=True)]. *)
Definition ensure_directory (fw : front_world) (path : string)
  : Py (list front_event) unit :=
  if fw_exists fw path then ret tt
  else (front_emit (FeMakedirs path) ;; lift (fw_makedirs fw path)).

(** Lines 489-610: the validation, the processing of the data and the
    building of the command. *)
Definition prepare_training (fw : front_world) (script : string)
           (torch_args : torchrun_args) (train_args : training_args)
  : Py (list front_event) (list string) :=
  (if ta_max_batch_len train_args <? ta_max_seq_len train_args
   then raise ValueError else ret tt) ;;
  ensure_directory fw (ta_data_output_dir train_args) ;;
  front_emit (FeDataProcess (ta_data_output_dir train_args)
                            (ta_model_path train_args)
                            (ta_data_path train_args)
                            (ta_max_seq_len train_args)
                            (ta_chat_tmpl_path train_args)) ;;
  lift (fw_data_process fw) ;;
  ensure_directory fw (ta_ckpt_output_dir train_args) ;;
  lift (training_command script torch_args train_args).

(** The whole of [run_training]: the first part, then the supervision
    of the subprocess in the world [w]. *)
Definition run_training_from_args
           (fw : front_world) (w : run_world) (script : string)
           (torch_args : torchrun_args) (train_args : training_args)
  : pyresult unit * list front_event * option supervisor :=
  match prepare_training fw script torch_args train_args [] with
  | (Raise e, evs) => (Raise e, evs, None)
  | (Ok command, evs) =>
      let log_path :=
        ta_ckpt_output_dir train_args ++ "/full_logs_global"
        ++ node_rank torch_args ++ ".log" in
      let '(r, s) := run_training w in
      (r, (evs ++ [FePopen log_path command])%list, Some s)
  end.

(** How an option of the script takes its values. *)
Inductive option_kind : Type :=
| StoreTrue
| OneValue
| ManyValues.

(** Lines 654-779: the options the parser of the script declares. *)
Definition parser_options : list (string * option_kind) :=
  [("--model_name_or_path", OneValue);
   ("--data_path", OneValue);
   ("--output_dir", OneValue);
   ("--num_epochs", OneValue);
   ("--current_epoch", OneValue);
   ("--last_step", OneValue);
   ("--effective_batch_size", OneValue);
   ("--learning_rate", OneValue);
   ("--lr_scheduler", OneValue);
   ("--num_warmup_steps", OneValue);
   ("--save_samples", OneValue);
   ("--save_samples_ds", OneValue);
   ("--save_last", StoreTrue);
   ("--checkpoint_at_epoch", StoreTrue);
   ("--accelerate_full_state_at_epoch", StoreTrue);
   ("--log_level", OneValue);
   ("--seed", OneValue);
   ("--mock_data", StoreTrue);
   ("--mock_len", OneValue);
   ("--distributed_training_framework", OneValue);
   ("--fsdp_sharding_strategy", OneValue);
   ("--use_dolomite", StoreTrue);
   ("--lora_r", OneValue);
   ("--lora_alpha", OneValue);
   ("--lora_dropout", OneValue);
   ("--lora_quant_bits", OneValue);
   ("--lora_target_modules", ManyValues);
   ("--max_batch_len", OneValue);
   ("--cpu_offload_optimizer", StoreTrue);
   ("--cpu_offload_params_fsdp", StoreTrue);
   ("--cpu_offload_optimizer_pin_memory", StoreTrue);
   ("--cpu_offload_optimizer_ratio", OneValue);
   ("--NEFTune_alpha", OneValue);
   ("--chat-tmpl-path", OneValue);
   ("--disable_flash_attn", StoreTrue)].

(** An item of a command line is an option of the parser, given the way
    the parser takes it: [--name=value] for an option with one value,
    the bare [--name] for a switch or for an option with a list of
    values; or it is one of the [values] that follow such a list
    option. *)
Definition parser_takes (values : list string) (item : string) : Prop :=
  (exists name value,
      In (name, OneValue) parser_options /\ item = name ++ "=" ++ value)
  \/ In (item, StoreTrue) parser_options
  \/ In (item, ManyValues) parser_options
  \/ In item values.

(** The target modules of the request, none without LoRA. *)
Definition requested_modules (train_args : training_args) : list string :=
  match ta_lora train_args with
  | Some l => lo_target_modules l
  | None => []
  end.

(** [s] without its last character. *)
Fixpoint without_last (s : string) : string :=
  match s with
  | EmptyString => EmptyString
  | String c EmptyString => EmptyString
  | String c s' => String c (without_last s')
  end.

(** A world in which the directories are there and the data can be
    processed. *)
Definition ready_front_world : front_world :=
  {| fw_exists := fun _ => true;
     fw_makedirs := fun _ => Ok tt;
     fw_data_process := Ok tt |}.

Definition example_torchrun_args : torchrun_args :=
  {| nnodes := "1"; node_rank := "0"; nproc_per_node := "8";
     rdzv_id := "101"; rdzv_endpoint := "127.0.0.1:12222" |}.

(** A LoRA run on mock data with DeepSpeed, offloading the optimizer. *)
Definition example_training_args (max_seq_len : Z)
           (use_dolomite disable_flash_attn : bool) : training_args :=
  {| ta_model_path := "models/granite-7b";
     ta_data_path := "data/train.jsonl";
     ta_data_output_dir := "data/processed";
     ta_ckpt_output_dir := "checkpoints";
     ta_chat_tmpl_path := "chat_templates/ibm_generic_tmpl.py";
     ta_max_seq_len := max_seq_len;
     ta_max_batch_len := 60000;
     ta_num_epochs := "1";
     ta_effective_batch_size := "3840";
     ta_learning_rate := "0.0001";
     ta_warmup_steps := "1000";
     ta_save_samples := "12000";
     ta_random_seed := "42";
     ta_checkpoint_at_epoch := true;
     ta_accelerate_full_state_at_epoch := false;
     ta_mock_data := true;
     ta_mock_len := 2600;
     ta_use_dolomite := use_dolomite;
     ta_disable_flash_attn := disable_flash_attn;
     ta_lora :=
       Some {| lo_rank := "4"; lo_alpha := "32"; lo_dropout := "0.1";
               lo_target_modules := ["q_proj"; "v_proj"];
               lo_quantize_nf4 := true |};
     ta_distributed_backend := "deepspeed";
     ta_ds_save_samples := Some 12000;
     ta_ds_cpu_offload_optimizer := true;
     ta_ds_cpu_offload_optimizer_ratio := "1.0";
     ta_ds_cpu_offload_optimizer_pin_memory := true;
     ta_fsdp_cpu_offload_params := false;
     ta_fsdp_sharding_strategy := "SHARD_GRAD_OP" |}.

Definition is_popen (ev : front_event) : bool :=
  match ev with FePopen _ _ => true | _ => false end.

Definition is_data_process (ev : front_event) : bool :=
  match ev with FeDataProcess _ _ _ _ _ => true | _ => false end.

(** The command of the example run. *)
Definition example_command : list string :=
  ["torchrun"; "--nnodes=1"; "--node_rank=0"; "--nproc_per_node=8";
   "--rdzv_id=101"; "--rdzv_endpoint=127.0.0.1:12222"; "main_ds.py";
   "--model_name_or_path=models/granite-7b";
   "--data_path=data/processed/data.jsonl";
   "--output_dir=checkpoints"; "--num_epochs=1";
   "--effective_batch_size=3840"; "--learning_rate=0.0001";
   "--num_warmup_steps=1000"; "--save_samples=12000";
   "--log_level=INFO"; "--max_batch_len=60000"; "--seed=42";
   "--chat-tmpl-path=chat_templates/ibm_generic_tmpl.py";
   "--checkpoint_at_epoch"; "--mock_data"; "--mock_len=2600";
   "--disable_flash_attn";
   "--lora_r=4"; "--lora_alpha=32"; "--lora_dropout=0.1";
   "--lora_target_modules"; "q_proj"; "v_proj"; "--lora_quant_bits=4";
   "--distributed_training_framework=deepspeed";
   "--save_samples_ds=12000";
   "--cpu_offload_optimizer"; "--cpu_offload_optimizer_ratio=1.0";
   "--cpu_offload_optimizer_pin_memory";
   "--fsdp_sharding_strategy=SHARD_GRAD_OP"].

(** What the example run does before it supervises the subprocess. *)
Definition example_front_events : list front_event :=
  [FeDataProcess "data/processed" "models/granite-7b" "data/train.jsonl"
                 4096 "chat_templates/ibm_generic_tmpl.py";
   FePopen "checkpoints/full_logs_global0.log" example_command].

(** * Properties *)

(** ** Runs of the definitions on concrete inputs *)

Example re_match_samples :
  re_match manifest_pattern "samples_12000" = Some ["12000"].
Proof. reflexivity. Qed.

Example re_match_two_underscores :
  re_match manifest_pattern "global_step_640" = Some ["640"].
Proof. reflexivity. Qed.

Example re_match_no_underscore :
  re_match manifest_pattern "samples12000" = None.
Proof. reflexivity. Qed.

Example re_match_trailing_text :
  re_match manifest_pattern "ckpt_12abc" = Some ["12"].
Proof. reflexivity. Qed.

Example py_int_examples :
  py_int "12000" = Ok 12000 /\ py_int " -7 " = Ok (-7) /\
  py_int "1_000" = Ok 1000 /\ py_int "" = Raise ValueError /\
  py_int "12a" = Raise ValueError.
Proof. repeat split; reflexivity. Qed.

Example str_of_nat_examples :
  str_of_nat 0 = "0" /\ str_of_nat 640 = "640".
Proof. split; reflexivity. Qed.

(** ** Characters *)

Lemma digit_is_word (c : ascii) : is_digit c = true -> is_word c = true.
Proof.
  unfold is_word. intros ->. now rewrite orb_true_r.
Qed.

Lemma digit_not_underscore (c : ascii) :
  is_digit c = true -> Ascii.eqb c underscore = false.
Proof.
  intros Hd. destruct (Ascii.eqb c underscore) eqn:E; [|reflexivity].
  apply Ascii.eqb_eq in E. subst c. discriminate Hd.
Qed.

Lemma digit_not_space (c : ascii) : is_digit c = true -> is_space c = false.
Proof.
  unfold is_digit, is_space. intros Hd.
  apply andb_true_iff in Hd. destruct Hd as [H1 H2].
  apply N.leb_le in H1.
  apply orb_false_iff. split.
  - apply andb_false_iff. right. apply N.leb_gt. lia.
  - apply N.eqb_neq. lia.
Qed.

Lemma digit_not_sign (c : ascii) :
  is_digit c = true ->
  Ascii.eqb c "-" = false /\ Ascii.eqb c "+" = false.
Proof.
  intros Hd. split.
  - destruct (Ascii.eqb c "-") eqn:E; [|reflexivity].
    apply Ascii.eqb_eq in E. subst c. discriminate Hd.
  - destruct (Ascii.eqb c "+") eqn:E; [|reflexivity].
    apply Ascii.eqb_eq in E. subst c. discriminate Hd.
Qed.

(** ** [int] on a string of digits *)

Lemma int_digits_horner (ds : string) :
  all_chars is_digit ds = true ->
  forall acc, int_digits acc true ds = Some (horner acc ds).
Proof.
  induction ds as [|c ds IH]; intros Hall acc; simpl in *.
  - reflexivity.
  - apply andb_true_iff in Hall. destruct Hall as [Hc Hds].
    rewrite Hc. apply IH. exact Hds.
Qed.

Lemma count_chars_all (p : ascii -> bool) (s : string) :
  all_chars p s = true -> count_chars p s = Z.of_nat (String.length s).
Proof.
  induction s as [|c s IH]; [reflexivity|].
  intros Hall. simpl in Hall. apply andb_true_iff in Hall.
  destruct Hall as [Hc Hs].
  cbn [count_chars String.length]. rewrite Hc, (IH Hs). lia.
Qed.

(** [int] on a non-empty run of digits, before the test of its length. *)
Lemma py_int_digits_cases (ds : string) :
  ds <> EmptyString ->
  all_chars is_digit ds = true ->
  py_int ds
  = if int_max_str_digits <? Z.of_nat (String.length ds)
    then Raise ValueError else Ok (decimal_value ds).
Proof.
  intros Hne Hall. rewrite <- (count_chars_all is_digit ds Hall).
  destruct ds as [|c ds]; [congruence|].
  pose proof Hall as Hall'.
  simpl in Hall'. apply andb_true_iff in Hall'. destruct Hall' as [Hc Hds].
  unfold py_int, decimal_value. cbn [lstrip].
  rewrite (digit_not_space c Hc).
  destruct (digit_not_sign c Hc) as [-> ->].
  cbn [int_digits horner]. rewrite Hc.
  now rewrite (int_digits_horner ds Hds).
Qed.

Lemma py_int_digits (ds : string) :
  ds <> EmptyString ->
  all_chars is_digit ds = true ->
  Z.of_nat (String.length ds) <= int_max_str_digits ->
  py_int ds = Ok (decimal_value ds).
Proof.
  intros Hne Hall Hlen. rewrite (py_int_digits_cases ds Hne Hall).
  apply Z.ltb_ge in Hlen. now rewrite Hlen.
Qed.

Lemma py_int_too_long (ds : string) :
  ds <> EmptyString ->
  all_chars is_digit ds = true ->
  int_max_str_digits < Z.of_nat (String.length ds) ->
  py_int ds = Raise ValueError.
Proof.
  intros Hne Hall Hlen. rewrite (py_int_digits_cases ds Hne Hall).
  apply Z.ltb_lt in Hlen. now rewrite Hlen.
Qed.

(** ** [str] of a natural number *)

Lemma string_of_uint_digits (d : uint) :
  all_chars is_digit (NilEmpty.string_of_uint d) = true.
Proof.
  induction d; simpl; auto.
Qed.

Lemma horner_of_uint_acc (d : uint) :
  forall n : nat,
    horner (Z.of_nat n) (NilEmpty.string_of_uint d)
    = Z.of_nat (Nat.of_uint_acc d n).
Proof.
  induction d; intros n;
    cbn [NilEmpty.string_of_uint Nat.of_uint_acc horner];
    try reflexivity;
    rewrite Nat.tail_mul_spec, <- IHd; f_equal;
    match goal with
    | |- context [digit_value ?c] =>
        let v := eval vm_compute in (digit_value c) in
        change (digit_value c) with v
    end; lia.
Qed.

Lemma str_of_nat_digits (n : nat) :
  all_chars is_digit (str_of_nat n) = true.
Proof.
  unfold str_of_nat, NilZero.string_of_uint.
  destruct (Nat.to_uint n); try reflexivity; apply string_of_uint_digits.
Qed.

Lemma str_of_nat_nonempty (n : nat) : str_of_nat n <> EmptyString.
Proof.
  unfold str_of_nat, NilZero.string_of_uint.
  destruct (Nat.to_uint n); simpl; discriminate.
Qed.

Lemma decimal_value_str (n : nat) : decimal_value (str_of_nat n) = Z.of_nat n.
Proof.
  unfold decimal_value, str_of_nat.
  rewrite <- (DecimalNat.Unsigned.of_to n) at 2.
  unfold Nat.of_uint, NilZero.string_of_uint.
  destruct (Nat.to_uint n) eqn:E; try reflexivity;
    rewrite <- E; apply (horner_of_uint_acc _ 0%nat).
Qed.

(** ** The manifest pattern *)

Lemma has_separator_cons (c : ascii) (s : string) :
  has_separator (String c s) = starts_separator (String c s) || has_separator s.
Proof.
  destruct s; reflexivity.
Qed.

Lemma has_separator_starts (s : string) :
  has_separator s = false -> starts_separator s = false.
Proof.
  destruct s as [|c s]; [reflexivity|].
  rewrite has_separator_cons. intros Hs.
  now apply orb_false_iff in Hs.
Qed.

Lemma digits_no_separator (ds : string) :
  all_chars is_digit ds = true -> has_separator ds = false.
Proof.
  induction ds as [|c ds IH]; [reflexivity|].
  intros Hall. simpl in Hall. apply andb_true_iff in Hall.
  destruct Hall as [Hc Hds].
  rewrite has_separator_cons, (IH Hds), orb_false_r.
  destruct ds; simpl; [reflexivity|].
  now rewrite (digit_not_underscore c Hc).
Qed.

Lemma substring_all (s : string) : substring 0 (String.length s) s = s.
Proof.
  induction s as [|c s IH]; simpl; [reflexivity|]. now rewrite IH.
Qed.

Lemma consumed_all (s : string) : consumed s EmptyString = s.
Proof.
  unfold consumed. simpl. rewrite Nat.sub_0_r. apply substring_all.
Qed.

Section MatcherFacts.
Context {A : Type}.
Implicit Types k : string -> option A.

(** A greedy repetition over a text made of its class only ends at the
    end of the text when the rest of the pattern accepts that. *)
Lemma plus_greedy_all (cls : ascii -> bool) (s : string) k (r : A) :
  s <> EmptyString ->
  all_chars cls s = true ->
  k EmptyString = Some r ->
  plus_greedy cls s k = Some r.
Proof.
  intros Hne Hall Hk. induction s as [|c s IH]; [congruence|].
  simpl in Hall. apply andb_true_iff in Hall. destruct Hall as [Hc Hs].
  simpl. rewrite Hc.
  destruct s as [|c' s'].
  - simpl. exact Hk.
  - rewrite IH; [reflexivity|discriminate|exact Hs].
Qed.

Variable k : string -> option A.
Hypothesis k_separator : forall t, starts_separator t = false -> k t = None.

(** If the rest of the pattern wants a separator and none occurs behind
    the first character, every way of ending the repetition fails. *)
Lemma plus_greedy_fail (cls : ascii -> bool) (s : string) :
  forall c, has_separator s = false -> plus_greedy cls (String c s) k = None.
Proof.
  induction s as [|c' s IH]; intros c Hs.
  - simpl. destruct (cls c); [|reflexivity]. now apply k_separator.
  - rewrite has_separator_cons in Hs. apply orb_false_iff in Hs.
    destruct Hs as [Hst Hs].
    change (plus_greedy cls (String c (String c' s)) k)
      with (if cls c
            then match plus_greedy cls (String c' s) k with
                 | Some r => Some r
                 | None => k (String c' s)
                 end
            else None).
    destruct (cls c); [|reflexivity].
    rewrite (IH c' Hs). now apply k_separator.
Qed.

(** Backtracking over [tag_digits] stops at the underscore between the
    two. *)
Lemma plus_greedy_tag (tag ds : string) (r : A) :
  tag <> EmptyString ->
  all_chars is_word tag = true ->
  all_chars is_digit ds = true ->
  k (String underscore ds) = Some r ->
  plus_greedy is_word (tag ++ String underscore ds) k = Some r.
Proof.
  intros Hne Hall Hds Hk. induction tag as [|c tag IH]; [congruence|].
  simpl in Hall. apply andb_true_iff in Hall. destruct Hall as [Hc Htag].
  simpl. rewrite Hc.
  destruct tag as [|c' tag'].
  - simpl append.
    rewrite (plus_greedy_fail is_word ds underscore
               (digits_no_separator ds Hds)).
    exact Hk.
  - rewrite IH; [reflexivity|discriminate|exact Htag].
Qed.
End MatcherFacts.

Lemma tail_needs_separator {A} (gs : list string)
      (k : string -> list string -> option A) (t : string) :
  starts_separator t = false ->
  rmatch separator_then_digits t gs k = None.
Proof.
  destruct t as [|c [|d t]]; simpl; intros Hs; try reflexivity.
  - now destruct (Ascii.eqb c underscore).
  - destruct (Ascii.eqb c underscore); [|reflexivity].
    simpl in Hs. now rewrite Hs.
Qed.

Lemma tail_takes_digits (gs : list string) (ds : string) :
  ds <> EmptyString ->
  all_chars is_digit ds = true ->
  rmatch separator_then_digits (String underscore ds) gs
         (fun _ g => Some g)
  = Some (gs ++ [ds])%list.
Proof.
  intros Hne Hall. simpl rmatch.
  apply plus_greedy_all; [exact Hne|exact Hall|].
  now rewrite consumed_all.
Qed.

Lemma re_match_tag_digits (tag ds : string) :
  tag <> EmptyString ->
  all_chars is_word tag = true ->
  ds <> EmptyString ->
  all_chars is_digit ds = true ->
  re_match manifest_pattern (tag ++ String underscore ds) = Some [ds].
Proof.
  intros Htag Hw Hds Hd. unfold re_match, manifest_pattern.
  change (rmatch (RSeq (RPlus is_word) separator_then_digits)
            (tag ++ String underscore ds) [] (fun _ gs => Some gs))
    with (plus_greedy is_word (tag ++ String underscore ds)
            (fun rest =>
               rmatch separator_then_digits rest [] (fun _ gs => Some gs))).
  apply plus_greedy_tag; auto.
  - intros t Ht. exact (tail_needs_separator [] (fun _ gs => Some gs) t Ht).
  - exact (tail_takes_digits [] ds Hds Hd).
Qed.

Lemma re_match_no_separator (s : string) :
  has_separator s = false -> re_match manifest_pattern s = None.
Proof.
  intros Hs. unfold re_match, manifest_pattern.
  change (rmatch (RSeq (RPlus is_word) separator_then_digits) s []
            (fun _ gs => Some gs))
    with (plus_greedy is_word s
            (fun rest =>
               rmatch separator_then_digits rest [] (fun _ gs => Some gs))).
  destruct s as [|c s]; [reflexivity|].
  rewrite has_separator_cons in Hs. apply orb_false_iff in Hs.
  apply plus_greedy_fail; [|tauto].
  intros t Ht. exact (tail_needs_separator [] (fun _ gs => Some gs) t Ht).
Qed.

Lemma parse_manifest_tag_digits (tag ds : string) :
  tag <> EmptyString ->
  all_chars is_word tag = true ->
  ds <> EmptyString ->
  all_chars is_digit ds = true ->
  Z.of_nat (String.length ds) <= int_max_str_digits ->
  parse_manifest (tag ++ String underscore ds) = Ok (decimal_value ds).
Proof.
  intros Htag Hw Hds Hd Hlen. unfold parse_manifest.
  rewrite re_match_tag_digits by assumption.
  now apply py_int_digits.
Qed.

Lemma parse_manifest_no_separator (s : string) :
  has_separator s = false -> parse_manifest s = Raise AttributeError.
Proof.
  intros Hs. unfold parse_manifest. now rewrite re_match_no_separator.
Qed.

(** A text without any underscore has no separator. *)
Lemma no_underscore_no_separator (s : string) :
  all_chars (fun c => negb (Ascii.eqb c underscore)) s = true ->
  has_separator s = false.
Proof.
  induction s as [|c s IH]; [reflexivity|].
  intros Hall. simpl in Hall. apply andb_true_iff in Hall.
  destruct Hall as [Hc Hs].
  rewrite has_separator_cons, (IH Hs), orb_false_r.
  destruct s; simpl; [reflexivity|].
  apply negb_true_iff in Hc. now rewrite Hc.
Qed.

(** ** The recovery of [last_step] *)

Lemma recover_last_step_parsed (w : resume_world) (lr : Z)
      (st : resume_state) (s : string) (n : Z) :
  w_latest w = Ok s ->
  parse_manifest s = Ok n ->
  effective_batch_size (rs_args st) <> 0 ->
  exists st',
    recover_last_step w lr st = (Ok tt, st') /\
    rs_args st'
    = set_last_step (n / effective_batch_size (rs_args st)) (rs_args st) /\
    load_universal_checkpoint st' = load_universal_checkpoint st.
Proof.
  intros Hlatest Hparse Hebs.
  unfold recover_last_step, try_except, bind, lift, gets, update_args, modify.
  rewrite Hlatest, Hparse. unfold py_floordiv.
  apply Z.eqb_neq in Hebs. rewrite Hebs.
  destruct (lr =? 0); eexists; repeat split.
Qed.

Lemma recover_last_step_malformed (w : resume_world) (lr : Z)
      (st : resume_state) (s : string) :
  w_latest w = Ok s ->
  parse_manifest s = Raise AttributeError ->
  recover_last_step w lr st = (Raise AttributeError, st).
Proof.
  intros Hlatest Hparse.
  unfold recover_last_step, try_except, bind, lift.
  now rewrite Hlatest, Hparse.
Qed.

(** An error of the parse other than a missing file is not caught. *)
Lemma recover_last_step_unparsed (w : resume_world) (lr : Z)
      (st : resume_state) (s : string) (e : exn) :
  w_latest w = Ok s ->
  parse_manifest s = Raise e ->
  match e with FileNotFoundError => False | _ => True end ->
  recover_last_step w lr st = (Raise e, st).
Proof.
  intros Hlatest Hparse He.
  unfold recover_last_step, try_except, bind, lift.
  rewrite Hlatest, Hparse. now destruct e.
Qed.

Lemma recover_last_step_missing (w : resume_world) (lr : Z)
      (st : resume_state) :
  w_latest w = Raise FileNotFoundError ->
  recover_last_step w lr st = (Ok tt, st).
Proof.
  intros Hlatest.
  unfold recover_last_step, try_except, bind, lift.
  now rewrite Hlatest.
Qed.

(** C4, as the code has it.  A manifest [<tag>_<n>] whose tag is a
    non-empty run of ASCII word characters (letters, digits, underscores)
    and whose [n] is the decimal numeral of a natural number, of at most
    4300 digits, is parsed to exactly [n]; a longer numeral is refused by
    [int].  An ASCII manifest in which no underscore is directly followed
    by a digit (so: one without any underscore, one with only non-digits
    after its underscores, the empty one) makes the recovery fail with the
    error of the failed match, which is not caught, and leaves [args]
    untouched: [last_step] is not set. *)
Theorem manifest_parse :
  (forall (tag : string) (n : nat),
      tag <> EmptyString ->
      all_chars is_word tag = true ->
      Z.of_nat (String.length (str_of_nat n)) <= int_max_str_digits ->
      parse_manifest (tag ++ String underscore (str_of_nat n))
      = Ok (Z.of_nat n))
  /\
  (forall (tag ds : string),
      tag <> EmptyString ->
      all_chars is_word tag = true ->
      ds <> EmptyString ->
      all_chars is_digit ds = true ->
      int_max_str_digits < Z.of_nat (String.length ds) ->
      parse_manifest (tag ++ String underscore ds) = Raise ValueError)
  /\
  (forall (s : string) (w : resume_world) (lr : Z) (st : resume_state),
      w_latest w = Ok s ->
      all_chars is_ascii s = true ->
      has_separator s = false ->
      recover_last_step w lr st = (Raise AttributeError, st)).
Proof.
  split; [|split].
  - intros tag n Htag Hw Hlen.
    rewrite parse_manifest_tag_digits;
      auto using str_of_nat_nonempty, str_of_nat_digits.
    now rewrite decimal_value_str.
  - intros tag ds Htag Hw Hds Hd Hlen. unfold parse_manifest.
    rewrite re_match_tag_digits by assumption.
    now apply py_int_too_long.
  - intros s w lr st Hlatest _ Hs.
    apply recover_last_step_malformed with (s := s); [exact Hlatest|].
    now apply parse_manifest_no_separator.
Qed.

Lemma manifest_parse_witness :
  parse_manifest ("samples" ++ String underscore (str_of_nat 640)) = Ok 640
  /\
  parse_manifest ("samples" ++ String underscore numeral_of_4301_digits)
  = Raise ValueError
  /\
  recover_last_step (world_with_manifest (Ok "samples-640")) 0
                    (resume_start args_400)
  = (Raise AttributeError, resume_start args_400).
Proof.
  split; [|split].
  - apply (proj1 manifest_parse "samples" 640%nat);
      [discriminate|reflexivity|vm_compute; discriminate].
  - apply (proj1 (proj2 manifest_parse) "samples" numeral_of_4301_digits);
      [discriminate|reflexivity|discriminate|vm_compute; reflexivity
      |vm_compute; reflexivity].
  - apply (proj2 (proj2 manifest_parse) "samples-640"); reflexivity.
Defined.

(** C4 fails as it is stated, on both sides.  The tag is not opaque: a
    manifest [<tag>_<n>] whose tag holds a hyphen is rejected.  And text
    that is not of the form [<tag>_<n>] is accepted when a digit follows
    an underscore somewhere: the match is not anchored at the end. *)
Lemma manifest_parse_counterexample :
  parse_manifest "global-step_100" = Raise AttributeError /\
  parse_manifest "ckpt_12abc" = Ok 12 /\
  parse_manifest "step_1_final" = Ok 1.
Proof. repeat split; reflexivity. Qed.

(** C9.  When the manifest gives a non-negative [samples_seen] and the
    effective batch size is positive, the recovery succeeds and sets
    [args.last_step] to [samples_seen // effective_batch_size], the floor
    of the quotient; the manifest [samples_12000] with an effective batch
    size of 400 gives step 30. *)
Theorem last_step_floor_division :
  (forall (w : resume_world) (lr : Z) (st : resume_state) (s : string)
          (samples_seen : Z),
      w_latest w = Ok s ->
      parse_manifest s = Ok samples_seen ->
      0 <= samples_seen ->
      0 < effective_batch_size (rs_args st) ->
      exists st',
        recover_last_step w lr st = (Ok tt, st') /\
        last_step (rs_args st')
        = samples_seen / effective_batch_size (rs_args st) /\
        effective_batch_size (rs_args st) * last_step (rs_args st')
        <= samples_seen
        < effective_batch_size (rs_args st) * (last_step (rs_args st') + 1))
  /\
  (forall (lr : Z),
      parse_manifest "samples_12000" = Ok 12000 /\
      last_step
        (rs_args
           (snd (recover_last_step (world_with_manifest (Ok "samples_12000"))
                                   lr (resume_start args_400))))
      = 30).
Proof.
  split.
  - intros w lr st s n Hlatest Hparse Hn Hebs.
    destruct (recover_last_step_parsed w lr st s n Hlatest Hparse)
      as (st' & Hrun & Hargs & _); [lia|].
    exists st'. split; [exact Hrun|]. rewrite Hargs. simpl last_step.
    split; [reflexivity|].
    pose proof (Z.mul_div_le n _ Hebs).
    pose proof (Z.mul_succ_div_gt n _ Hebs). lia.
  - intros lr. split; [reflexivity|].
    unfold recover_last_step, try_except, bind, lift. simpl.
    destruct (lr =? 0); reflexivity.
Qed.

Lemma last_step_floor_division_witness :
  exists st',
    recover_last_step (world_with_manifest (Ok "ckpt_1250")) 0
                      (resume_start args_400) = (Ok tt, st') /\
    last_step (rs_args st') = 1250 / 400 /\
    400 * last_step (rs_args st') <= 1250
    < 400 * (last_step (rs_args st') + 1).
Proof.
  apply (proj1 last_step_floor_division
               (world_with_manifest (Ok "ckpt_1250")) 0
               (resume_start args_400) "ckpt_1250" 1250);
    [reflexivity | reflexivity | lia | simpl; lia].
Defined.

(** C10.  Two resumes with the same positive effective batch size: when
    the second reads a [samples_seen] that is not smaller than that of the
    first, both recoveries succeed and the [last_step] of the second is
    not smaller than that of the first. *)
Theorem last_step_monotone
        (w1 w2 : resume_world) (lr1 lr2 : Z) (st1 st2 : resume_state)
        (s1 s2 : string) (n1 n2 : Z) :
  w_latest w1 = Ok s1 ->
  w_latest w2 = Ok s2 ->
  parse_manifest s1 = Ok n1 ->
  parse_manifest s2 = Ok n2 ->
  effective_batch_size (rs_args st1) = effective_batch_size (rs_args st2) ->
  0 < effective_batch_size (rs_args st1) ->
  n1 <= n2 ->
  fst (recover_last_step w1 lr1 st1) = Ok tt /\
  fst (recover_last_step w2 lr2 st2) = Ok tt /\
  last_step (rs_args (snd (recover_last_step w1 lr1 st1)))
  <= last_step (rs_args (snd (recover_last_step w2 lr2 st2))).
Proof.
  intros H1 H2 P1 P2 Hsame Hpos Hle.
  destruct (recover_last_step_parsed w1 lr1 st1 s1 n1 H1 P1)
    as (st1' & -> & A1 & _); [lia|].
  destruct (recover_last_step_parsed w2 lr2 st2 s2 n2 H2 P2)
    as (st2' & -> & A2 & _); [lia|].
  simpl. rewrite A1, A2. simpl last_step. rewrite <- Hsame.
  repeat split. now apply Z.div_le_mono.
Qed.

Lemma last_step_monotone_witness :
  fst (recover_last_step (world_with_manifest (Ok "samples_12000")) 0
                         (resume_start args_400)) = Ok tt /\
  fst (recover_last_step (world_with_manifest (Ok "samples_12399")) 0
                         (resume_start args_400)) = Ok tt /\
  last_step
    (rs_args (snd (recover_last_step
                     (world_with_manifest (Ok "samples_12000")) 0
                     (resume_start args_400))))
  <= last_step
       (rs_args (snd (recover_last_step
                        (world_with_manifest (Ok "samples_12399")) 0
                        (resume_start args_400)))).
Proof.
  apply (last_step_monotone
           (world_with_manifest (Ok "samples_12000"))
           (world_with_manifest (Ok "samples_12399"))
           0 0 (resume_start args_400) (resume_start args_400)
           "samples_12000" "samples_12399" 12000 12399);
    try reflexivity; simpl; lia.
Defined.

(** ** The load and its fall-back *)

Ltac run_py :=
  unfold load_with_fallback, prepare_universal_checkpoint_from_latest,
    load_checkpoint, set_universal, emit, try_except, bind, lift, gets,
    modify, raise, ret;
  simpl.

Lemma load_with_fallback_args (w : resume_world) (st : resume_state) :
  rs_args (snd (load_with_fallback w st)) = rs_args st.
Proof.
  run_py.
  destruct (w_load_checkpoint w (rs_loads st) _ _) as [[]|e];
    [reflexivity|].
  destruct e; try reflexivity.
  destruct (String.prefix world_size_message msg); [|reflexivity].
  simpl. destruct (w_prepare_universal w) as [[]|e]; [|reflexivity].
  simpl. destruct (w_load_checkpoint w (S (rs_loads st)) true _) as [[]|e];
    reflexivity.
Qed.

(** C2, as the code has it.  From a fresh resume attempt whose first
    load fails with the world-size-mismatch condition, the conversion to a
    universal checkpoint is attempted exactly once.  If the conversion
    raises, its error propagates and no retry is made.  If it returns,
    exactly one retry load is made, with the universal-format flag
    enabled; when the retry returns the flag is disabled again and the
    load has succeeded, and when the retry raises its error propagates.
    A first load that fails with anything else propagates its error after
    no conversion and no retry. *)
Theorem fallback_to_universal :
  (forall (w : resume_world) (a : args) (e : exn),
      w_load_checkpoint w 0%nat false (lora_r a =? 0) = Raise e ->
      world_size_mismatch e = true ->
      let strict := lora_r a =? 0 in
      let r := fst (load_with_fallback w (resume_start a)) in
      let st := snd (load_with_fallback w (resume_start a)) in
      count_events is_prepare st = 1%nat /\
      match w_prepare_universal w with
      | Raise e' =>
          r = Raise e' /\ retries st = 0%nat /\
          rs_trace st = [EvLoad false strict; EvPrepareUniversal]
      | Ok _ =>
          retries st = 1%nat /\
          rs_trace st
          = [EvLoad false strict; EvPrepareUniversal; EvLoad true strict] /\
          match w_load_checkpoint w 1%nat true strict with
          | Ok _ => r = Ok tt /\ load_universal_checkpoint st = false
          | Raise e' => r = Raise e'
          end
      end)
  /\
  (forall (w : resume_world) (a : args) (e : exn),
      w_load_checkpoint w 0%nat false (lora_r a =? 0) = Raise e ->
      world_size_mismatch e = false ->
      let st := snd (load_with_fallback w (resume_start a)) in
      fst (load_with_fallback w (resume_start a)) = Raise e /\
      retries st = 0%nat /\
      count_events is_prepare st = 0%nat /\
      rs_trace st = [EvLoad false (lora_r a =? 0)]).
Proof.
  split.
  - intros w a e Hload Hmis strict r st. subst strict r st.
    destruct e; try discriminate Hmis. simpl in Hmis.
    unfold retries, count_events. run_py. rewrite Hload, Hmis. simpl.
    destruct (w_prepare_universal w) as [[]|e']; simpl.
    + destruct (w_load_checkpoint w 1%nat true (lora_r a =? 0)) as [[]|e'];
        simpl; repeat split.
    + repeat split.
  - intros w a e Hload Hmis st. subst st.
    unfold retries, count_events. run_py. rewrite Hload.
    destruct e; simpl in *; try (repeat split; reflexivity).
    rewrite Hmis. simpl. repeat split.
Qed.

Lemma fallback_to_universal_witness :
  let st :=
    snd (load_with_fallback (mismatch_world (Ok tt) (Ok tt))
                            (resume_start args_400)) in
  count_events is_prepare st = 1%nat /\
  retries st = 1%nat /\
  load_universal_checkpoint st = false /\
  fst (load_with_fallback
         (mismatch_world (Ok tt) (Ok tt)) (resume_start args_400)) = Ok tt.
Proof.
  pose proof (proj1 fallback_to_universal
                (mismatch_world (Ok tt) (Ok tt)) args_400 mismatch_error
                eq_refl eq_refl) as H.
  simpl in H. simpl. tauto.
Defined.

(** C2 fails as it is stated: after a mismatch the retry is not made when
    the conversion raises (here the manifest it reads is missing), and
    the flag is not disabled when the retry itself raises. *)
Lemma fallback_to_universal_counterexample :
  retries
    (snd (load_with_fallback
            (mismatch_world (Raise FileNotFoundError) (Ok tt))
            (resume_start args_400))) = 0%nat
  /\
  load_universal_checkpoint
    (snd (load_with_fallback
            (mismatch_world (Ok tt) (Raise (OtherError "bad shard")))
            (resume_start args_400))) = true.
Proof. split; reflexivity. Qed.

(** C8.  When [ds_native/latest] does not exist and the load phase has
    returned, the resumer returns normally; it prints nothing, and it
    leaves [args] as they were, so [last_step] keeps the value training
    starts from (0 unless the command line said otherwise). *)
Theorem resume_without_manifest
        (env : environ) (w : resume_world) (lr : Z)
        (st st1 : resume_state) :
  getenv_int env "LOCAL_RANK" = Ok lr ->
  load_with_fallback w st = (Ok tt, st1) ->
  w_latest w = Raise FileNotFoundError ->
  maybe_resume_training env w st = (Ok tt, st1) /\
  rs_args st1 = rs_args st /\
  (last_step (rs_args st) = 0 -> last_step (rs_args st1) = 0).
Proof.
  intros Henv Hload Hlatest.
  assert (Hargs : rs_args st1 = rs_args st).
  { pose proof (load_with_fallback_args w st) as H.
    now rewrite Hload in H. }
  repeat split.
  - unfold maybe_resume_training, bind, lift. rewrite Henv, Hload.
    now apply recover_last_step_missing.
  - exact Hargs.
  - now rewrite Hargs.
Qed.

Lemma resume_without_manifest_witness :
  maybe_resume_training
    (torchrun_environ "0" "0" "8")
    (world_with_manifest (Raise FileNotFoundError))
    (resume_start args_400)
  = (Ok tt,
     {| load_universal_checkpoint := false;
        rs_args := args_400;
        rs_loads := 1;
        rs_trace := [EvLoad false true] |})
  /\ last_step args_400 = 0.
Proof.
  destruct (resume_without_manifest
              (torchrun_environ "0" "0" "8")
              (world_with_manifest (Raise FileNotFoundError)) 0
              (resume_start args_400)
              {| load_universal_checkpoint := false;
                 rs_args := args_400;
                 rs_loads := 1;
                 rs_trace := [EvLoad false true] |}
              eq_refl eq_refl eq_refl) as (H1 & _ & H3).
  split; [exact H1 | apply H3; reflexivity].
Defined.

(** ** The evaluation pass *)

Section EvaluationFacts.
Context {F : Type} `{PyFloat F}.

(** A rank other than local rank 0 leaves its logger alone. *)
Lemma eval_batches_silent (lr : Z) (loader : list (batch F)) :
  lr <> 0 ->
  forall (t : totals F) (m : metric_sink F),
    snd (eval_batches lr loader t m) = m.
Proof.
  intros Hlr. apply Z.eqb_neq in Hlr.
  induction loader as [|b rest IH]; intros t m; [reflexivity|].
  simpl. destruct (reduce_sum (map pack b)) as [[lp tokens] samples].
  unfold bind, lift. destruct (f_int tokens); [|reflexivity].
  destruct (f_int samples); [|reflexivity].
  rewrite Hlr. unfold ret at 1. apply IH.
Qed.

(** The loop only appends records without the perplexity value. *)
Lemma eval_batches_records (lr : Z) (loader : list (batch F)) :
  forall (t : totals F) (m : metric_sink F),
    filter reports_perplexity (sink_lines (snd (eval_batches lr loader t m)))
    = filter reports_perplexity (sink_lines m).
Proof.
  induction loader as [|b rest IH]; intros t m; [reflexivity|].
  simpl. destruct (reduce_sum (map pack b)) as [[lp tokens] samples].
  unfold bind, lift. destruct (f_int tokens); [|reflexivity].
  destruct (f_int samples); [|reflexivity].
  destruct (lr =? 0).
  - unfold log_sync, modify. rewrite IH. simpl sink_lines.
    rewrite filter_app. simpl. now rewrite app_nil_r.
  - unfold ret at 1. apply IH.
Qed.

Lemma get_perplexity_after_loop (env : environ) (loader : list (batch F))
      (m m' : metric_sink F) (lr ws : Z) (t : totals F) :
  getenv_int env "LOCAL_RANK" = Ok lr ->
  getenv_int env "WORLD_SIZE" = Ok ws ->
  eval_batches lr loader totals_start m = (Ok t, m') ->
  get_perplexity env loader m
  = (average_log_perp <-
       lift (py_truediv (total_log_perplexity t) (total_num_tokens t)) ;;
     avg_perplexity <- lift (f_exp average_log_perp) ;;
     (if lr =? 0
      then log_sync (final_record average_log_perp avg_perplexity t)
      else ret tt) ;;
     ret avg_perplexity) m'.
Proof.
  intros Hlr Hws Hloop. unfold get_perplexity.
  unfold bind at 1. unfold lift at 1. rewrite Hlr.
  unfold bind at 1. unfold lift at 1. rewrite Hws.
  unfold bind at 1. now rewrite Hloop.
Qed.
End EvaluationFacts.

(** C3.  When the loop over the batches ends with [total_num_tokens]
    equal to zero, [get_perplexity] raises the division error at line 375.
    No record with the perplexity value has been written by then: the
    logger holds what the loop wrote, which are the per-batch records of
    the running sums only.  So no NaN and no infinity is ever reported as
    the perplexity. *)
Theorem zero_tokens_is_fatal
        {F : Type} `{PyFloat F}
        (env : environ) (loader : list (batch F))
        (m m' : metric_sink F) (lr ws : Z) (t : totals F) :
  getenv_int env "LOCAL_RANK" = Ok lr ->
  getenv_int env "WORLD_SIZE" = Ok ws ->
  eval_batches lr loader totals_start m = (Ok t, m') ->
  total_num_tokens t = 0 ->
  get_perplexity env loader m = (Raise ZeroDivisionError, m') /\
  filter reports_perplexity (sink_lines m')
  = filter reports_perplexity (sink_lines m).
Proof.
  intros Hlr Hws Hloop Hzero. split.
  - rewrite (get_perplexity_after_loop env loader m m' lr ws t Hlr Hws Hloop).
    unfold bind, lift, py_truediv. now rewrite Hzero.
  - pose proof (eval_batches_records lr loader totals_start m) as Hrec.
    now rewrite Hloop in Hrec.
Qed.

Lemma zero_tokens_is_fatal_witness :
  get_perplexity (torchrun_environ "0" "0" "8") [] empty_sink
  = (Raise ZeroDivisionError, empty_sink) /\
  filter reports_perplexity (sink_lines empty_sink)
  = filter reports_perplexity (sink_lines empty_sink).
Proof.
  apply (zero_tokens_is_fatal (torchrun_environ "0" "0" "8") [] empty_sink
           empty_sink 0 8 totals_start);
    reflexivity.
Defined.

(** ** Exact real arithmetic *)

Section RealArithmetic.
Local Open Scope R_scope.

Lemma R_trunc_IZR (z : Z) : R_trunc (IZR z) = z.
Proof.
  unfold R_trunc. destruct (Rle_dec 0 (IZR z)) as [Hz|Hz].
  - symmetry. apply Int_part_spec. lra.
  - rewrite <- opp_IZR.
    rewrite <- (Int_part_spec (IZR (- z)) (- z)); [lia|lra].
Qed.

Lemma R_trunc_sum (a b : Z) : R_trunc (IZR a + IZR b) = (a + b)%Z.
Proof.
  rewrite <- plus_IZR. apply R_trunc_IZR.
Qed.

Lemma exp_lower_linear (y : R) : 1 + y <= exp y.
Proof.
  destruct (Req_dec y 0) as [->|Hy].
  - rewrite exp_0. lra.
  - left. now apply exp_ineq1.
Qed.

Lemma exp_upper_linear (y : R) : y < 1 -> exp y <= 1 / (1 - y).
Proof.
  intros Hy. pose proof (exp_lower_linear (- y)) as Hlow.
  rewrite exp_Ropp in Hlow. pose proof (exp_pos y) as Hp.
  apply Rmult_le_reg_r with (r := 1 - y); [lra|].
  unfold Rdiv. rewrite Rmult_assoc, Rinv_l by lra. rewrite Rmult_1_r.
  apply Rmult_le_reg_l with (r := / exp y); [now apply Rinv_0_lt_compat|].
  rewrite <- Rmult_assoc, Rinv_l by lra. lra.
Qed.

(** Bounds on [exp y] carry over to [exp (2 * y)] by squaring. *)
Lemma exp_lower_step (a c y : R) :
  0 <= a -> a <= exp y -> c <= a * a -> c <= exp (2 * y).
Proof.
  intros Ha Hy Hc. replace (2 * y) with (y + y) by lra. rewrite exp_plus.
  eapply Rle_trans; [exact Hc|]. apply Rmult_le_compat; lra.
Qed.

Lemma exp_upper_step (b c y : R) :
  exp y <= b -> b * b <= c -> exp (2 * y) <= c.
Proof.
  intros Hy Hc. replace (2 * y) with (y + y) by lra. rewrite exp_plus.
  pose proof (exp_pos y). eapply Rle_trans; [|exact Hc].
  apply Rmult_le_compat; lra.
Qed.

(** [exp 0.075] between two decimals, from [1 + y <= exp y] at
    [y = 0.075 / 128] and [y = - 0.075 / 128] and seven squarings. *)
Lemma exp_3_40_bounds : 1.077860357 <= exp (3 / 40) <= 1.077908030.
Proof.
  replace (3 / 40)
    with (2 * (2 * (2 * (2 * (2 * (2 * (2 * (3 / 5120)))))))) by lra.
  assert (L0 : 1.000585937 <= exp (3 / 5120)).
  { eapply Rle_trans; [|apply exp_lower_linear]. lra. }
  assert (U0 : exp (3 / 5120) <= 1.000586282).
  { eapply Rle_trans; [apply exp_upper_linear; lra|]. lra. }
  assert (L1 : 1.001172217 <= exp (2 * (3 / 5120))).
  { apply (exp_lower_step 1.000585937); [lra|exact L0|lra]. }
  assert (U1 : exp (2 * (3 / 5120)) <= 1.001172908).
  { apply (exp_upper_step 1.000586282); [exact U0|lra]. }
  assert (L2 : 1.002345808 <= exp (2 * (2 * (3 / 5120)))).
  { apply (exp_lower_step 1.001172217); [lra|exact L1|lra]. }
  assert (U2 : exp (2 * (2 * (3 / 5120))) <= 1.002347192).
  { apply (exp_upper_step 1.001172908); [exact U1|lra]. }
  assert (L3 : 1.004697118 <= exp (2 * (2 * (2 * (3 / 5120))))).
  { apply (exp_lower_step 1.002345808); [lra|exact L2|lra]. }
  assert (U3 : exp (2 * (2 * (2 * (3 / 5120)))) <= 1.004699894).
  { apply (exp_upper_step 1.002347192); [exact U2|lra]. }
  assert (L4 : 1.009416298 <= exp (2 * (2 * (2 * (2 * (3 / 5120)))))).
  { apply (exp_lower_step 1.004697118); [lra|exact L3|lra]. }
  assert (U4 : exp (2 * (2 * (2 * (2 * (3 / 5120))))) <= 1.009421878).
  { apply (exp_upper_step 1.004699894); [exact U3|lra]. }
  assert (L5 : 1.018921262
               <= exp (2 * (2 * (2 * (2 * (2 * (3 / 5120))))))).
  { apply (exp_lower_step 1.009416298); [lra|exact L4|lra]. }
  assert (U5 : exp (2 * (2 * (2 * (2 * (2 * (3 / 5120))))))
               <= 1.018932528).
  { apply (exp_upper_step 1.009421878); [exact U4|lra]. }
  assert (L6 : 1.038200538
               <= exp (2 * (2 * (2 * (2 * (2 * (2 * (3 / 5120)))))))).
  { apply (exp_lower_step 1.018921262); [lra|exact L5|lra]. }
  assert (U6 : exp (2 * (2 * (2 * (2 * (2 * (2 * (3 / 5120)))))))
               <= 1.038223497).
  { apply (exp_upper_step 1.018932528); [exact U5|lra]. }
  split.
  - apply (exp_lower_step 1.038200538); [lra|exact L6|lra].
  - apply (exp_upper_step 1.038223497); [exact U6|lra].
Qed.
End RealArithmetic.

(** C6.  When the loop over the batches ends with a non-zero
    [total_num_tokens], [get_perplexity] divides [total_log_perplexity]
    by it and answers [math.exp] of the quotient (the value, or the
    overflow error of [math.exp]); on local rank 0 the last record written
    holds that average and that perplexity.  In exact arithmetic, for two
    ranks with losses 10 and 20 and token counts 100 and 300, the totals
    are 30 and 400, the average is 0.075 and the perplexity is 1.0779 to
    four decimals. *)
Theorem perplexity_value :
  (forall (F : Type) (HF : PyFloat F) (env : environ)
          (loader : list (batch F)) (m m' : metric_sink F) (lr ws : Z)
          (t : totals F),
      getenv_int env "LOCAL_RANK" = Ok lr ->
      getenv_int env "WORLD_SIZE" = Ok ws ->
      eval_batches lr loader totals_start m = (Ok t, m') ->
      total_num_tokens t <> 0 ->
      let average :=
        f_div (total_log_perplexity t) (f_of_int (total_num_tokens t)) in
      fst (get_perplexity env loader m) = f_exp average /\
      forall p,
        f_exp average = Ok p ->
        sink_lines (snd (get_perplexity env loader m))
        = if lr =? 0
          then (sink_lines m' ++ [final_record average p t])%list
          else sink_lines m')
  /\
  (exists (t : totals R) (m1 : metric_sink R) (average p : R),
      eval_batches 0 [example_batch] totals_start empty_sink = (Ok t, m1) /\
      total_log_perplexity t = 30%R /\
      total_num_tokens t = 400 /\
      get_perplexity (torchrun_environ "0" "0" "8") [example_batch] empty_sink
      = (Ok p,
         {| sink_path := sink_path m1;
            sink_lines := (sink_lines m1 ++ [final_record average p t])%list
         |}) /\
      average = 0.075%R /\
      p = exp average /\
      (Rabs (p - 1.0779) < 0.00005)%R).
Proof.
  split.
  - intros F HF env loader m m' lr ws t Hlr Hws Hloop Hnz average.
    rewrite (get_perplexity_after_loop env loader m m' lr ws t Hlr Hws Hloop).
    unfold bind, lift, py_truediv. apply Z.eqb_neq in Hnz. rewrite Hnz.
    fold average. split.
    + destruct (f_exp average); [|reflexivity].
      now destruct (lr =? 0).
    + intros p Hp. rewrite Hp. now destruct (lr =? 0).
  - exists {| total_log_perplexity := (0 + (10 + 20))%R;
              total_num_tokens := 400;
              total_samples := 10 |}.
    eexists. exists ((0 + (10 + 20)) / 400)%R.
    exists (exp ((0 + (10 + 20)) / 400)).
    assert (Hloop :
      eval_batches 0 [example_batch] totals_start empty_sink
      = (Ok {| total_log_perplexity := (0 + (10 + 20))%R;
               total_num_tokens := 400;
               total_samples := 10 |},
         {| sink_path := "out/perplexity_log_0.jsonl";
            sink_lines :=
              [batch_record (10 + 20)%R (100 + 300)%R (4 + 6)%R
                 {| total_log_perplexity := (0 + (10 + 20))%R;
                    total_num_tokens := 400;
                    total_samples := 10 |}] |})).
    { unfold example_batch.
      cbn [eval_batches map pack reduce_sum fold_left vadd loss_item
           num_loss_counted_tokens num_samples f_single f_add f_of_int
           R_float f_int].
      unfold bind, lift. rewrite !R_trunc_sum. reflexivity. }
    split; [exact Hloop|].
    split; [simpl; lra|]. split; [reflexivity|].
    split.
    { rewrite (get_perplexity_after_loop (torchrun_environ "0" "0" "8") _ _ _ 0 8 _
                 eq_refl eq_refl Hloop).
      reflexivity. }
    assert (Havg : ((0 + (10 + 20)) / 400 = 3 / 40)%R) by lra.
    split; [lra|]. split; [reflexivity|].
    rewrite Havg. pose proof exp_3_40_bounds as [Hlow Hup].
    apply Rabs_def1; lra.
Qed.

Lemma perplexity_value_witness :
  fst (get_perplexity (torchrun_environ "0" "0" "8") [example_batch] empty_sink)
  = Ok (exp (Rdiv (0 + (10 + 20)) (IZR 400))).
Proof.
  assert (Hloop :
    eval_batches 0 [example_batch] totals_start empty_sink
    = (Ok {| total_log_perplexity := (0 + (10 + 20))%R;
             total_num_tokens := 400;
             total_samples := 10 |},
       {| sink_path := "out/perplexity_log_0.jsonl";
          sink_lines :=
            [batch_record (10 + 20)%R (100 + 300)%R (4 + 6)%R
               {| total_log_perplexity := (0 + (10 + 20))%R;
                  total_num_tokens := 400;
                  total_samples := 10 |}] |})).
  { unfold example_batch.
    cbn [eval_batches map pack reduce_sum fold_left vadd loss_item
         num_loss_counted_tokens num_samples f_single f_add f_of_int
         R_float f_int].
    unfold bind, lift. rewrite !R_trunc_sum. reflexivity. }
  apply (proj1 perplexity_value R R_float (torchrun_environ "0" "0" "8")
           [example_batch] empty_sink _ 0 8 _ eq_refl eq_refl Hloop).
  simpl. lia.
Defined.

(** An evaluation set whose only batch has no loss-counted token, on a
    single rank: the per-batch record is written, then the division
    fails. *)
Example zero_token_batch :
  get_perplexity (torchrun_environ "0" "0" "1") [[mk_shard 0%R 0 0]]
                 empty_sink
  = (Raise ZeroDivisionError,
     {| sink_path := "out/perplexity_log_0.jsonl";
        sink_lines :=
          [batch_record 0%R 0%R 0%R
             {| total_log_perplexity := (0 + 0)%R;
                total_num_tokens := 0;
                total_samples := 0 |}] |}).
Proof.
  unfold get_perplexity, bind, lift.
  cbn [eval_batches map pack reduce_sum fold_left vadd loss_item
       num_loss_counted_tokens num_samples f_single f_add f_of_int
       R_float f_int].
  unfold bind, lift. rewrite !R_trunc_IZR. reflexivity.
Qed.

(** ** Who writes to the metric log *)

Section ReportingFacts.
Context {F : Type} `{PyFloat F}.

Lemma get_perplexity_silent (env : environ) (loader : list (batch F))
      (m : metric_sink F) :
  is_local_rank_zero env = false ->
  snd (get_perplexity env loader m) = m.
Proof.
  unfold is_local_rank_zero, get_perplexity. intros Hrank.
  unfold bind at 1. unfold lift at 1.
  destruct (getenv_int env "LOCAL_RANK") as [lr|e]; [|reflexivity].
  assert (Hlr : lr <> 0) by (destruct lr; congruence).
  unfold bind at 1. unfold lift at 1.
  destruct (getenv_int env "WORLD_SIZE") as [ws|e]; [|reflexivity].
  unfold bind at 1.
  pose proof (eval_batches_silent lr loader Hlr totals_start m) as Hloop.
  destruct (eval_batches lr loader totals_start m) as [[t|e] m'];
    simpl in Hloop; subst m'; [|reflexivity].
  unfold bind, lift.
  destruct (py_truediv _ _); [|reflexivity].
  destruct (f_exp _); [|reflexivity].
  apply Z.eqb_neq in Hlr. now rewrite Hlr.
Qed.

(** A step of [main] that only asks the outside world. *)
Lemma bind_lift {S A B : Type} (r : pyresult A) (k : A -> Py S B) (s : S) :
  bind (lift r) k s
  = match r with Ok x => k x s | Raise e => (Raise e, s) end.
Proof. unfold bind, lift. now destruct r. Qed.

Lemma main_body_silent (sw : setup_world) (env : environ) (a : args)
      (loader : list (batch F)) (m : metric_sink F) :
  is_local_rank_zero env = false ->
  snd (main_body sw env a loader m) = m.
Proof.
  intros Hrank. unfold main_body.
  rewrite bind_lift.
  destruct (getenv env "LOCAL_RANK") as [text|e] eqn:Htext; [|reflexivity].
  destruct (String.eqb text "0") eqn:Hzero.
  { apply String.eqb_eq in Hzero. subst text.
    unfold is_local_rank_zero, getenv_int in Hrank.
    rewrite Htext in Hrank. discriminate Hrank. }
  unfold bind at 1. unfold ret at 1.
  rewrite bind_lift. destruct (sw_tokenizer sw); [|reflexivity].
  rewrite bind_lift.
  pose proof Hrank as Hrank'. unfold is_local_rank_zero in Hrank'.
  destruct (getenv_int env "LOCAL_RANK") as [lr|e]; [|reflexivity].
  assert (Hlr : (lr =? 0) = false)
    by (apply Z.eqb_neq; destruct lr; congruence).
  rewrite bind_lift. destruct (sw_set_device sw); [|reflexivity].
  rewrite bind_lift.
  rewrite bind_lift. destruct (sw_distributed_and_data sw); [|reflexivity].
  rewrite Hlr. unfold bind at 1. unfold ret at 1.
  rewrite bind_lift. destruct (sw_setup_model sw); [|reflexivity].
  unfold bind at 1.
  pose proof (get_perplexity_silent env loader m Hrank) as Hsilent.
  destruct (get_perplexity env loader m) as [[p|e] m'];
    simpl in Hsilent; subst m'; [|reflexivity].
  unfold lift. reflexivity.
Qed.

(** On a local rank other than 0, [main] writes nothing in any world. *)
Lemma main_in_silent (sw : setup_world) (env : environ) (a : args)
      (loader : list (batch F)) (r : pyresult unit) (m : metric_sink F) :
  is_local_rank_zero env = false ->
  main_in sw env a loader = (r, Some m) -> sink_lines m = [].
Proof.
  intros Hrank. unfold main_in.
  destruct (sw_import_yaml sw); [|discriminate].
  destruct (getenv env "RANK") as [rank|e]; [|discriminate].
  destruct (sw_new_logger sw); [|discriminate].
  match goal with
  | |- context [main_body sw env a loader ?m0] =>
      pose proof (main_body_silent sw env a loader m0 Hrank) as Hsilent;
      destruct (main_body sw env a loader m0) as [r' m']
  end.
  simpl in Hsilent. subst m'. intros [= _ <-]. reflexivity.
Qed.
End ReportingFacts.

(** C5, as the code has it.  A process whose local rank on its node,
    [LOCAL_RANK], is not 0 never writes to its metric log: not in
    [get_perplexity], whatever the batches, and nowhere in [main]. *)
Theorem records_only_from_local_rank_zero
        {F : Type} `{PyFloat F}
        (env : environ) (a : args) (loader : list (batch F)) :
  is_local_rank_zero env = false ->
  (forall m : metric_sink F, snd (get_perplexity env loader m) = m) /\
  (forall (r : pyresult unit) (m : metric_sink F),
      main env a loader = (r, Some m) -> sink_lines m = []).
Proof.
  intros Hrank. split.
  - intros m. now apply get_perplexity_silent.
  - intros r m. unfold main. now apply main_in_silent.
Qed.

Lemma records_only_from_local_rank_zero_witness :
  (forall m : metric_sink R,
      snd (get_perplexity (torchrun_environ "3" "3" "8") [example_batch] m)
      = m) /\
  (forall (r : pyresult unit) (m : metric_sink R),
      main (torchrun_environ "3" "3" "8") args_400 [example_batch]
      = (r, Some m) ->
      sink_lines m = []).
Proof.
  apply (records_only_from_local_rank_zero
           (torchrun_environ "3" "3" "8") args_400 [example_batch]).
  reflexivity.
Defined.

(** C5 fails as it is stated.  On the second node of a run with two
    nodes of eight processes, the process of global rank 8 has local rank
    0: it writes all four records of the pass to its own log. *)
Lemma records_only_from_local_rank_zero_counterexample :
  exists (r : pyresult unit) (m : metric_sink R),
    main (torchrun_environ "8" "0" "16") args_400 [example_batch]
    = (r, Some m) /\
    getenv_int (torchrun_environ "8" "0" "16") "RANK" = Ok 8 /\
    sink_path m = "out/perplexity_log_8.jsonl" /\
    List.length (sink_lines m) = 4%nat.
Proof.
  unfold main, main_in, main_body, setup_returns.
  cbn [sw_import_yaml sw_new_logger sw_print_params sw_tokenizer
       sw_set_device sw_distributed_and_data sw_params_values
       sw_setup_model sw_teardown avg_samples_per_batch].
  cbn [getenv torchrun_environ String.eqb].
  unfold example_batch.
  unfold bind, lift, get_perplexity, bind, lift.
  cbn [getenv torchrun_environ String.eqb Ascii.eqb Bool.eqb
       getenv_int py_int lstrip is_space].
  simpl.
  cbn [eval_batches map pack reduce_sum fold_left vadd loss_item
       num_loss_counted_tokens num_samples f_single f_add f_of_int
       R_float f_int].
  unfold bind, lift. rewrite !R_trunc_sum. simpl.
  eexists. eexists. repeat split.
Qed.

(** ** The shutdown of the training subprocess *)

Ltac run_supervisor :=
  unfold run_training, launch_and_listen, shutdown, listen, set_process,
    poll, terminate, wait, kill, on_process, print, try_except, bind, lift,
    modify, raise, ret;
  simpl.

(** C1, as the code has it.  When the child has exited with status 0 by
    the time the [finally] block runs, the block delivers no signal to it:
    the handle is left as it was, the one [wait] returns without a timeout
    and [kill] is not called.  The run returns normally when [listen] had
    returned normally, and raises the interruption or error that [listen]
    was left by otherwise. *)
Theorem shutdown_after_clean_exit
        (w : run_world) (p p' : child) (i : option exn) :
  w_popen w = Ok p ->
  w_listen w p = (i, p') ->
  status p' = Exited 0 ->
  fst (run_training w) = outcome_of i /\
  count_call CallKill (snd (run_training w)) = 0%nat /\
  count_call (CallWait 60) (snd (run_training w)) = 1%nat /\
  timeouts (snd (run_training w)) = 0%nat /\
  process (snd (run_training w)) = Some p'.
Proof.
  intros Hpopen Hlisten Hstatus.
  unfold count_call. run_supervisor. rewrite Hpopen. simpl.
  rewrite Hlisten. unfold wait_child.
  destruct i as [e|]; simpl.
  - destruct e; simpl; rewrite ?Hstatus; simpl; rewrite ?Hstatus; simpl;
      rewrite ?Hstatus; simpl; repeat split.
  - rewrite Hstatus. simpl. rewrite Hstatus. simpl. rewrite Hstatus. simpl.
    repeat split.
Qed.

Lemma shutdown_after_clean_exit_witness :
  fst (run_training (clean_exit_world None)) = Ok tt /\
  count_call CallKill (snd (run_training (clean_exit_world None))) = 0%nat /\
  count_call (CallWait 60) (snd (run_training (clean_exit_world None)))
  = 1%nat /\
  timeouts (snd (run_training (clean_exit_world None))) = 0%nat /\
  process (snd (run_training (clean_exit_world None)))
  = Some (exit_with 0 (fresh_child (Some 5))).
Proof.
  apply (shutdown_after_clean_exit
           (clean_exit_world None) (fresh_child (Some 5))
           (exit_with 0 (fresh_child (Some 5))) None);
    reflexivity.
Defined.

(** C1 fails as it is stated: after a clean exit [terminate] is called
    all the same, and a run whose [listen] was left by an error raises
    that error although the child has exited with status 0. *)
Lemma shutdown_after_clean_exit_counterexample :
  calls (snd (run_training (clean_exit_world None)))
  = [CallPoll; CallTerminate; CallWait 60]
  /\
  count_call CallTerminate (snd (run_training (clean_exit_world None)))
  = 1%nat
  /\
  fst (run_training (clean_exit_world (Some (OtherError "log file: disk full"))))
  = Raise (OtherError "log file: disk full").
Proof. repeat split; reflexivity. Qed.

(** C7.  When the child is still running as the [finally] block starts
    and does not exit within 60 seconds of the graceful-termination
    signal, the block calls [terminate], then [wait], which times out
    exactly once, then [kill], exactly once; the child has then received
    the two signals in this order.  After that the interruption or error
    that [listen] was left by is raised again. *)
Theorem kill_after_timeout
        (w : run_world) (p p' : child) (i : option exn) :
  w_popen w = Ok p ->
  w_listen w p = (i, p') ->
  status p' = Running ->
  (forall d, grace p' = Some d -> 60 < d) ->
  calls (snd (run_training w))
  = [CallPoll; CallTerminate; CallWait 60; CallKill] /\
  count_call CallKill (snd (run_training w)) = 1%nat /\
  timeouts (snd (run_training w)) = 1%nat /\
  option_map received (process (snd (run_training w)))
  = Some (received p' ++ [SIGTERM; SIGKILL])%list /\
  (forall e, i = Some e -> fst (run_training w) = Raise e).
Proof.
  intros Hpopen Hlisten Hstatus Hgrace.
  assert (Hwait : forall q,
             status q = Running -> grace q = grace p' ->
             wait_child 60 q = (Raise TimeoutExpired, q)).
  { intros q Hq Hg. unfold wait_child. rewrite Hq, Hg.
    destruct (grace p') as [d|] eqn:E; [|reflexivity].
    specialize (Hgrace d eq_refl).
    assert (Hd : (d <=? 60) = false) by (apply Z.leb_gt; lia).
    rewrite Hd, andb_false_r. reflexivity. }
  unfold count_call. run_supervisor. rewrite Hpopen. simpl.
  rewrite Hlisten.
  destruct i as [e|]; simpl.
  - destruct e; simpl; rewrite ?Hstatus; simpl; rewrite ?Hstatus; simpl;
      rewrite (Hwait (deliver SIGTERM p')) by (simpl; auto); simpl;
      rewrite ?Hstatus; simpl; rewrite <- ?app_assoc;
      repeat split; intros e' [= <-]; reflexivity.
  - rewrite ?Hstatus; simpl; rewrite ?Hstatus; simpl;
      rewrite (Hwait (deliver SIGTERM p')) by (simpl; auto); simpl;
      rewrite ?Hstatus; simpl; rewrite <- ?app_assoc;
      repeat split; intros e' [=].
Qed.

Lemma kill_after_timeout_witness :
  calls (snd (run_training (interrupted_world None (Some KeyboardInterrupt))))
  = [CallPoll; CallTerminate; CallWait 60; CallKill] /\
  count_call CallKill
    (snd (run_training (interrupted_world None (Some KeyboardInterrupt))))
  = 1%nat /\
  timeouts (snd (run_training (interrupted_world None (Some KeyboardInterrupt))))
  = 1%nat /\
  option_map received
    (process
       (snd (run_training (interrupted_world None (Some KeyboardInterrupt)))))
  = Some [SIGTERM; SIGKILL] /\
  fst (run_training (interrupted_world None (Some KeyboardInterrupt)))
  = Raise KeyboardInterrupt.
Proof.
  destruct (kill_after_timeout
              (interrupted_world None (Some KeyboardInterrupt))
              (fresh_child None) (fresh_child None)
              (Some KeyboardInterrupt)
              eq_refl eq_refl eq_refl
              ltac:(intros d Hd; discriminate Hd))
    as (H1 & H2 & H3 & H4 & H5).
  exact (conj H1 (conj H2 (conj H3 (conj H4 (H5 _ eq_refl))))).
Defined.

(** Further runs of the supervisor. *)

Example slow_child_is_killed :
  calls (snd (run_training (interrupted_world (Some 90) (Some KeyboardInterrupt))))
  = [CallPoll; CallTerminate; CallWait 60; CallKill].
Proof. reflexivity. Qed.

Example quick_child_is_not_killed :
  calls (snd (run_training (interrupted_world (Some 5) (Some KeyboardInterrupt))))
  = [CallPoll; CallTerminate; CallWait 60] /\
  fst (run_training (interrupted_world (Some 5) (Some KeyboardInterrupt)))
  = Raise KeyboardInterrupt.
Proof. split; reflexivity. Qed.

Example failed_launch_is_silent :
  run_training
    {| w_popen := Raise FileNotFoundError; w_listen := fun p => (None, p) |}
  = (Ok tt,
     {| process := None; calls := []; timeouts := 0;
        printed := ["An error occurred"] |}).
Proof. reflexivity. Qed.

(** * Further properties of the code *)

(** ** What the manifest pattern accepts *)

Lemma substring_prefix (pre rest : string) :
  substring 0 (String.length pre) (pre ++ rest) = pre.
Proof.
  induction pre as [|c pre IH]; simpl.
  - now destruct rest.
  - now rewrite IH.
Qed.

Lemma length_app_string (pre rest : string) :
  String.length (pre ++ rest) = (String.length pre + String.length rest)%nat.
Proof.
  induction pre as [|c pre IH]; simpl; [reflexivity|]. now rewrite IH.
Qed.

Lemma consumed_app (pre rest : string) : consumed (pre ++ rest) rest = pre.
Proof.
  unfold consumed. rewrite length_app_string.
  replace (String.length pre + String.length rest - String.length rest)%nat
    with (String.length pre) by lia.
  apply substring_prefix.
Qed.

Lemma append_assoc_string (a b c : string) : (a ++ b) ++ c = a ++ (b ++ c).
Proof.
  induction a as [|x a IH]; simpl; [reflexivity|]. now rewrite IH.
Qed.

(** Whatever a greedy repetition hands over to the rest of the pattern
    stands behind a non-empty run of its class. *)
Lemma plus_greedy_sound {A} (cls : ascii -> bool) (s : string)
      (k : string -> option A) (r : A) :
  plus_greedy cls s k = Some r ->
  exists pre rest,
    s = pre ++ rest /\ pre <> EmptyString /\
    all_chars cls pre = true /\ k rest = Some r.
Proof.
  induction s as [|c s IH]; simpl; [discriminate|].
  destruct (cls c) eqn:Hc; [|discriminate].
  destruct (plus_greedy cls s k) as [r'|] eqn:E.
  - intros [= <-]. destruct (IH eq_refl) as (pre & rest & -> & _ & Hall & Hk).
    exists (String c pre), rest. simpl. rewrite Hc, Hall.
    repeat split; [discriminate|exact Hk].
  - intros Hk. exists (String c EmptyString), s. simpl. rewrite Hc.
    repeat split; [discriminate|exact Hk].
Qed.

(** When the rest of the pattern accepts anything, the repetition takes
    the longest run there is. *)
Lemma plus_greedy_longest {A} (cls : ascii -> bool) (s : string)
      (g : string -> A) (r : A) :
  plus_greedy cls s (fun rest => Some (g rest)) = Some r ->
  exists pre rest,
    s = pre ++ rest /\ pre <> EmptyString /\
    all_chars cls pre = true /\ head_not cls rest = true /\ r = g rest.
Proof.
  revert r. induction s as [|c s IH]; intros r; simpl; [discriminate|].
  destruct (cls c) eqn:Hc; [|discriminate].
  destruct (plus_greedy cls s (fun rest => Some (g rest))) as [r'|] eqn:E.
  - intros [= <-].
    destruct (IH r' eq_refl) as (pre & rest & -> & _ & Hall & Hhead & Hr).
    exists (String c pre), rest. simpl. rewrite Hc, Hall.
    repeat split; [discriminate|exact Hhead|exact Hr].
  - intros [= <-]. exists (String c EmptyString), s. simpl. rewrite Hc.
    repeat split; [discriminate|].
    destruct s as [|c' s']; [reflexivity|]. simpl in E |- *.
    destruct (cls c'); [|reflexivity].
    now destruct (plus_greedy cls s' (fun rest => Some (g rest))).
Qed.

(** With a run of the class in front and none behind, the run is what
    the repetition takes. *)
Lemma plus_greedy_run {A} (cls : ascii -> bool) (run rest : string)
      (k : string -> option A) (r : A) :
  run <> EmptyString ->
  all_chars cls run = true ->
  head_not cls rest = true ->
  k rest = Some r ->
  plus_greedy cls (run ++ rest) k = Some r.
Proof.
  intros Hne Hall Hhead Hk. induction run as [|c run IH]; [congruence|].
  simpl in Hall. apply andb_true_iff in Hall. destruct Hall as [Hc Hrun].
  simpl. rewrite Hc.
  destruct run as [|c' run'].
  - simpl. destruct rest as [|x rest']; simpl; [exact Hk|].
    simpl in Hhead. apply negb_true_iff in Hhead. rewrite Hhead. exact Hk.
  - rewrite IH; [reflexivity|discriminate|exact Hrun].
Qed.

Lemma horner_nonneg (ds : string) :
  all_chars is_digit ds = true ->
  forall acc, 0 <= acc -> 0 <= horner acc ds.
Proof.
  induction ds as [|c ds IH]; intros Hall acc Hacc; cbn [horner];
    [exact Hacc|].
  simpl in Hall. apply andb_true_iff in Hall. destruct Hall as [Hc Hds].
  apply IH; [exact Hds|].
  unfold is_digit in Hc. apply andb_true_iff in Hc. destruct Hc as [Hlo _].
  apply N.leb_le in Hlo. unfold digit_value. lia.
Qed.

Lemma re_match_sound (s : string) (gs : list string) :
  re_match manifest_pattern s = Some gs ->
  exists tag ds rest,
    s = tag ++ String underscore (ds ++ rest) /\
    tag <> EmptyString /\ all_chars is_word tag = true /\
    ds <> EmptyString /\ all_chars is_digit ds = true /\
    head_not is_digit rest = true /\ gs = [ds].
Proof.
  unfold re_match, manifest_pattern.
  change (rmatch (RSeq (RPlus is_word) separator_then_digits) s []
            (fun _ gs => Some gs))
    with (plus_greedy is_word s
            (fun rest =>
               rmatch separator_then_digits rest [] (fun _ gs => Some gs))).
  intros Hm. apply plus_greedy_sound in Hm.
  destruct Hm as (tag & rest1 & -> & Htag & Hword & Hk).
  destruct rest1 as [|c r2]; [discriminate Hk|].
  simpl in Hk. destruct (Ascii.eqb c underscore) eqn:Hc; [|discriminate Hk].
  apply Ascii.eqb_eq in Hc. subst c.
  apply (plus_greedy_longest is_digit r2
           (fun rest => ([] ++ [consumed r2 rest])%list)) in Hk.
  destruct Hk as (ds & rest & -> & Hds & Hdig & Hhead & ->).
  exists tag, ds, rest. rewrite consumed_app. repeat split; assumption.
Qed.

Lemma parse_manifest_cases (s : string) :
  parse_manifest s = Raise AttributeError \/
  exists tag ds rest,
    s = tag ++ String underscore (ds ++ rest) /\
    tag <> EmptyString /\ all_chars is_word tag = true /\
    ds <> EmptyString /\ all_chars is_digit ds = true /\
    head_not is_digit rest = true /\
    0 <= decimal_value ds /\
    parse_manifest s
    = if int_max_str_digits <? Z.of_nat (String.length ds)
      then Raise ValueError else Ok (decimal_value ds).
Proof.
  unfold parse_manifest.
  destruct (re_match manifest_pattern s) as [gs|] eqn:Hm; [|now left].
  right. destruct (re_match_sound s gs Hm)
    as (tag & ds & rest & Hs & Htag & Hword & Hds & Hdig & Hhead & ->).
  exists tag, ds, rest. repeat split; try assumption.
  - now apply horner_nonneg.
  - now apply py_int_digits_cases.
Qed.

(** X1.  The parse of an ASCII manifest has three outcomes.  It fails
    with the error of the failed match; or the text is a non-empty run of
    word characters, an underscore, a longest run of digits and anything
    after it, and then the answer is the value of these digits, which is
    not negative, when there are at most 4300 of them, and the error of
    [int] when there are more. *)
Theorem parse_manifest_outcomes (s : string) :
  all_chars is_ascii s = true ->
  parse_manifest s = Raise AttributeError \/
  exists tag ds rest,
    s = tag ++ String underscore (ds ++ rest) /\
    tag <> EmptyString /\ all_chars is_word tag = true /\
    ds <> EmptyString /\ all_chars is_digit ds = true /\
    head_not is_digit rest = true /\
    0 <= decimal_value ds /\
    ((Z.of_nat (String.length ds) <= int_max_str_digits /\
      parse_manifest s = Ok (decimal_value ds)) \/
     (int_max_str_digits < Z.of_nat (String.length ds) /\
      parse_manifest s = Raise ValueError)).
Proof.
  intros _.
  destruct (parse_manifest_cases s)
    as [Hfail|(tag & ds & rest & Hs & Htag & Hword & Hds & Hdig & Hhead
               & Hn & Hparse)]; [now left|].
  right. exists tag, ds, rest. repeat split; try assumption.
  destruct (int_max_str_digits <? Z.of_nat (String.length ds)) eqn:Hlen.
  - right. apply Z.ltb_lt in Hlen. now split.
  - left. apply Z.ltb_ge in Hlen. now split.
Qed.

Lemma parse_manifest_outcomes_witness :
  parse_manifest "ckpt_12abc" = Raise AttributeError \/
  exists tag ds rest,
    "ckpt_12abc" = tag ++ String underscore (ds ++ rest) /\
    tag <> EmptyString /\ all_chars is_word tag = true /\
    ds <> EmptyString /\ all_chars is_digit ds = true /\
    head_not is_digit rest = true /\
    0 <= decimal_value ds /\
    ((Z.of_nat (String.length ds) <= int_max_str_digits /\
      parse_manifest "ckpt_12abc" = Ok (decimal_value ds)) \/
     (int_max_str_digits < Z.of_nat (String.length ds) /\
      parse_manifest "ckpt_12abc" = Raise ValueError)).
Proof.
  apply (parse_manifest_outcomes "ckpt_12abc"). reflexivity.
Defined.

Lemma re_match_trailing (tag ds rest : string) :
  tag <> EmptyString ->
  all_chars is_word tag = true ->
  ds <> EmptyString ->
  all_chars is_digit ds = true ->
  head_not is_word rest = true ->
  re_match manifest_pattern (tag ++ String underscore (ds ++ rest))
  = Some [ds].
Proof.
  intros Htag Hword Hds Hdig Hhead.
  assert (Hhead_digit : head_not is_digit rest = true).
  { destruct rest as [|x rest']; [reflexivity|]. simpl in *.
    apply negb_true_iff in Hhead. apply negb_true_iff.
    destruct (is_digit x) eqn:E; [|reflexivity].
    now rewrite (digit_is_word x E) in Hhead. }
  unfold re_match, manifest_pattern.
  change (rmatch (RSeq (RPlus is_word) separator_then_digits)
            (tag ++ String underscore (ds ++ rest)) []
            (fun _ gs => Some gs))
    with (plus_greedy is_word (tag ++ String underscore (ds ++ rest))
            (fun rest0 =>
               rmatch separator_then_digits rest0 [] (fun _ gs => Some gs))).
  set (k := fun rest0 : string =>
              rmatch separator_then_digits rest0 [] (fun _ gs => Some gs)).
  assert (Hk : k (String underscore (ds ++ rest)) = Some [ds]).
  { unfold k. simpl rmatch.
    apply plus_greedy_run; try assumption.
    now rewrite consumed_app. }
  assert (Hnone : forall t, starts_separator t = false -> k t = None).
  { intros t Ht. exact (tail_needs_separator [] (fun _ gs => Some gs) t Ht). }
  (* the run of word characters reaches up to [rest]; giving characters
     back, the first place where the rest of the pattern fits is the
     underscore before [ds] *)
  assert (Hback : forall c,
             plus_greedy is_word (String c (ds ++ rest)) k = None).
  { clear Hk Hds. induction ds as [|d ds IHd]; intros c.
    - simpl append. simpl. destruct (is_word c); [|reflexivity].
      destruct rest as [|x rest'].
      + simpl. apply Hnone. reflexivity.
      + simpl in Hhead. apply negb_true_iff in Hhead.
        simpl. rewrite Hhead. apply Hnone.
        simpl. destruct rest'; simpl;
          [reflexivity|].
        destruct (Ascii.eqb x underscore) eqn:E; [|reflexivity].
        apply Ascii.eqb_eq in E. subst x. discriminate Hhead.
    - simpl in Hdig. apply andb_true_iff in Hdig. destruct Hdig as [Hd Hdig].
      change (plus_greedy is_word (String c (String d ds ++ rest)) k)
        with (if is_word c
              then match plus_greedy is_word (String d (ds ++ rest)) k with
                   | Some r => Some r
                   | None => k (String d (ds ++ rest))
                   end
              else None).
      destruct (is_word c); [|reflexivity].
      rewrite (IHd Hdig d). apply Hnone.
      simpl. destruct (ds ++ rest); [reflexivity|].
      now rewrite (digit_not_underscore d Hd). }
  induction tag as [|c tag IH]; [congruence|].
  simpl in Hword. apply andb_true_iff in Hword. destruct Hword as [Hc Hword].
  simpl. rewrite Hc.
  destruct tag as [|c' tag'].
  - simpl append. rewrite (Hback underscore). exact Hk.
  - rewrite IH; [reflexivity|discriminate|exact Hword].
Qed.

(** X2.  ASCII text behind the digits is ignored when it does not begin
    with a word character: a manifest [<tag>_<n>] followed by a line
    feed, a blank or a dot gives [n] all the same, for a numeral of at
    most 4300 digits. *)
Theorem parse_manifest_trailing (tag ds rest : string) :
  tag <> EmptyString ->
  all_chars is_word tag = true ->
  ds <> EmptyString ->
  all_chars is_digit ds = true ->
  Z.of_nat (String.length ds) <= int_max_str_digits ->
  all_chars is_ascii rest = true ->
  head_not is_word rest = true ->
  parse_manifest (tag ++ String underscore (ds ++ rest))
  = Ok (decimal_value ds).
Proof.
  intros Htag Hword Hds Hdig Hlen _ Hhead. unfold parse_manifest.
  rewrite re_match_trailing by assumption.
  now apply py_int_digits.
Qed.

Lemma parse_manifest_trailing_witness :
  parse_manifest manifest_with_newline = Ok 12000.
Proof.
  apply (parse_manifest_trailing
           "samples" "12000" (String (ascii_of_nat 10) EmptyString));
    try reflexivity; try discriminate.
Defined.

(** ** What the recovery of [last_step] does to [args] *)

Ltac run_recover :=
  unfold recover_last_step, try_except, bind, lift, gets, update_args,
    emit, modify, ret, py_floordiv.

(** A recovery that raises has changed nothing. *)
Lemma recover_last_step_raise (w : resume_world) (lr : Z)
      (st : resume_state) (e : exn) :
  fst (recover_last_step w lr st) = Raise e ->
  snd (recover_last_step w lr st) = st.
Proof.
  run_recover.
  destruct (w_latest w) as [s|e1].
  - destruct (parse_manifest s) as [n|e2].
    + destruct (effective_batch_size (rs_args st) =? 0).
      * reflexivity.
      * destruct (lr =? 0); simpl; discriminate.
    + destruct e2; reflexivity.
  - destruct e1; reflexivity.
Qed.

(** The recovery writes to the log of calls only what it prints, and it
    leaves the engine alone. *)
Lemma recover_last_step_trace (w : resume_world) (lr : Z)
      (st : resume_state) :
  exists prints,
    rs_trace (snd (recover_last_step w lr st))
    = (rs_trace st ++ prints)%list /\
    forallb is_print prints = true /\
    load_universal_checkpoint (snd (recover_last_step w lr st))
    = load_universal_checkpoint st.
Proof.
  run_recover.
  destruct (w_latest w) as [s|e1].
  - destruct (parse_manifest s) as [n|e2].
    + destruct (effective_batch_size (rs_args st) =? 0).
      * exists []. now rewrite app_nil_r.
      * destruct (lr =? 0); simpl.
        -- eexists. repeat split.
        -- exists []. now rewrite app_nil_r.
    + exists []. rewrite app_nil_r. destruct e2; repeat split.
  - exists []. rewrite app_nil_r. destruct e1; repeat split.
Qed.

(** X3.  With a readable manifest and a positive effective batch size,
    a recovery that returns has set [args.last_step] to a step that is
    not negative. *)
Theorem recovered_step_nonnegative
        (w : resume_world) (lr : Z) (st : resume_state) (s : string) :
  w_latest w = Ok s ->
  0 < effective_batch_size (rs_args st) ->
  fst (recover_last_step w lr st) = Ok tt ->
  0 <= last_step (rs_args (snd (recover_last_step w lr st))).
Proof.
  intros Hlatest Hebs.
  destruct (parse_manifest_cases s)
    as [Hfail|(tag & ds & rest & _ & _ & _ & _ & _ & _ & Hn & Hparse)].
  - rewrite (recover_last_step_malformed w lr st s Hlatest Hfail).
    discriminate.
  - destruct (int_max_str_digits <? Z.of_nat (String.length ds)).
    + rewrite (recover_last_step_unparsed w lr st s ValueError
                 Hlatest Hparse); [discriminate|exact I].
    + destruct (recover_last_step_parsed w lr st s _ Hlatest Hparse)
        as (st' & -> & Hargs & _); [lia|].
      intros _. simpl. rewrite Hargs. simpl last_step.
      now apply Z.div_pos.
Qed.

Lemma recovered_step_nonnegative_witness :
  0 <= last_step
         (rs_args
            (snd (recover_last_step
                    (world_with_manifest (Ok "ckpt_12abc")) 0
                    (resume_start args_400)))).
Proof.
  apply (recovered_step_nonnegative
           (world_with_manifest (Ok "ckpt_12abc")) 0
           (resume_start args_400) "ckpt_12abc");
    [reflexivity | simpl; lia | reflexivity].
Defined.

(** X4.  An effective batch size of 0 makes the recovery fail in the
    floor division whenever the manifest parses; the error is not caught
    and [args] stay as they were. *)
Theorem zero_batch_size_is_fatal
        (w : resume_world) (lr : Z) (st : resume_state) (s : string) (n : Z) :
  w_latest w = Ok s ->
  parse_manifest s = Ok n ->
  effective_batch_size (rs_args st) = 0 ->
  recover_last_step w lr st = (Raise ZeroDivisionError, st).
Proof.
  intros Hlatest Hparse Hebs. run_recover.
  now rewrite Hlatest, Hparse, Hebs.
Qed.

(** X5.  The local rank only decides whether the step is printed: the
    result of the recovery, the [args] it leaves and the engine flag are
    the same on every rank. *)
Theorem recovery_same_on_every_rank
        (w : resume_world) (lr1 lr2 : Z) (st : resume_state) :
  fst (recover_last_step w lr1 st) = fst (recover_last_step w lr2 st) /\
  rs_args (snd (recover_last_step w lr1 st))
  = rs_args (snd (recover_last_step w lr2 st)) /\
  load_universal_checkpoint (snd (recover_last_step w lr1 st))
  = load_universal_checkpoint (snd (recover_last_step w lr2 st)) /\
  filter (fun ev => negb (is_print ev))
         (rs_trace (snd (recover_last_step w lr1 st)))
  = filter (fun ev => negb (is_print ev))
           (rs_trace (snd (recover_last_step w lr2 st))).
Proof.
  run_recover.
  destruct (w_latest w) as [s|e1].
  - destruct (parse_manifest s) as [n|e2].
    + destruct (effective_batch_size (rs_args st) =? 0).
      * repeat split.
      * destruct (lr1 =? 0), (lr2 =? 0); simpl; repeat split;
          rewrite ?filter_app; simpl; now rewrite ?app_nil_r.
    + destruct e2; repeat split.
  - destruct e1; repeat split.
Qed.

Lemma zero_batch_size_is_fatal_witness :
  recover_last_step (world_with_manifest (Ok "samples_12000")) 0
                    (resume_start args_zero_batch)
  = (Raise ZeroDivisionError, resume_start args_zero_batch).
Proof.
  apply (zero_batch_size_is_fatal
           (world_with_manifest (Ok "samples_12000")) 0
           (resume_start args_zero_batch) "samples_12000" 12000);
    reflexivity.
Defined.

(** ** The whole of [maybe_resume_training] *)

(** The four ways the load phase can go. *)
Lemma load_with_fallback_cases (w : resume_world) (st : resume_state) :
  let strict := lora_r (rs_args st) =? 0 in
  let first := EvLoad (load_universal_checkpoint st) strict in
  let r := fst (load_with_fallback w st) in
  let st' := snd (load_with_fallback w st) in
  (rs_trace st' = (rs_trace st ++ [first])%list /\
   load_universal_checkpoint st' = load_universal_checkpoint st)
  \/
  (rs_trace st' = (rs_trace st ++ [first; EvPrepareUniversal])%list /\
   load_universal_checkpoint st' = load_universal_checkpoint st /\
   exists e, r = Raise e)
  \/
  (rs_trace st'
   = (rs_trace st ++ [first; EvPrepareUniversal; EvLoad true strict])%list /\
   ((load_universal_checkpoint st' = true /\ exists e, r = Raise e) \/
    (load_universal_checkpoint st' = false /\ r = Ok tt))).
Proof.
  run_py.
  destruct (w_load_checkpoint w (rs_loads st) _ _) as [[]|e];
    [left; split; reflexivity|].
  destruct e; try (left; split; reflexivity).
  destruct (String.prefix world_size_message msg);
    [|left; split; reflexivity].
  simpl. destruct (w_prepare_universal w) as [[]|e]; simpl.
  - right. right. rewrite <- !app_assoc. simpl.
    destruct (w_load_checkpoint w (S (rs_loads st)) true _) as [[]|e];
      simpl; split; try reflexivity.
    + right. split; reflexivity.
    + left. split; [reflexivity|]. now exists e.
  - right. left. rewrite <- !app_assoc. simpl.
    repeat split. now exists e.
Qed.

Lemma maybe_resume_training_unfold (env : environ) (w : resume_world)
      (st : resume_state) (lr : Z) :
  getenv_int env "LOCAL_RANK" = Ok lr ->
  maybe_resume_training env w st
  = match load_with_fallback w st with
    | (Ok _, st1) => recover_last_step w lr st1
    | (Raise e, st1) => (Raise e, st1)
    end.
Proof.
  intros Henv. unfold maybe_resume_training, bind, lift. rewrite Henv.
  destruct (load_with_fallback w st) as [[[]|e] st1]; reflexivity.
Qed.

Lemma maybe_resume_training_no_rank (env : environ) (w : resume_world)
      (st : resume_state) (e : exn) :
  getenv_int env "LOCAL_RANK" = Raise e ->
  maybe_resume_training env w st = (Raise e, st).
Proof.
  intros Henv. unfold maybe_resume_training, bind, lift. now rewrite Henv.
Qed.

(** X6.  A resume attempt that raises, for whatever reason, has not
    touched [args]: [last_step] is only ever written by an attempt that
    returns. *)
Theorem failed_resume_keeps_args
        (env : environ) (w : resume_world) (st : resume_state) (e : exn) :
  fst (maybe_resume_training env w st) = Raise e ->
  rs_args (snd (maybe_resume_training env w st)) = rs_args st.
Proof.
  destruct (getenv_int env "LOCAL_RANK") as [lr|e0] eqn:Henv.
  - rewrite (maybe_resume_training_unfold env w st lr Henv).
    pose proof (load_with_fallback_args w st) as Hargs.
    destruct (load_with_fallback w st) as [[[]|e1] st1]; simpl in Hargs.
    + intros Hraise.
      rewrite (recover_last_step_raise w lr st1 e Hraise). exact Hargs.
    + intros _. exact Hargs.
  - now rewrite (maybe_resume_training_no_rank env w st e0 Henv).
Qed.

Lemma failed_resume_keeps_args_witness :
  rs_args
    (snd (maybe_resume_training
            (torchrun_environ "0" "0" "8")
            (world_with_manifest (Ok "no manifest here"))
            (resume_start args_400)))
  = args_400.
Proof.
  apply (failed_resume_keeps_args
           (torchrun_environ "0" "0" "8")
           (world_with_manifest (Ok "no manifest here"))
           (resume_start args_400) AttributeError).
  reflexivity.
Defined.

(** X7.  No resume attempt loads more than twice or converts more than
    once, and every load it makes passes [load_module_strict] as
    [lora_r == 0]: strict for full fine-tuning, lenient for LoRA, on the
    first load and on the retry alike. *)
Theorem resume_load_bounds (env : environ) (w : resume_world) (a : args) :
  let st' := snd (maybe_resume_training env w (resume_start a)) in
  (count_events is_load st' <= 2)%nat /\
  (count_events is_prepare st' <= 1)%nat /\
  forallb (load_is_strict (lora_r a =? 0)) (rs_trace st') = true.
Proof.
  intros st'. subst st'. unfold count_events.
  destruct (getenv_int env "LOCAL_RANK") as [lr|e0] eqn:Henv.
  2:{ rewrite (maybe_resume_training_no_rank env w _ e0 Henv). simpl.
      repeat split; lia. }
  rewrite (maybe_resume_training_unfold env w _ lr Henv).
  pose proof (load_with_fallback_cases w (resume_start a)) as Hcases.
  pose proof (load_with_fallback_args w (resume_start a)) as Hargs.
  destruct (load_with_fallback w (resume_start a)) as [r st1].
  simpl in Hcases, Hargs.
  assert (Hst1 :
    (List.length (filter is_load (rs_trace st1)) <= 2)%nat /\
    (List.length (filter is_prepare (rs_trace st1)) <= 1)%nat /\
    forallb (load_is_strict (lora_r a =? 0)) (rs_trace st1) = true).
  { destruct Hcases as [[-> _]|[(-> & _)|(-> & _)]]; simpl;
      rewrite ?Bool.eqb_reflx; repeat split; lia. }
  destruct r as [[]|e1]; [|exact Hst1].
  destruct (recover_last_step_trace w lr st1) as (prints & -> & Hprints & _).
  rewrite !filter_app, !length_app, forallb_app.
  assert (Hnone : filter is_load prints = [] /\ filter is_prepare prints = []
                  /\ forallb (load_is_strict (lora_r a =? 0)) prints = true).
  { clear -Hprints. induction prints as [|ev prints IH]; [repeat split|].
    simpl in Hprints. apply andb_true_iff in Hprints.
    destruct Hprints as [Hev Hprints].
    destruct ev; try discriminate Hev. simpl. now apply IH. }
  destruct Hnone as (-> & -> & ->). simpl.
  destruct Hst1 as (H1 & H2 & ->). repeat split; lia.
Qed.

(** X8.  A resume attempt that starts with universal loading switched
    off and returns has switched it off again: later loads are in the
    primary format. *)
Theorem resume_restores_primary_format
        (env : environ) (w : resume_world) (a : args) :
  fst (maybe_resume_training env w (resume_start a)) = Ok tt ->
  load_universal_checkpoint
    (snd (maybe_resume_training env w (resume_start a))) = false.
Proof.
  destruct (getenv_int env "LOCAL_RANK") as [lr|e0] eqn:Henv.
  2:{ now rewrite (maybe_resume_training_no_rank env w _ e0 Henv). }
  rewrite (maybe_resume_training_unfold env w _ lr Henv).
  pose proof (load_with_fallback_cases w (resume_start a)) as Hcases.
  destruct (load_with_fallback w (resume_start a)) as [r st1].
  simpl in Hcases.
  destruct r as [[]|e1]; [|discriminate].
  intros _.
  destruct (recover_last_step_trace w lr st1) as (_ & _ & _ & ->).
  destruct Hcases as [[_ ->]|[(_ & _ & e & He)|(_ & [(_ & e & He)|(-> & _)])]];
    try reflexivity; discriminate He.
Qed.

Lemma resume_restores_primary_format_witness :
  load_universal_checkpoint
    (snd (maybe_resume_training
            (torchrun_environ "0" "0" "8")
            (mismatch_world (Ok tt) (Ok tt))
            (resume_start args_400))) = false.
Proof.
  apply (resume_restores_primary_format
           (torchrun_environ "0" "0" "8")
           (mismatch_world (Ok tt) (Ok tt)) args_400).
  reflexivity.
Defined.

(** ** Every run of the supervisor *)

Lemma has_sigterm_delivered (p : child) :
  has_sigterm (deliver SIGTERM p) = true.
Proof.
  unfold has_sigterm, deliver. simpl. rewrite existsb_app. simpl.
  apply orb_true_r.
Qed.

(** What [terminate] followed by [wait(60)] makes of the child. *)
Lemma wait_after_terminate (p : child) :
  (exists code, status p = Exited code /\
                wait_child 60 p = (Ok code, p))
  \/
  (status p = Running /\
   exists d, grace p = Some d /\ d <= 60 /\
             wait_child 60 (deliver SIGTERM p)
             = (Ok (term_code p),
                exit_with (term_code p) (deliver SIGTERM p)))
  \/
  (status p = Running /\
   (forall d, grace p = Some d -> 60 < d) /\
   wait_child 60 (deliver SIGTERM p)
   = (Raise TimeoutExpired, deliver SIGTERM p)).
Proof.
  unfold wait_child.
  destruct (status p) as [|code] eqn:Hst.
  - right. change (status (deliver SIGTERM p)) with (status p).
    change (grace (deliver SIGTERM p)) with (grace p).
    change (term_code (deliver SIGTERM p)) with (term_code p).
    rewrite Hst, has_sigterm_delivered. simpl.
    destruct (grace p) as [d|] eqn:Hg.
    + destruct (d <=? 60) eqn:Hd.
      * left. split; [reflexivity|]. exists d.
        apply Z.leb_le in Hd. repeat split. exact Hd.
      * right. apply Z.leb_gt in Hd. repeat split.
        intros d' [= <-]. exact Hd.
    + right. repeat split. intros d' Hd'. discriminate Hd'.
  - left. exists code. split; reflexivity.
Qed.

(** The supervisor after a launch, in each of the three cases. *)
Lemma run_training_launched (w : run_world) (p p' : child) (i : option exn) :
  w_popen w = Ok p ->
  w_listen w p = (i, p') ->
  fst (run_training w) = outcome_of i /\
  ((exists code,
       status p' = Exited code /\
       calls (snd (run_training w)) = [CallPoll; CallTerminate; CallWait 60] /\
       timeouts (snd (run_training w)) = 0%nat /\
       process (snd (run_training w)) = Some p')
   \/
   (status p' = Running /\
    (exists d, grace p' = Some d /\ d <= 60) /\
    calls (snd (run_training w)) = [CallPoll; CallTerminate; CallWait 60] /\
    timeouts (snd (run_training w)) = 0%nat /\
    process (snd (run_training w))
    = Some (exit_with (term_code p') (deliver SIGTERM p')))
   \/
   (status p' = Running /\
    (forall d, grace p' = Some d -> 60 < d) /\
    calls (snd (run_training w))
    = [CallPoll; CallTerminate; CallWait 60; CallKill] /\
    timeouts (snd (run_training w)) = 1%nat /\
    process (snd (run_training w))
    = Some (exit_with (-9) (deliver SIGKILL (deliver SIGTERM p'))))).
Proof.
  intros Hpopen Hlisten.
  destruct (wait_after_terminate p')
    as [(code & Hst & Hwait)|[(Hst & d & Hg & Hd & Hwait)
                             |(Hst & Hg & Hwait)]].
  - assert (Hres :
      fst (run_training w) = outcome_of i /\
      calls (snd (run_training w)) = [CallPoll; CallTerminate; CallWait 60] /\
      timeouts (snd (run_training w)) = 0%nat /\
      process (snd (run_training w)) = Some p').
    { run_supervisor. rewrite Hpopen. simpl. rewrite Hlisten.
      unfold wait_child.
      destruct i as [e|]; [destruct e|]; simpl; rewrite ?Hst; simpl;
        rewrite ?Hst; simpl; rewrite ?Hst; simpl;
        destruct code as [|c|c]; simpl; rewrite ?Hst; simpl;
        rewrite ?Hst; simpl; repeat split. }
    destruct Hres as (H1 & H2 & H3 & H4). split; [exact H1|].
    left. exists code. repeat split; assumption.
  - assert (Hres :
      fst (run_training w) = outcome_of i /\
      calls (snd (run_training w)) = [CallPoll; CallTerminate; CallWait 60] /\
      timeouts (snd (run_training w)) = 0%nat /\
      process (snd (run_training w))
      = Some (exit_with (term_code p') (deliver SIGTERM p'))).
    { run_supervisor. rewrite Hpopen. simpl. rewrite Hlisten.
      destruct i as [e|]; [destruct e|]; simpl; rewrite ?Hst; simpl;
        rewrite ?Hst; simpl; rewrite Hwait; simpl; repeat split. }
    destruct Hres as (H1 & H2 & H3 & H4). split; [exact H1|].
    right. left. repeat split; try assumption. now exists d.
  - assert (Hres :
      fst (run_training w) = outcome_of i /\
      calls (snd (run_training w))
      = [CallPoll; CallTerminate; CallWait 60; CallKill] /\
      timeouts (snd (run_training w)) = 1%nat /\
      process (snd (run_training w))
      = Some (exit_with (-9) (deliver SIGKILL (deliver SIGTERM p')))).
    { run_supervisor. rewrite Hpopen. simpl. rewrite Hlisten.
      destruct i as [e|]; [destruct e|]; simpl; rewrite ?Hst; simpl;
        rewrite ?Hst; simpl; rewrite Hwait; simpl; rewrite ?Hst; simpl;
        repeat split. }
    destruct Hres as (H1 & H2 & H3 & H4). split; [exact H1|].
    right. right. repeat split; assumption.
Qed.

(** X9.  When the subprocess cannot be launched, [run_training] makes no
    call on a process handle and returns normally: the error of the
    launch is printed, not raised. *)
Theorem failed_launch_is_swallowed (w : run_world) (e : exn) :
  w_popen w = Raise e ->
  fst (run_training w) = Ok tt /\
  calls (snd (run_training w)) = [] /\
  process (snd (run_training w)) = None /\
  List.length (printed (snd (run_training w))) = 1%nat.
Proof.
  intros Hpopen. run_supervisor. rewrite Hpopen.
  destruct e; simpl; repeat split.
Qed.

Lemma failed_launch_is_swallowed_witness :
  fst (run_training (failed_launch_world FileNotFoundError)) = Ok tt /\
  calls (snd (run_training (failed_launch_world FileNotFoundError))) = [] /\
  process (snd (run_training (failed_launch_world FileNotFoundError))) = None /\
  List.length
    (printed (snd (run_training (failed_launch_world FileNotFoundError))))
  = 1%nat.
Proof.
  apply (failed_launch_is_swallowed
           (failed_launch_world FileNotFoundError) FileNotFoundError).
  reflexivity.
Defined.

(** X10.  After a launch the calls on the handle are always [poll],
    [terminate], [wait(60)], in this order and once each, followed by
    [kill] exactly when the [wait] timed out; there is never more than
    one timeout. *)
Theorem shutdown_call_sequence (w : run_world) (p : child) :
  w_popen w = Ok p ->
  calls (snd (run_training w))
  = ([CallPoll; CallTerminate; CallWait 60]
     ++ repeat CallKill (timeouts (snd (run_training w))))%list /\
  (timeouts (snd (run_training w)) <= 1)%nat.
Proof.
  intros Hpopen. destruct (w_listen w p) as [i p'] eqn:Hlisten.
  destruct (run_training_launched w p p' i Hpopen Hlisten)
    as (_ & [(code & _ & -> & -> & _)|[(_ & _ & -> & -> & _)
                                     |(_ & _ & -> & -> & _)]]);
    simpl; split; (reflexivity || lia).
Qed.

Lemma shutdown_call_sequence_witness :
  calls (snd (run_training (interrupted_world (Some 90) (Some KeyboardInterrupt))))
  = List.app
      [CallPoll; CallTerminate; CallWait 60]
      (repeat CallKill
         (timeouts
            (snd (run_training
                    (interrupted_world (Some 90) (Some KeyboardInterrupt))))))
  /\
  Nat.le
    (timeouts
       (snd (run_training (interrupted_world (Some 90) (Some KeyboardInterrupt)))))
    1%nat.
Proof.
  apply (shutdown_call_sequence
           (interrupted_world (Some 90) (Some KeyboardInterrupt))
           (fresh_child (Some 90))).
  reflexivity.
Defined.

(** X11.  After a launch, [run_training] never ends with the child still
    running: the child had exited by itself, or has exited on the
    graceful-termination signal within the 60 seconds, or has been
    killed. *)
Theorem child_never_left_running (w : run_world) (p : child) :
  w_popen w = Ok p ->
  child_has_exited (snd (run_training w)) = true.
Proof.
  intros Hpopen. destruct (w_listen w p) as [i p'] eqn:Hlisten.
  unfold child_has_exited.
  destruct (run_training_launched w p p' i Hpopen Hlisten)
    as (_ & [(code & Hst & _ & _ & ->)|[(_ & _ & _ & _ & ->)
                                      |(_ & _ & _ & _ & ->)]]);
    simpl; [now rewrite Hst|reflexivity|reflexivity].
Qed.

Lemma child_never_left_running_witness :
  child_has_exited
    (snd (run_training (interrupted_world None (Some KeyboardInterrupt))))
  = true.
Proof.
  apply (child_never_left_running
           (interrupted_world None (Some KeyboardInterrupt))
           (fresh_child None)).
  reflexivity.
Defined.

(** X12.  After a launch, [run_training] raises exactly what [listen]
    was left by, and returns normally when [listen] returned; the exit
    status of the child plays no part.  A child that has failed with a
    non-zero status after a [listen] that returned gives a normal
    return. *)
Theorem outcome_ignores_exit_status
        (w : run_world) (p p' : child) (i : option exn) :
  w_popen w = Ok p ->
  w_listen w p = (i, p') ->
  fst (run_training w) = outcome_of i.
Proof.
  intros Hpopen Hlisten.
  exact (proj1 (run_training_launched w p p' i Hpopen Hlisten)).
Qed.

Lemma outcome_ignores_exit_status_witness :
  fst (run_training (failed_exit_world 1)) = Ok tt.
Proof.
  apply (outcome_ignores_exit_status
           (failed_exit_world 1) (fresh_child (Some 5))
           (exit_with 1 (fresh_child (Some 5))) None);
    reflexivity.
Defined.

(** X13.  A child that is still running and exits within 60 seconds of
    the graceful-termination signal is not killed: it receives that one
    signal, [wait] returns its exit status, and [kill] is not called. *)
Theorem graceful_exit_is_not_killed
        (w : run_world) (p p' : child) (i : option exn) (d : Z) :
  w_popen w = Ok p ->
  w_listen w p = (i, p') ->
  status p' = Running ->
  grace p' = Some d ->
  d <= 60 ->
  calls (snd (run_training w)) = [CallPoll; CallTerminate; CallWait 60] /\
  timeouts (snd (run_training w)) = 0%nat /\
  process (snd (run_training w))
  = Some (exit_with (term_code p') (deliver SIGTERM p')).
Proof.
  intros Hpopen Hlisten Hst Hg Hd.
  destruct (run_training_launched w p p' i Hpopen Hlisten)
    as (_ & [(code & Hst' & _)|[(_ & _ & H1 & H2 & H3)
                               |(_ & Hslow & _)]]).
  - congruence.
  - repeat split; assumption.
  - specialize (Hslow d Hg). lia.
Qed.

Lemma graceful_exit_is_not_killed_witness :
  calls (snd (run_training (interrupted_world (Some 5) (Some KeyboardInterrupt))))
  = [CallPoll; CallTerminate; CallWait 60] /\
  timeouts (snd (run_training (interrupted_world (Some 5) (Some KeyboardInterrupt))))
  = 0%nat /\
  process (snd (run_training (interrupted_world (Some 5) (Some KeyboardInterrupt))))
  = Some (exit_with (-15) (deliver SIGTERM (fresh_child (Some 5)))).
Proof.
  apply (graceful_exit_is_not_killed
           (interrupted_world (Some 5) (Some KeyboardInterrupt))
           (fresh_child (Some 5)) (fresh_child (Some 5))
           (Some KeyboardInterrupt) 5);
    try reflexivity. lia.
Defined.

(** ** What the evaluation writes *)

Section LogFacts.
Context {F : Type} `{PyFloat F}.

(** The loop appends to the log and does nothing else to it: at most
    one record per batch, none of them with the perplexity value, and
    exactly one per batch when the loop finishes on local rank 0. *)
Lemma eval_batches_appends (lr : Z) (loader : list (batch F)) :
  forall (t : totals F) (m : metric_sink F),
  exists added,
    sink_lines (snd (eval_batches lr loader t m))
    = (sink_lines m ++ added)%list /\
    sink_path (snd (eval_batches lr loader t m)) = sink_path m /\
    (List.length added <= List.length loader)%nat /\
    filter reports_perplexity added = [] /\
    (forall t', fst (eval_batches lr loader t m) = Ok t' -> lr = 0 ->
                List.length added = List.length loader).
Proof.
  induction loader as [|b rest IH]; intros t m.
  - exists []. simpl. rewrite app_nil_r. repeat split; auto.
  - simpl. destruct (reduce_sum (map pack b)) as [[lp tokens] samples].
    unfold bind, lift.
    destruct (f_int tokens) as [ti|e];
      [|exists []; simpl; rewrite app_nil_r; repeat split;
        [lia|discriminate]].
    destruct (f_int samples) as [si|e];
      [|exists []; simpl; rewrite app_nil_r; repeat split;
        [lia|discriminate]].
    destruct (lr =? 0) eqn:Hlr.
    + unfold log_sync, modify.
      match goal with
      | |- context [eval_batches lr rest ?t1 ?m1] =>
          destruct (IH t1 m1) as (added & Hl & Hp & Hlen & Hfil & Hcount)
      end.
      eexists (_ :: added). rewrite Hl, Hp. simpl sink_lines.
      rewrite <- app_assoc. simpl. rewrite Hfil.
      repeat split; [lia|].
      intros t' Hok Hz. now rewrite (Hcount t' Hok Hz).
    + unfold ret at 1.
      match goal with
      | |- context [eval_batches lr rest ?t1 m] =>
          destruct (IH t1 m) as (added & Hl & Hp & Hlen & Hfil & Hcount)
      end.
      exists added. repeat split; try assumption; [lia|].
      intros t' _ Hz. apply Z.eqb_neq in Hlr. contradiction.
Qed.

Lemma get_perplexity_cases (env : environ) (loader : list (batch F))
      (m : metric_sink F) :
  (exists e, get_perplexity env loader m = (Raise e, m))
  \/
  (exists lr ws,
      getenv_int env "LOCAL_RANK" = Ok lr /\
      getenv_int env "WORLD_SIZE" = Ok ws /\
      get_perplexity env loader m
      = match eval_batches lr loader totals_start m with
        | (Ok t, m') =>
            (average_log_perp <-
               lift (py_truediv (total_log_perplexity t)
                                (total_num_tokens t)) ;;
             avg_perplexity <- lift (f_exp average_log_perp) ;;
             (if lr =? 0
              then log_sync (final_record average_log_perp avg_perplexity t)
              else ret tt) ;;
             ret avg_perplexity) m'
        | (Raise e, m') => (Raise e, m')
        end).
Proof.
  unfold get_perplexity.
  unfold bind at 1. unfold lift at 1.
  destruct (getenv_int env "LOCAL_RANK") as [lr|e]; [|left; now exists e].
  unfold bind at 1. unfold lift at 1.
  destruct (getenv_int env "WORLD_SIZE") as [ws|e]; [|left; now exists e].
  right. exists lr, ws. repeat split.
Qed.
End LogFacts.

Lemma get_perplexity_log_grows
      {F : Type} `{PyFloat F}
      (env : environ) (loader : list (batch F)) (m : metric_sink F) :
  exists added,
    sink_lines (snd (get_perplexity env loader m))
    = (sink_lines m ++ added)%list /\
    sink_path (snd (get_perplexity env loader m)) = sink_path m /\
    (List.length added <= List.length loader + 1)%nat.
Proof.
  destruct (get_perplexity_cases env loader m)
    as [(e & ->)|(lr & ws & _ & _ & ->)].
  { exists []. simpl. rewrite app_nil_r. repeat split. lia. }
  destruct (eval_batches_appends lr loader totals_start m)
    as (added & Hl & Hp & Hlen & _).
  destruct (eval_batches lr loader totals_start m) as [[t|e] m'];
    simpl in Hl, Hp.
  2:{ exists added. simpl. repeat split; try assumption. lia. }
  unfold bind, lift.
  destruct (py_truediv _ _) as [avg|e];
    [|exists added; simpl; repeat split; try assumption; lia].
  destruct (f_exp avg) as [p|e];
    [|exists added; simpl; repeat split; try assumption; lia].
  destruct (lr =? 0); simpl.
  - exists (added ++ [final_record avg p t])%list.
    rewrite Hl, Hp, app_assoc, length_app. simpl. repeat split. lia.
  - exists added. repeat split; try assumption. lia.
Qed.

(** X14.  [get_perplexity] only ever appends to the metric log: the
    records that were there stay as they were and in their order, the log
    stays bound to its file, and at most one record per batch and one
    final record are added, whether the pass succeeds or fails. *)
Theorem get_perplexity_appends
        {F : Type} `{PyFloat F}
        (env : environ) (loader : list (batch F)) (m : metric_sink F) :
  exists added,
    sink_lines (snd (get_perplexity env loader m))
    = (sink_lines m ++ added)%list /\
    sink_path (snd (get_perplexity env loader m)) = sink_path m /\
    (List.length added <= List.length loader + 1)%nat.
Proof.
  exact (get_perplexity_log_grows env loader m).
Qed.

(** X15.  When [get_perplexity] returns a value on local rank 0, it has
    written exactly one record for every batch, none of which holds the
    perplexity, and then one final record, which holds the value it
    returns. *)
Theorem rank_zero_log_of_a_pass
        {F : Type} `{PyFloat F}
        (env : environ) (loader : list (batch F)) (m : metric_sink F)
        (p : F) :
  is_local_rank_zero env = true ->
  fst (get_perplexity env loader m) = Ok p ->
  exists per_batch average t,
    sink_lines (snd (get_perplexity env loader m))
    = (sink_lines m ++ per_batch ++ [final_record average p t])%list /\
    List.length per_batch = List.length loader /\
    filter reports_perplexity per_batch = [] /\
    reports_perplexity (final_record average p t) = true.
Proof.
  intros Hrank.
  destruct (get_perplexity_cases env loader m)
    as [(e & ->)|(lr & ws & Hlr & _ & ->)]; [discriminate|].
  unfold is_local_rank_zero in Hrank. rewrite Hlr in Hrank.
  assert (lr = 0) as -> by (destruct lr; congruence).
  destruct (eval_batches_appends 0 loader totals_start m)
    as (added & Hl & _ & _ & Hfil & Hcount).
  destruct (eval_batches 0 loader totals_start m) as [[t|e] m'];
    simpl in Hl, Hcount; [|discriminate].
  unfold bind, lift.
  destruct (py_truediv _ _) as [avg|e]; [|discriminate].
  destruct (f_exp avg) as [q|e]; [|discriminate].
  simpl. intros [= <-].
  exists added, avg, t. rewrite Hl, <- app_assoc.
  repeat split; [now apply (Hcount t)|exact Hfil].
Qed.

(** The pass over the example batch on local rank 0. *)
Lemma example_pass_loop :
  eval_batches 0 [example_batch] totals_start empty_sink
  = (Ok {| total_log_perplexity := (0 + (10 + 20))%R;
           total_num_tokens := 400;
           total_samples := 10 |},
     {| sink_path := "out/perplexity_log_0.jsonl";
        sink_lines :=
          [batch_record (10 + 20)%R (100 + 300)%R (4 + 6)%R
             {| total_log_perplexity := (0 + (10 + 20))%R;
                total_num_tokens := 400;
                total_samples := 10 |}] |}).
Proof.
  unfold example_batch.
  cbn [eval_batches map pack reduce_sum fold_left vadd loss_item
       num_loss_counted_tokens num_samples f_single f_add f_of_int
       R_float f_int].
  unfold bind, lift. rewrite !R_trunc_sum. reflexivity.
Defined.

Lemma example_pass_value :
  fst (get_perplexity (torchrun_environ "0" "0" "8") [example_batch]
                      empty_sink)
  = Ok (exp (Rdiv (0 + (10 + 20)) (IZR 400))).
Proof.
  rewrite (get_perplexity_after_loop
             (torchrun_environ "0" "0" "8") _ _ _ 0 8 _
             eq_refl eq_refl example_pass_loop).
  reflexivity.
Defined.

Lemma rank_zero_log_of_a_pass_witness :
  exists per_batch average t,
    sink_lines
      (snd (get_perplexity (torchrun_environ "0" "0" "8") [example_batch]
                           empty_sink))
    = (sink_lines empty_sink ++ per_batch
       ++ [final_record average (exp (Rdiv (0 + (10 + 20)) (IZR 400))) t])%list
    /\
    List.length per_batch = List.length [example_batch] /\
    filter reports_perplexity per_batch = [] /\
    reports_perplexity
      (final_record average (exp (Rdiv (0 + (10 + 20)) (IZR 400))) t) = true.
Proof.
  apply (rank_zero_log_of_a_pass
           (torchrun_environ "0" "0" "8") [example_batch] empty_sink);
    [reflexivity|].
  exact example_pass_value.
Defined.

(** ** The counters behind the float32 tensor *)

Lemma Zsum_app (l1 l2 : list Z) : Zsum (l1 ++ l2)%list = Zsum l1 + Zsum l2.
Proof.
  induction l1 as [|x l1 IH]; simpl; [reflexivity|]. rewrite IH. lia.
Qed.

Section ExactCounts.
Context {F : Type} `{PyFloat F}.
Variable bound : Z.
Hypothesis exact : float32_exact_to bound.

Lemma counts_nonnegative_sums (l : batch F) :
  counts_nonnegative l = true ->
  0 <= Zsum (map num_loss_counted_tokens l) /\
  0 <= Zsum (map num_samples l).
Proof.
  unfold counts_nonnegative.
  induction l as [|s l IH]; simpl; [lia|].
  intros Hall. apply andb_true_iff in Hall. destruct Hall as [Hs Hl].
  apply andb_true_iff in Hs. destruct Hs as [Ht Hn].
  apply Z.leb_le in Ht, Hn. destruct (IH Hl). lia.
Qed.

(** The sum-reduction over the shards of one batch, started from what
    has been added up so far. *)
Lemma fold_vadd_counts (l : batch F) :
  forall (x : F) (b c : Z),
    counts_nonnegative l = true ->
    0 <= b -> 0 <= c ->
    b + Zsum (map num_loss_counted_tokens l) <= bound ->
    c + Zsum (map num_samples l) <= bound ->
    exists x',
      fold_left vadd (map pack l) (x, tensor_of_int b, tensor_of_int c)
      = (x',
         tensor_of_int (b + Zsum (map num_loss_counted_tokens l)),
         tensor_of_int (c + Zsum (map num_samples l))).
Proof.
  induction l as [|s l IH]; intros x b c Hall Hb Hc Hbt Hct.
  - exists x. simpl. now rewrite !Z.add_0_r.
  - pose proof Hall as Hall'. unfold counts_nonnegative in Hall'.
    simpl in Hall'. apply andb_true_iff in Hall'.
    destruct Hall' as [Hs Hl].
    apply andb_true_iff in Hs. destruct Hs as [Ht Hn].
    apply Z.leb_le in Ht, Hn.
    destruct (counts_nonnegative_sums l Hl) as [Hlt Hln].
    simpl Zsum in Hbt, Hct. cbn [map fold_left].
    change (vadd (x, tensor_of_int b, tensor_of_int c) (pack s))
      with (f_single (f_add x (f_single (loss_item s))),
            f_single (f_add (tensor_of_int b)
                            (tensor_of_int (num_loss_counted_tokens s))),
            f_single (f_add (tensor_of_int c)
                            (tensor_of_int (num_samples s)))).
    rewrite (proj2 exact b (num_loss_counted_tokens s)) by lia.
    rewrite (proj2 exact c (num_samples s)) by lia.
    destruct (IH (f_single (f_add x (f_single (loss_item s))))
                 (b + num_loss_counted_tokens s) (c + num_samples s))
      as (x' & Heq); [exact Hl|lia|lia|lia|lia|].
    exists x'. rewrite Heq. simpl Zsum. now rewrite !Z.add_assoc.
Qed.

Lemma reduce_sum_counts (b : batch F) :
  counts_within bound b = true ->
  0 <= Zsum (map num_loss_counted_tokens b) <= bound /\
  0 <= Zsum (map num_samples b) <= bound /\
  exists x,
    reduce_sum (map pack b)
    = (x,
       tensor_of_int (Zsum (map num_loss_counted_tokens b)),
       tensor_of_int (Zsum (map num_samples b))).
Proof.
  unfold counts_within. intros Hb.
  apply andb_true_iff in Hb. destruct Hb as [Hb Hsam].
  apply andb_true_iff in Hb. destruct Hb as [Hb Htok].
  apply andb_true_iff in Hb. destruct Hb as [Hne Hall].
  apply Z.leb_le in Htok, Hsam.
  destruct (counts_nonnegative_sums b Hall) as [Hlt Hln].
  split; [lia|]. split; [lia|].
  destruct b as [|s l]; [discriminate Hne|].
  pose proof Hall as Hall'. unfold counts_nonnegative in Hall'.
  simpl in Hall'. apply andb_true_iff in Hall'.
  destruct Hall' as [Hs Hl].
  apply andb_true_iff in Hs. destruct Hs as [Ht Hn].
  apply Z.leb_le in Ht, Hn.
  simpl Zsum in Htok, Hsam.
  cbn [map reduce_sum].
  change (pack s)
    with (f_single (loss_item s),
          tensor_of_int (num_loss_counted_tokens s),
          tensor_of_int (num_samples s)).
  destruct (fold_vadd_counts l (f_single (loss_item s))
              (num_loss_counted_tokens s) (num_samples s))
    as (x & Heq); [exact Hl|lia|lia|lia|lia|].
  exists x. exact Heq.
Qed.

Lemma eval_batches_counts (lr : Z) (loader : list (batch F)) :
  forall (t : totals F) (m : metric_sink F),
    forallb (counts_within bound) loader = true ->
    exists t' m',
      eval_batches lr loader t m = (Ok t', m') /\
      total_num_tokens t'
      = total_num_tokens t
        + Zsum (map num_loss_counted_tokens (List.concat loader)) /\
      total_samples t'
      = total_samples t + Zsum (map num_samples (List.concat loader)).
Proof.
  induction loader as [|b rest IH]; intros t m Hall.
  - exists t, m. simpl. rewrite !Z.add_0_r. repeat split.
  - simpl in Hall. apply andb_true_iff in Hall. destruct Hall as [Hb Hrest].
    destruct (reduce_sum_counts b Hb) as (Htok & Hsam & x & Hred).
    cbn [eval_batches]. rewrite Hred.
    rewrite bind_lift, (proj1 exact _ Htok).
    rewrite bind_lift, (proj1 exact _ Hsam).
    unfold bind at 1.
    match goal with
    | |- context [(if lr =? 0 then log_sync ?r else ret tt) m] =>
        assert (Hlog : exists m1,
                   (if lr =? 0 then log_sync r else ret tt) m = (Ok tt, m1))
          by (destruct (lr =? 0); eexists; reflexivity);
        destruct Hlog as (m1 & ->)
    end.
    match goal with
    | |- context [eval_batches lr rest ?t1 m1] =>
        destruct (IH t1 m1 Hrest) as (t' & m' & -> & Ht & Hs)
    end.
    exists t', m'. simpl in Ht, Hs.
    simpl List.concat. rewrite !map_app, !Zsum_app.
    repeat split; lia.
Qed.
End ExactCounts.

(** The test of IEEE arithmetic decides the requirement. *)
Lemma spec_float_eqb_eq (x y : spec_float) :
  spec_float_eqb x y = true -> x = y.
Proof.
  destruct x as [s|s| |s m e], y as [s'|s'| |s' m' e']; simpl;
    try discriminate; try reflexivity.
  - intros E. apply Bool.eqb_prop in E. now subst.
  - intros E. apply Bool.eqb_prop in E. now subst.
  - intros E. apply andb_true_iff in E. destruct E as [E He].
    apply andb_true_iff in E. destruct E as [Hs Hm].
    apply Bool.eqb_prop in Hs. apply Pos.eqb_eq in Hm. apply Z.eqb_eq in He.
    now subst.
Qed.

Lemma integers_to_In (n : nat) (z : Z) :
  0 <= z <= Z.of_nat n -> In z (integers_to n).
Proof.
  induction n as [|n IH]; intros Hz.
  - left. simpl in Hz. lia.
  - destruct (Z.eq_dec z (Z.of_nat (S n))) as [->|Hne].
    + now left.
    + right. apply IH. lia.
Qed.

Lemma binary32_exact_to_sound
      (math_exp : spec_float -> pyresult spec_float) (bound : nat) :
  binary32_exact_to bound = true ->
  float32_exact_to (H := IEEE_float math_exp) (Z.of_nat bound).
Proof.
  unfold binary32_exact_to. intros Hcheck.
  apply andb_true_iff in Hcheck. destruct Hcheck as [Hint Hadd].
  rewrite forallb_forall in Hint, Hadd.
  split.
  - intros z Hz. specialize (Hint z (integers_to_In bound z Hz)).
    unfold tensor_of_int. cbn [f_int f_single f_of_int IEEE_float].
    destruct (int_of_float (to_binary32 (binary64_of_int z))) as [z'|e];
      [|discriminate Hint].
    apply Z.eqb_eq in Hint. now subst.
  - intros a b Ha Hb Hab.
    assert (Hina : In a (integers_to bound))
      by (apply integers_to_In; lia).
    assert (Hinb : In b (integers_to bound))
      by (apply integers_to_In; lia).
    specialize (Hadd a Hina). rewrite forallb_forall in Hadd.
    specialize (Hadd b Hinb).
    apply orb_true_iff in Hadd. destruct Hadd as [Hover|Heq].
    + apply Z.ltb_lt in Hover. lia.
    + unfold tensor_of_int. cbn [f_add f_single f_of_int IEEE_float].
      now apply spec_float_eqb_eq.
Qed.

(** X16.  Only the reduction of one batch passes through [float32]; the
    running totals are integers.  So when [float32] keeps the integers
    from 0 to a bound exactly, as IEEE [binary32] does up to 2^24, and
    every batch has a shard, counters that are not negative and sums
    over the ranks within the bound, the loop over the batches returns
    and its totals of tokens and of samples are the plain sums over the
    shards of all ranks in all batches, on every rank and for any number
    of batches.  Beyond the bound they are not: in IEEE arithmetic a
    batch whose two ranks hold 16777216 tokens and 1 token is counted as
    16777216 tokens. *)
Theorem totals_are_sums :
  (forall (F : Type) (HF : PyFloat F) (bound lr : Z)
          (loader : list (batch F)) (m : metric_sink F),
      float32_exact_to bound ->
      forallb (counts_within bound) loader = true ->
      exists t m',
        eval_batches lr loader totals_start m = (Ok t, m') /\
        total_num_tokens t
        = Zsum (map num_loss_counted_tokens (List.concat loader)) /\
        total_samples t = Zsum (map num_samples (List.concat loader)))
  /\
  (forall (math_exp : spec_float -> pyresult spec_float) (lr : Z)
          (m : metric_sink spec_float),
      exists t m',
        eval_batches (H := IEEE_float math_exp) lr [batch_beyond_float32]
                     (totals_start (H := IEEE_float math_exp)) m
        = (Ok t, m') /\
        total_num_tokens t = 16777216 /\
        Zsum (map num_loss_counted_tokens batch_beyond_float32) = 16777217 /\
        total_samples t = 4).
Proof.
  split.
  - intros F HF bound lr loader m Hexact Hall.
    destruct (eval_batches_counts bound Hexact lr loader totals_start m Hall)
      as (t & m' & Hrun & Htok & Hsam).
    exists t, m'. simpl in Htok, Hsam. repeat split; assumption.
  - intros math_exp lr m.
    cbn [eval_batches]. unfold batch_beyond_float32.
    match goal with
    | |- context [reduce_sum ?v] =>
        let r := eval vm_compute in (reduce_sum (H := IEEE_float math_exp) v)
        in change (reduce_sum v) with r
    end.
    cbv beta iota. rewrite !bind_lift.
    cbn [f_int IEEE_float f_add].
    match goal with
    | |- context [int_of_float ?x] =>
        let r := eval vm_compute in (int_of_float x)
        in change (int_of_float x) with r
    end.
    cbv beta iota.
    match goal with
    | |- context [int_of_float ?x] =>
        let r := eval vm_compute in (int_of_float x)
        in change (int_of_float x) with r
    end.
    cbv beta iota.
    destruct (lr =? 0); unfold bind, log_sync, modify, ret;
      eexists; eexists; repeat split.
Qed.

Lemma totals_are_sums_witness :
  exists t m',
    eval_batches (H := IEEE_float no_math_exp) 3 example_loader
                 (totals_start (H := IEEE_float no_math_exp))
                 empty_sink_ieee
    = (Ok t, m') /\
    total_num_tokens t = 470 /\
    total_samples t = 14.
Proof.
  apply (proj1 totals_are_sums spec_float (IEEE_float no_math_exp) 512 3
               example_loader empty_sink_ieee).
  - apply (binary32_exact_to_sound no_math_exp 512). vm_compute. reflexivity.
  - vm_compute. reflexivity.
Defined.

(** ** The head of the log that [main] writes *)

Section MainLog.
Context {F : Type} `{PyFloat F}.

(** [main] after the logger is bound, on a process whose local rank
    reads as 0. *)
Lemma main_body_log_head (sw : setup_world) (env : environ) (a : args)
      (loader : list (batch F)) (text : string) (m : metric_sink F) :
  getenv env "LOCAL_RANK" = Ok text ->
  getenv_int env "LOCAL_RANK" = Ok 0 ->
  let dump :=
    if String.eqb text "0" && is_ok (sw_print_params sw)
    then [[("script_params", VArgs a)]] else [] in
  sink_path (snd (main_body sw env a loader m)) = sink_path m /\
  if reaches_params_record sw text loader
  then exists rest,
         sink_lines (snd (main_body sw env a loader m))
         = (sink_lines m ++ dump ++ [params_record a] ++ rest)%list
  else sink_lines (snd (main_body sw env a loader m))
       = (sink_lines m ++ dump)%list /\
       (exists e, fst (main_body sw env a loader m) = Raise e) /\
       (params_values_ready sw text = true ->
        fst (main_body sw env a loader m) = Raise ZeroDivisionError).
Proof.
  intros Htext Hint dump. subst dump.
  unfold reaches_params_record, params_values_ready, main_body.
  unfold bind, lift. rewrite Htext, Hint. cbv beta iota.
  change (0 =? 0) with true. cbv beta iota.
  destruct (String.eqb text "0");
    destruct (sw_print_params sw) as [[]|e0];
    destruct (sw_tokenizer sw) as [[]|e1];
    destruct (sw_set_device sw) as [[]|e2];
    destruct (sw_distributed_and_data sw) as [[]|e3];
    destruct (sw_params_values sw) as [[]|e4];
    destruct loader as [|b loader];
    cbn [negb orb andb is_ok avg_samples_per_batch];
    unfold log_sync, modify, ret; cbn [fst snd sink_path sink_lines];
    rewrite ?app_nil_r;
    try (split; [reflexivity|]; split; [reflexivity|];
         split; [eexists; reflexivity|first [reflexivity|discriminate]]).
  all: match goal with
       | |- context [sw_setup_model ?w] =>
           destruct (sw_setup_model w) as [[]|e5]
       end;
    [ match goal with
      | |- context [get_perplexity ?e ?l ?m1] =>
          destruct (get_perplexity_log_grows e l m1)
            as (added & Hl & Hp & _);
          destruct (get_perplexity e l m1) as [[p|e6] m2]
      end;
      cbn [fst snd sink_path sink_lines] in *;
      (split; [exact Hp|]); exists added; rewrite Hl;
      rewrite <- ?app_assoc; reflexivity
    | cbn [fst snd sink_path sink_lines];
      split; [reflexivity|]; exists [];
      rewrite <- ?app_assoc, ?app_nil_r; reflexivity ].
Qed.
End MainLog.

(** The run of [main] on the example batch, on the first process of the
    second node, when every call into other code returns. *)
Lemma example_main_run :
  exists rest : list (metric_record R),
    main_in setup_returns (torchrun_environ "8" "0" "16") args_400
            [example_batch]
    = (Ok tt,
       Some (mk_sink "out/perplexity_log_8.jsonl"
               ([[("script_params", VArgs args_400)]; params_record args_400]
                ++ rest)%list)).
Proof.
  unfold main_in, main_body, setup_returns.
  cbn [sw_import_yaml sw_new_logger sw_print_params sw_tokenizer
       sw_set_device sw_distributed_and_data sw_params_values
       sw_setup_model sw_teardown avg_samples_per_batch].
  cbn [getenv torchrun_environ String.eqb].
  unfold example_batch.
  unfold bind, lift, get_perplexity, bind, lift.
  cbn [getenv torchrun_environ String.eqb Ascii.eqb Bool.eqb
       getenv_int py_int lstrip is_space].
  simpl.
  cbn [eval_batches map pack reduce_sum fold_left vadd loss_item
       num_loss_counted_tokens num_samples f_single f_add f_of_int
       R_float f_int].
  unfold bind, lift. rewrite !R_trunc_sum. simpl.
  eexists. reflexivity.
Qed.

(** X17.  On a process whose [LOCAL_RANK] reads as 0, the log that
    [main] binds to [<output_dir>/perplexity_log_<RANK>.jsonl] begins
    with the dump of the arguments under [script_params], when the
    variable is the text [0] itself and the dump to the terminal
    returned: the first write compares the text, the later ones the
    integer.  The record of the run parameters comes next when the calls
    before it returned and the loader has a batch, and whatever the
    evaluation writes comes after it.  Otherwise [main] raises with
    nothing more in the log; on a loader without a batch the error is
    that of the division by [len(train_loader)]. *)
Theorem main_log_head
        {F : Type} `{PyFloat F}
        (sw : setup_world) (env : environ) (a : args)
        (loader : list (batch F))
        (r : pyresult unit) (m : metric_sink F) :
  is_local_rank_zero env = true ->
  main_in sw env a loader = (r, Some m) ->
  exists rank text,
    getenv env "RANK" = Ok rank /\
    getenv env "LOCAL_RANK" = Ok text /\
    sink_path m = output_dir a ++ "/perplexity_log_" ++ rank ++ ".jsonl" /\
    let dump :=
      if String.eqb text "0" && is_ok (sw_print_params sw)
      then [[("script_params", VArgs a)]] else [] in
    if reaches_params_record sw text loader
    then exists rest,
           sink_lines m = (dump ++ [params_record a] ++ rest)%list
    else sink_lines m = dump /\
         (exists e, r = Raise e) /\
         (params_values_ready sw text = true ->
          r = Raise ZeroDivisionError).
Proof.
  intros Hrank. unfold main_in.
  destruct (sw_import_yaml sw); [|discriminate].
  destruct (getenv env "RANK") as [rank|e]; [|discriminate].
  destruct (sw_new_logger sw); [|discriminate].
  unfold is_local_rank_zero in Hrank.
  assert (Hint : getenv_int env "LOCAL_RANK" = Ok 0).
  { destruct (getenv_int env "LOCAL_RANK") as [[| |]|]; congruence. }
  assert (Htext : exists text, getenv env "LOCAL_RANK" = Ok text).
  { unfold getenv_int in Hint.
    destruct (getenv env "LOCAL_RANK") as [text|e]; [now exists text|].
    discriminate Hint. }
  destruct Htext as (text & Htext).
  match goal with
  | |- context [main_body sw env a loader ?m0] =>
      pose proof (main_body_log_head sw env a loader text m0 Htext Hint)
        as Hhead;
      destruct (main_body sw env a loader m0) as [r' m']
  end.
  cbv zeta in Hhead. cbn [fst snd sink_path sink_lines app] in Hhead.
  destruct Hhead as [Hpath Hlines].
  intros [= <- <-]. exists rank, text.
  split; [reflexivity|]. split; [exact Htext|]. split; [exact Hpath|].
  exact Hlines.
Qed.

Lemma main_log_head_witness :
  (exists rest0 : list (metric_record R),
      let m :=
        mk_sink "out/perplexity_log_8.jsonl"
                ([[("script_params", VArgs args_400)];
                  params_record args_400] ++ rest0)%list in
      exists rank text,
        getenv (torchrun_environ "8" "0" "16") "RANK" = Ok rank /\
        getenv (torchrun_environ "8" "0" "16") "LOCAL_RANK" = Ok text /\
        sink_path m
        = output_dir args_400 ++ "/perplexity_log_" ++ rank ++ ".jsonl" /\
        let dump :=
          if String.eqb text "0" && is_ok (sw_print_params setup_returns)
          then [[("script_params", VArgs args_400)]] else [] in
        if reaches_params_record setup_returns text [example_batch]
        then exists rest,
               sink_lines m
               = (dump ++ [params_record args_400] ++ rest)%list
        else sink_lines m = dump /\
             (exists e, Ok tt = Raise e) /\
             (params_values_ready setup_returns text = true ->
              Ok tt = Raise ZeroDivisionError))
  /\
  (let m : metric_sink R :=
     mk_sink "out/perplexity_log_8.jsonl"
             [[("script_params", VArgs args_400)]] in
   exists rank text,
     getenv (torchrun_environ "8" "0" "16") "RANK" = Ok rank /\
     getenv (torchrun_environ "8" "0" "16") "LOCAL_RANK" = Ok text /\
     sink_path m
     = output_dir args_400 ++ "/perplexity_log_" ++ rank ++ ".jsonl" /\
     let dump :=
       if String.eqb text "0" && is_ok (sw_print_params setup_returns)
       then [[("script_params", VArgs args_400)]] else [] in
     if reaches_params_record setup_returns text (@nil (batch R))
     then exists rest,
            sink_lines m = (dump ++ [params_record args_400] ++ rest)%list
     else sink_lines m = dump /\
          (exists e, @Raise unit ZeroDivisionError = Raise e) /\
          (params_values_ready setup_returns text = true ->
           @Raise unit ZeroDivisionError = Raise ZeroDivisionError)).
Proof.
  split.
  - destruct example_main_run as (rest0 & Hrun).
    exists rest0. intros m.
    apply (main_log_head
             setup_returns (torchrun_environ "8" "0" "16") args_400
             [example_batch] (Ok tt) m);
      [reflexivity|exact Hrun].
  - intros m.
    apply (main_log_head
             setup_returns (torchrun_environ "8" "0" "16") args_400
             (@nil (batch R)) (Raise ZeroDivisionError) m);
      reflexivity.
Defined.

(** ** Parts of [setup_model] *)

(** X18.  The embedding table is never shrunk and always ends up with
    a row for every token of the tokenizer.  When it is resized, the new
    size is the least multiple of 8 that is not below the number of
    tokens; when the model already has enough rows its size is kept,
    multiple of 8 or not. *)
Theorem embeddings_cover_tokenizer (tokenizer_len vocab_size : Z) :
  0 <= tokenizer_len < 2 ^ 53 ->
  let size := resize_token_embeddings tokenizer_len vocab_size in
  tokenizer_len <= size /\
  vocab_size <= size /\
  (vocab_size < tokenizer_len ->
   size mod 8 = 0 /\ size < tokenizer_len + 8) /\
  (tokenizer_len <= vocab_size -> size = vocab_size).
Proof.
  intros Hlen size. subst size.
  unfold resize_token_embeddings, padded_vocab_size.
  pose proof (Z.div_mod (- tokenizer_len) 8 ltac:(lia)) as Hdm.
  pose proof (Z.mod_pos_bound (- tokenizer_len) 8 ltac:(lia)) as Hb.
  destruct (vocab_size <? tokenizer_len) eqn:Hlt.
  - apply Z.ltb_lt in Hlt. repeat split; try lia.
    rewrite Z.mul_comm. apply Z.mod_mul. lia.
  - apply Z.ltb_ge in Hlt. repeat split; lia.
Qed.

Lemma embeddings_cover_tokenizer_witness :
  32003 <= resize_token_embeddings 32003 32000 /\
  32000 <= resize_token_embeddings 32003 32000 /\
  (32000 < 32003 ->
   resize_token_embeddings 32003 32000 mod 8 = 0 /\
   resize_token_embeddings 32003 32000 < 32003 + 8) /\
  (32003 <= 32000 -> resize_token_embeddings 32003 32000 = 32000).
Proof.
  apply (embeddings_cover_tokenizer 32003 32000). lia.
Defined.

(** X19.  After the repair of the special token ids, the model agrees
    with the tokenizer on the pad id and on the bos id whenever both
    have one, and on the eos id whenever the model has one and that of
    the tokenizer is not 0.  An id the model does not have is never
    filled in, and an eos id of 0 in the tokenizer is never copied: it
    counts as absent. *)
Theorem token_ids_after_fix (model tokenizer : token_ids) :
  let fixed := fst (fix_token_ids model tokenizer) in
  (forall m t, pad_token_id model = Some m ->
               pad_token_id tokenizer = Some t ->
               pad_token_id fixed = Some t) /\
  (forall m t, bos_token_id model = Some m ->
               bos_token_id tokenizer = Some t ->
               bos_token_id fixed = Some t) /\
  (forall m t, eos_token_id model = Some m ->
               eos_token_id tokenizer = Some t -> t <> 0 ->
               eos_token_id fixed = Some t) /\
  (pad_token_id model = None -> pad_token_id fixed = None) /\
  (bos_token_id model = None -> bos_token_id fixed = None) /\
  (eos_token_id model = None -> eos_token_id fixed = None) /\
  (eos_token_id tokenizer = Some 0 ->
   eos_token_id fixed = eos_token_id model).
Proof.
  intros fixed. subst fixed. unfold fix_token_ids. simpl.
  repeat split.
  - intros m t -> ->. simpl. destruct (m =? t) eqn:E; simpl;
      [apply Z.eqb_eq in E; now subst|reflexivity].
  - intros m t -> ->. simpl. destruct (m =? t) eqn:E; simpl;
      [apply Z.eqb_eq in E; now subst|reflexivity].
  - intros m t -> -> Ht. simpl. apply Z.eqb_neq in Ht. rewrite Ht. simpl.
    destruct (m =? t) eqn:E; simpl;
      [apply Z.eqb_eq in E; now subst|reflexivity].
  - now intros ->.
  - now intros ->.
  - now intros ->.
  - intros ->. simpl. now rewrite andb_false_r.
Qed.

(** X20.  The repair of the special token ids is idempotent: done a
    second time it changes nothing and prints no warning. *)
Theorem fix_token_ids_idempotent (model tokenizer : token_ids) :
  fix_token_ids (fst (fix_token_ids model tokenizer)) tokenizer
  = (fst (fix_token_ids model tokenizer), []).
Proof.
  destruct model as [[mp|] [mb|] [me|]], tokenizer as [[tp|] [tb|] [te|]];
    unfold fix_token_ids; simpl;
    repeat match goal with
    | |- context [?a =? ?b] =>
        let E := fresh "E" in
        destruct (a =? b) eqn:E; simpl;
        try (apply Z.eqb_eq in E; subst);
        rewrite ?Z.eqb_refl in *; simpl; try discriminate
    end;
    try reflexivity.
Qed.

(** ** The modules LoRA is applied to *)

Lemma mem_In (x : string) (l : list string) : mem x l = true <-> In x l.
Proof.
  unfold mem. rewrite existsb_exists. split.
  - intros (y & Hy & Heq). apply String.eqb_eq in Heq. now subst.
  - intros Hx. exists x. split; [exact Hx|apply String.eqb_refl].
Qed.

Lemma In_set_difference (x : string) (a b : list string) :
  In x (set_difference a b) <-> In x a /\ ~ In x b.
Proof.
  unfold set_difference. rewrite filter_In, negb_true_iff.
  split; intros [Ha Hb]; split; try assumption.
  - intros Hin. apply mem_In in Hin. congruence.
  - destruct (mem x b) eqn:E; [|reflexivity].
    apply mem_In in E. contradiction.
Qed.

Lemma In_py_set (x : string) (l : list string) : In x (py_set l) <-> In x l.
Proof.
  unfold py_set. apply nodup_In.
Qed.

Lemma filter_keeps_all {A} (f : A -> bool) (l : list A) :
  (forall x, In x l -> f x = true) -> filter f l = l.
Proof.
  induction l as [|a l IH]; intros Hall; simpl; [reflexivity|].
  rewrite (Hall a (or_introl eq_refl)). f_equal. apply IH.
  intros x Hx. apply Hall. now right.
Qed.

Lemma filter_length_le {A} (f : A -> bool) (l : list A) :
  (List.length (filter f l) <= List.length l)%nat.
Proof.
  induction l as [|a l IH]; simpl; [lia|]. destruct (f a); simpl; lia.
Qed.

Lemma filter_same_length {A} (f : A -> bool) (l : list A) :
  List.length (filter f l) = List.length l ->
  forall x, In x l -> f x = true.
Proof.
  induction l as [|a l IH]; simpl; intros Hlen x Hx; [contradiction|].
  pose proof (filter_length_le f l) as Hle.
  destruct (f a) eqn:Ha; simpl in Hlen; [|lia].
  destruct Hx as [->|Hx]; [exact Ha|]. apply IH; [lia|exact Hx].
Qed.

Lemma nodup_length_le (l : list string) :
  (List.length (nodup string_dec l) <= List.length l)%nat.
Proof.
  induction l as [|a l IH]; simpl; [lia|].
  destruct (in_dec string_dec a l); simpl; lia.
Qed.

Lemma nodup_same_length (l : list string) :
  List.length (nodup string_dec l) = List.length l -> NoDup l.
Proof.
  induction l as [|a l IH]; simpl; intros Hlen; [constructor|].
  pose proof (nodup_length_le l) as Hle.
  destruct (in_dec string_dec a l) as [Hin|Hnot]; simpl in Hlen; [lia|].
  constructor; [exact Hnot|]. apply IH. lia.
Qed.

(** The targets chosen for a request: those of the requested modules
    that the model has. *)
Lemma layers_to_target_In (requested proj_layers : list string) (x : string) :
  In x (set_difference
          (py_set requested)
          (set_difference (py_set requested) (py_set proj_layers)))
  <-> In x requested /\ In x proj_layers.
Proof.
  rewrite In_set_difference, In_set_difference, !In_py_set.
  split.
  - intros [Hr Hnot]. split; [exact Hr|].
    destruct (in_dec string_dec x proj_layers) as [Hp|Hp]; [exact Hp|].
    exfalso. apply Hnot. now split.
  - intros [Hr Hp]. split; [exact Hr|]. intros [_ Hnp]. contradiction.
Qed.

Lemma select_requested (requested proj_layers : list string) :
  requested <> [] ->
  select_lora_target_modules (Some requested) proj_layers
  = (if (List.length
           (set_difference (py_set requested) (py_set proj_layers))
         =? List.length requested)%nat
     then (Raise ValueError, false)
     else (Ok (set_difference
                 (py_set requested)
                 (set_difference (py_set requested) (py_set proj_layers))),
           match set_difference (py_set requested) (py_set proj_layers) with
           | [] => false
           | _ => true
           end)).
Proof.
  destruct requested as [|r0 rs]; [congruence|reflexivity].
Qed.

(** X21.  Whenever the selection of the LoRA target modules succeeds,
    every module it gives is a projection layer of the model.  Without a
    request (none, or an empty list) it gives all projection layers, of
    which there is at least one; with a request it gives exactly the
    requested modules that the model has, each once. *)
Theorem lora_targets_exist_in_model
        (lora_target_modules : option (list string))
        (proj_layers layers : list string) (warned : bool) :
  select_lora_target_modules lora_target_modules proj_layers
  = (Ok layers, warned) ->
  (forall x, In x layers -> In x proj_layers) /\
  match lora_target_modules with
  | None | Some [] => layers = proj_layers /\ proj_layers <> []
  | Some requested =>
      (forall x, In x layers <-> In x requested /\ In x proj_layers) /\
      NoDup layers
  end.
Proof.
  destruct lora_target_modules as [[|r0 rs]|].
  - unfold select_lora_target_modules.
    destruct proj_layers; [discriminate|]. intros [= <- _].
    repeat split; auto. discriminate.
  - rewrite select_requested by discriminate.
    destruct (_ =? _)%nat; [discriminate|]. intros [= <- _].
    split.
    + intros x Hx.
      exact (proj2 (proj1 (layers_to_target_In (r0 :: rs) proj_layers x) Hx)).
    + split; [intros x; exact (layers_to_target_In (r0 :: rs) proj_layers x)|].
      exact (NoDup_filter _ (NoDup_nodup string_dec (r0 :: rs))).
  - unfold select_lora_target_modules.
    destruct proj_layers; [discriminate|]. intros [= <- _].
    repeat split; auto. discriminate.
Qed.

Lemma lora_targets_exist_in_model_witness :
  (forall x, In x ["q_proj"] -> In x ["q_proj"; "k_proj"; "v_proj"]) /\
  (forall x, In x ["q_proj"]
             <-> In x ["q_proj"; "gate"]
                 /\ In x ["q_proj"; "k_proj"; "v_proj"]) /\
  NoDup ["q_proj"].
Proof.
  apply (lora_targets_exist_in_model
           (Some ["q_proj"; "gate"]) ["q_proj"; "k_proj"; "v_proj"]
           ["q_proj"] true).
  reflexivity.
Defined.

Lemma none_in_model (requested proj_layers : list string) :
  (forall x, In x requested -> ~ In x proj_layers) ->
  set_difference (py_set requested) (py_set proj_layers) = py_set requested.
Proof.
  intros Hnone. apply filter_keeps_all. intros x Hx.
  apply (proj1 (In_py_set x requested)) in Hx. apply negb_true_iff.
  destruct (mem x (py_set proj_layers)) eqn:E; [|reflexivity].
  apply (proj1 (mem_In x _)) in E.
  apply (proj1 (In_py_set x proj_layers)) in E.
  now apply Hnone in Hx.
Qed.

Lemma set_difference_self (s : list string) : set_difference s s = [].
Proof.
  unfold set_difference.
  assert (Hgen : forall l, (forall x, In x l -> In x s) ->
                           filter (fun x => negb (mem x s)) l = []).
  { induction l as [|a l IH]; intros Hsub; simpl; [reflexivity|].
    assert (Ha : mem a s = true)
      by (apply (proj2 (mem_In a s)), Hsub; now left).
    rewrite Ha. simpl. apply IH. intros x Hx. apply Hsub. now right. }
  apply Hgen. auto.
Qed.

(** X22.  For a request that names no module twice, the selection fails
    with [ValueError] exactly when none of the requested modules is a
    projection layer of the model; so when it succeeds there is at least
    one target. *)
Theorem lora_request_rejected_iff_none_exist
        (requested proj_layers : list string) :
  requested <> [] ->
  NoDup requested ->
  (fst (select_lora_target_modules (Some requested) proj_layers)
   = Raise ValueError
   <-> forall x, In x requested -> ~ In x proj_layers) /\
  (forall layers,
      fst (select_lora_target_modules (Some requested) proj_layers)
      = Ok layers ->
      layers <> []).
Proof.
  intros Hne Hnodup.
  assert (Hset : py_set requested = requested)
    by (apply nodup_fixed_point; exact Hnodup).
  assert (Hiff :
    (List.length (set_difference (py_set requested) (py_set proj_layers))
     =? List.length requested)%nat = true
    <-> forall x, In x requested -> ~ In x proj_layers).
  { rewrite Nat.eqb_eq. split.
    - intros Hlen x Hx Hp.
      rewrite <- Hset in Hlen at 2.
      pose proof (filter_same_length _ _ Hlen x) as Hkeep.
      rewrite Hset in Hkeep. specialize (Hkeep Hx).
      apply negb_true_iff in Hkeep.
      assert (mem x (py_set proj_layers) = true)
        by (apply (proj2 (mem_In x _)), (proj2 (In_py_set x proj_layers));
            exact Hp).
      congruence.
    - intros Hnone. now rewrite (none_in_model _ _ Hnone), Hset. }
  rewrite select_requested by exact Hne.
  destruct (_ =? _)%nat eqn:E; simpl.
  - split; [|discriminate]. split; [intros _; now apply Hiff|reflexivity].
  - split.
    + split; [discriminate|]. intros Hnone. apply Hiff in Hnone. congruence.
    + intros layers [= <-] Hempty.
      assert (Hnone : forall x, In x requested -> ~ In x proj_layers).
      { intros x Hx Hp.
        assert (Hin : In x (set_difference
                              (py_set requested)
                              (set_difference (py_set requested)
                                              (py_set proj_layers))))
          by (apply (proj2 (layers_to_target_In _ _ x)); now split).
        rewrite Hempty in Hin. exact Hin. }
      apply Hiff in Hnone. congruence.
Qed.

Lemma lora_request_rejected_iff_none_exist_witness :
  (fst (select_lora_target_modules (Some ["gate"; "router"])
                                   ["q_proj"; "k_proj"])
   = Raise ValueError
   <-> forall x, In x ["gate"; "router"] -> ~ In x ["q_proj"; "k_proj"]) /\
  (forall layers,
      fst (select_lora_target_modules (Some ["gate"; "router"])
                                      ["q_proj"; "k_proj"])
      = Ok layers ->
      layers <> []).
Proof.
  apply (lora_request_rejected_iff_none_exist
           ["gate"; "router"] ["q_proj"; "k_proj"]).
  - discriminate.
  - repeat constructor; simpl; intuition discriminate.
Defined.

(** X23.  The test for a useless request compares the size of a set with
    the length of the list that was given.  So a request that names a
    module twice and names none that the model has is not rejected: the
    selection succeeds with no target at all. *)
Theorem lora_duplicate_request_slips_through
        (requested proj_layers : list string) :
  ~ NoDup requested ->
  (forall x, In x requested -> ~ In x proj_layers) ->
  fst (select_lora_target_modules (Some requested) proj_layers) = Ok [].
Proof.
  intros Hdup Hnone.
  assert (Hlt : (List.length (py_set requested) < List.length requested)%nat).
  { pose proof (nodup_length_le requested) as Hle.
    destruct (Nat.eq_dec (List.length (py_set requested))
                         (List.length requested)) as [Heq|Hneq];
      [|unfold py_set in *; lia].
    exfalso. apply Hdup. now apply nodup_same_length. }
  rewrite select_requested
    by (intros ->; apply Hdup; constructor).
  rewrite (none_in_model _ _ Hnone).
  assert (E : (List.length (py_set requested) =? List.length requested)%nat
              = false) by (apply Nat.eqb_neq; lia).
  rewrite E. simpl. now rewrite set_difference_self.
Qed.

Lemma lora_duplicate_request_slips_through_witness :
  fst (select_lora_target_modules (Some ["gate"; "gate"])
                                  ["q_proj"; "k_proj"]) = Ok [].
Proof.
  apply (lora_duplicate_request_slips_through
           ["gate"; "gate"] ["q_proj"; "k_proj"]).
  - intros Hnd. inversion Hnd as [|x l Hnot _]. apply Hnot. now left.
  - intros x [<-|[<-|[]]] [H|[H|[]]]; discriminate H.
Defined.

(** ** [run_training] before the launch *)

Lemma training_command_example :
  training_command "main_ds.py" example_torchrun_args
                   (example_training_args 4096 false true)
  = Ok example_command.
Proof. vm_compute. reflexivity. Defined.

Ltac run_front :=
  unfold run_training_from_args, prepare_training, ensure_directory,
    front_emit, bind, lift, modify, raise, ret.

(** X24.  The two checks of the arguments fail at different moments.  A
    [max_batch_len] below [max_seq_len] is refused at once: nothing has
    been created, processed or launched.  Disabling flash attention
    together with the padding-free transformer is refused only while the
    command is built: by then the data has been processed, and still
    nothing is launched. *)
Theorem argument_checks
        (fw : front_world) (w : run_world) (script : string)
        (torch_args : torchrun_args) (train_args : training_args) :
  (ta_max_batch_len train_args < ta_max_seq_len train_args ->
   run_training_from_args fw w script torch_args train_args
   = (Raise ValueError, [], None))
  /\
  (ta_max_seq_len train_args <= ta_max_batch_len train_args ->
   (forall path, fw_makedirs fw path = Ok tt) ->
   fw_data_process fw = Ok tt ->
   ta_disable_flash_attn train_args = true ->
   ta_use_dolomite train_args = true ->
   exists msg evs,
     run_training_from_args fw w script torch_args train_args
     = (Raise (OtherError msg), evs, None) /\
     List.length (filter is_data_process evs) = 1%nat /\
     filter is_popen evs = []).
Proof.
  split.
  - intros Hlt. run_front. apply Z.ltb_lt in Hlt. now rewrite Hlt.
  - intros Hle Hmk Hdp Hflash Hdolo. run_front.
    apply Z.ltb_ge in Hle. rewrite Hle, Hdp.
    unfold training_command. rewrite Hflash, Hdolo. simpl andb. cbv iota.
    rewrite !Hmk.
    destruct (fw_exists fw (ta_data_output_dir train_args)),
             (fw_exists fw (ta_ckpt_output_dir train_args));
      simpl; eexists; eexists; repeat split.
Qed.

Lemma argument_checks_witness :
  run_training_from_args ready_front_world (clean_exit_world None)
                         "main_ds.py" example_torchrun_args
                         (example_training_args 70000 false false)
  = (Raise ValueError, [], None)
  /\
  exists msg evs,
    run_training_from_args ready_front_world (clean_exit_world None)
                           "main_ds.py" example_torchrun_args
                           (example_training_args 4096 true true)
    = (Raise (OtherError msg), evs, None) /\
    List.length (filter is_data_process evs) = 1%nat /\
    filter is_popen evs = [].
Proof.
  split.
  - apply (proj1 (argument_checks ready_front_world (clean_exit_world None)
                    "main_ds.py" example_torchrun_args
                    (example_training_args 70000 false false))).
    simpl. lia.
  - apply (proj2 (argument_checks ready_front_world (clean_exit_world None)
                    "main_ds.py" example_torchrun_args
                    (example_training_args 4096 true true)));
      try reflexivity. simpl. lia.
Defined.

(** The first part of [run_training] launches nothing, and it gives a
    command only when both checks pass and the data has been
    processed. *)
Lemma prepare_training_result
      (fw : front_world) (script : string)
      (torch_args : torchrun_args) (train_args : training_args) :
  filter is_popen
         (snd (prepare_training fw script torch_args train_args [])) = [] /\
  forall command,
    fst (prepare_training fw script torch_args train_args []) = Ok command ->
    ta_max_seq_len train_args <= ta_max_batch_len train_args /\
    fw_data_process fw = Ok tt /\
    training_command script torch_args train_args = Ok command.
Proof.
  unfold prepare_training, ensure_directory, front_emit, bind, lift,
    modify, raise, ret.
  destruct (ta_max_batch_len train_args <? ta_max_seq_len train_args)
    eqn:Hlt; [split; [reflexivity|discriminate]|].
  apply Z.ltb_ge in Hlt.
  destruct (fw_exists fw (ta_data_output_dir train_args));
    [|destruct (fw_makedirs fw (ta_data_output_dir train_args)) as [[]|e];
      [|split; [reflexivity|discriminate]]];
    (destruct (fw_data_process fw) as [[]|e];
       [|split; [reflexivity|discriminate]];
     destruct (fw_exists fw (ta_ckpt_output_dir train_args));
       [|destruct (fw_makedirs fw (ta_ckpt_output_dir train_args))
           as [[]|e]; [|split; [reflexivity|discriminate]]];
     (destruct (training_command script torch_args train_args)
        as [command|e];
        [|split; [reflexivity|discriminate]];
      split; [reflexivity|];
      intros c [= <-]; repeat split; exact Hlt)).
Qed.

(** X25.  [run_training] launches the subprocess at most once, as the
    last thing before it supervises it, and only after both checks of
    the arguments have passed and the data has been processed; the
    command it launches is the one built from the arguments, the log file
    is [<ckpt_output_dir>/full_logs_global<node_rank>.log], and the
    result of the run is that of the supervision. *)
Theorem launch_only_after_checks
        (fw : front_world) (w : run_world) (script : string)
        (torch_args : torchrun_args) (train_args : training_args)
        (r : pyresult unit) (evs : list front_event)
        (s : option supervisor) (log_path : string)
        (command : list string) :
  run_training_from_args fw w script torch_args train_args = (r, evs, s) ->
  In (FePopen log_path command) evs ->
  ta_max_seq_len train_args <= ta_max_batch_len train_args /\
  ta_disable_flash_attn train_args && ta_use_dolomite train_args = false /\
  fw_data_process fw = Ok tt /\
  training_command script torch_args train_args = Ok command /\
  log_path
  = ta_ckpt_output_dir train_args ++ "/full_logs_global"
    ++ node_rank torch_args ++ ".log" /\
  filter is_popen evs = [FePopen log_path command] /\
  (exists front, evs = (front ++ [FePopen log_path command])%list) /\
  s = Some (snd (run_training w)) /\
  r = fst (run_training w).
Proof.
  unfold run_training_from_args.
  pose proof (prepare_training_result fw script torch_args train_args)
    as [Hnone Hok].
  destruct (prepare_training fw script torch_args train_args [])
    as [[cmd|e] front]; simpl in Hnone, Hok.
  - destruct (Hok cmd eq_refl) as (Hle & Hdp & Hcmd).
    destruct (run_training w) as [r0 s0]. intros [= <- <- <-] Hin.
    assert (Hpop : FePopen log_path command
                   = FePopen (ta_ckpt_output_dir train_args
                              ++ "/full_logs_global"
                              ++ node_rank torch_args ++ ".log") cmd).
    { apply in_app_or in Hin. destruct Hin as [Hin|[Hin|[]]].
      - assert (Hf : In (FePopen log_path command) (filter is_popen front))
          by (apply filter_In; split; [exact Hin|reflexivity]).
        rewrite Hnone in Hf. contradiction.
      - now symmetry. }
    injection Hpop as -> ->.
    repeat split; try assumption.
    + unfold training_command in Hcmd.
      destruct (ta_disable_flash_attn train_args
                && ta_use_dolomite train_args);
        [discriminate Hcmd|reflexivity].
    + rewrite filter_app, Hnone. reflexivity.
    + now exists front.
  - intros [= <- <- <-] Hin.
    assert (Hf : In (FePopen log_path command) (filter is_popen front))
      by (apply filter_In; split; [exact Hin|reflexivity]).
    rewrite Hnone in Hf. contradiction.
Qed.

Lemma launch_only_after_checks_witness :
  ta_max_seq_len (example_training_args 4096 false true)
  <= ta_max_batch_len (example_training_args 4096 false true) /\
  ta_disable_flash_attn (example_training_args 4096 false true)
  && ta_use_dolomite (example_training_args 4096 false true) = false /\
  fw_data_process ready_front_world = Ok tt /\
  training_command "main_ds.py" example_torchrun_args
                   (example_training_args 4096 false true)
  = Ok example_command /\
  "checkpoints/full_logs_global0.log"
  = ta_ckpt_output_dir (example_training_args 4096 false true)
    ++ "/full_logs_global" ++ node_rank example_torchrun_args ++ ".log" /\
  filter is_popen example_front_events
  = [FePopen "checkpoints/full_logs_global0.log" example_command] /\
  (exists front,
      example_front_events
      = (front
         ++ [FePopen "checkpoints/full_logs_global0.log" example_command])%list)
  /\
  Some (snd (run_training (clean_exit_world None)))
  = Some (snd (run_training (clean_exit_world None))) /\
  fst (run_training (clean_exit_world None))
  = fst (run_training (clean_exit_world None)).
Proof.
  apply (launch_only_after_checks
           ready_front_world (clean_exit_world None) "main_ds.py"
           example_torchrun_args (example_training_args 4096 false true)).
  - vm_compute. reflexivity.
  - right. left. reflexivity.
Defined.

(** ** The command and the parser of the script *)

Lemma takes_value (values : list string) (name value : string) :
  In (name, OneValue) parser_options ->
  parser_takes values (name ++ "=" ++ value).
Proof.
  intros Hin. left. now exists name, value.
Qed.

Lemma takes_switch (values : list string) (name : string) :
  In (name, StoreTrue) parser_options -> parser_takes values name.
Proof.
  intros Hin. right. now left.
Qed.

Ltac in_options := simpl; repeat (first [left; reflexivity | right]).

(** Closes [parser_takes _ item] for an item [--name=value] or
    [--name] whose name is written out. *)
Ltac option_item :=
  match goal with
  | |- parser_takes ?vals (append ?pre ?v) =>
      let n := eval vm_compute in (without_last pre) in
      exact (takes_value vals n v ltac:(in_options))
  | |- parser_takes ?vals ?item =>
      exact (takes_switch vals item ltac:(in_options))
  end.

Lemma base_command_options (values : list string) (script : string)
      (torch_args : torchrun_args) (train_args : training_args) :
  Forall (parser_takes values)
         (skipn 7 (base_command script torch_args train_args)).
Proof.
  unfold base_command. cbn [skipn].
  repeat (apply Forall_cons; [try option_item|]); [|apply Forall_nil].
  exact (takes_value values "--log_level" "INFO" ltac:(in_options)).
Qed.

Lemma lora_command_options (l : lora_options) :
  Forall (parser_takes (lo_target_modules l)) (lora_command l).
Proof.
  unfold lora_command. cbn [app].
  repeat (apply Forall_cons; [try option_item|]).
  - right. right. left. in_options.
  - apply Forall_app. split.
    + apply Forall_forall. intros x Hx. right. right. now right.
    + destruct (lo_quantize_nf4 l); [|apply Forall_nil].
      apply Forall_cons; [|apply Forall_nil].
      exact (takes_value _ "--lora_quant_bits" "4" ltac:(in_options)).
Qed.

Lemma backend_command_options (values : list string)
      (train_args : training_args) :
  Forall (parser_takes values) (backend_command train_args).
Proof.
  unfold backend_command. cbn [app].
  apply Forall_cons; [option_item|].
  repeat (apply Forall_app; split).
  - destruct (truthy (ta_ds_save_samples train_args)); [|apply Forall_nil].
    apply Forall_cons; [option_item|apply Forall_nil].
  - destruct (ta_ds_cpu_offload_optimizer train_args); [|apply Forall_nil].
    cbn [app].
    apply Forall_cons; [option_item|].
    apply Forall_cons; [option_item|].
    destruct (ta_ds_cpu_offload_optimizer_pin_memory train_args);
      [|apply Forall_nil].
    apply Forall_cons; [option_item|apply Forall_nil].
  - destruct (ta_fsdp_cpu_offload_params train_args); [|apply Forall_nil].
    apply Forall_cons; [option_item|apply Forall_nil].
  - apply Forall_cons; [option_item|apply Forall_nil].
Qed.

Lemma Ok_injective {A} (a b : A) : Ok a = Ok b -> a = b.
Proof.
  now intros [= ->].
Qed.

(** X26.  Every command that [run_training] builds starts with
    [torchrun], its five options and the path of the script, and every
    item after that is taken by the parser of the script: an option the
    parser declares, written [--name=value] when it takes one value and
    bare when it is a switch or the list option [--lora_target_modules],
    or one of the requested LoRA target modules. *)
Theorem command_matches_parser
        (script : string) (torch_args : torchrun_args)
        (train_args : training_args) (command : list string) :
  training_command script torch_args train_args = Ok command ->
  firstn 7 command
  = ["torchrun";
     "--nnodes=" ++ nnodes torch_args;
     "--node_rank=" ++ node_rank torch_args;
     "--nproc_per_node=" ++ nproc_per_node torch_args;
     "--rdzv_id=" ++ rdzv_id torch_args;
     "--rdzv_endpoint=" ++ rdzv_endpoint torch_args;
     script] /\
  Forall (parser_takes (requested_modules train_args)) (skipn 7 command).
Proof.
  unfold training_command.
  destruct (ta_disable_flash_attn train_args && ta_use_dolomite train_args);
    [discriminate|].
  intros Hcommand. apply Ok_injective in Hcommand. subst command.
  rewrite <- !app_assoc.
  split; [reflexivity|].
  change (skipn 7 (base_command script torch_args train_args ++ ?rest)%list)
    with (skipn 7 (base_command script torch_args train_args) ++ rest)%list.
  pose proof (backend_command_options (requested_modules train_args)
                train_args) as Hbackend.
  remember (backend_command train_args) as backend eqn:Ebackend.
  clear Ebackend.
  repeat (apply Forall_app; split).
  - apply base_command_options.
  - destruct (ta_checkpoint_at_epoch train_args); [|apply Forall_nil].
    apply Forall_cons; [option_item|apply Forall_nil].
  - destruct (ta_accelerate_full_state_at_epoch train_args);
      [|apply Forall_nil].
    apply Forall_cons; [option_item|apply Forall_nil].
  - destruct (ta_mock_data train_args); [|apply Forall_nil].
    apply Forall_cons; [option_item|].
    destruct (negb (ta_mock_len train_args =? 0)); [|apply Forall_nil].
    apply Forall_cons; [option_item|apply Forall_nil].
  - destruct (ta_use_dolomite train_args); [|apply Forall_nil].
    apply Forall_cons; [option_item|apply Forall_nil].
  - destruct (ta_disable_flash_attn train_args); [|apply Forall_nil].
    apply Forall_cons; [option_item|apply Forall_nil].
  - unfold requested_modules.
    destruct (ta_lora train_args) as [l|]; [|apply Forall_nil].
    apply lora_command_options.
  - exact Hbackend.
Qed.

Lemma command_matches_parser_witness :
  firstn 7 example_command
  = ["torchrun";
     "--nnodes=" ++ nnodes example_torchrun_args;
     "--node_rank=" ++ node_rank example_torchrun_args;
     "--nproc_per_node=" ++ nproc_per_node example_torchrun_args;
     "--rdzv_id=" ++ rdzv_id example_torchrun_args;
     "--rdzv_endpoint=" ++ rdzv_endpoint example_torchrun_args;
     "main_ds.py"] /\
  Forall (parser_takes
            (requested_modules (example_training_args 4096 false true)))
         (skipn 7 example_command).
Proof.
  apply (command_matches_parser
           "main_ds.py" example_torchrun_args
           (example_training_args 4096 false true) example_command).
  vm_compute. reflexivity.
Defined.

(** ** A resume through the universal format *)

(** X27.  When the first load meets a checkpoint of another world size,
    the conversion and the retry succeed and the manifest parses, the
    whole resume returns normally: it has loaded in the primary format,
    converted, loaded in the universal format, switched the universal
    format off again, and set [last_step] from the manifest. *)
Theorem resume_through_universal
        (env : environ) (w : resume_world) (a : args) (lr : Z) (e : exn)
        (s : string) (n : Z) :
  getenv_int env "LOCAL_RANK" = Ok lr ->
  w_load_checkpoint w 0%nat false (lora_r a =? 0) = Raise e ->
  world_size_mismatch e = true ->
  w_prepare_universal w = Ok tt ->
  w_load_checkpoint w 1%nat true (lora_r a =? 0) = Ok tt ->
  w_latest w = Ok s ->
  parse_manifest s = Ok n ->
  effective_batch_size a <> 0 ->
  let st' := snd (maybe_resume_training env w (resume_start a)) in
  fst (maybe_resume_training env w (resume_start a)) = Ok tt /\
  last_step (rs_args st') = n / effective_batch_size a /\
  load_universal_checkpoint st' = false /\
  filter (fun ev => negb (is_print ev)) (rs_trace st')
  = [EvLoad false (lora_r a =? 0); EvPrepareUniversal;
     EvLoad true (lora_r a =? 0)].
Proof.
  intros Henv Hfirst Hmis Hprep Hretry Hlatest Hparse Hebs st'. subst st'.
  rewrite (maybe_resume_training_unfold env w _ lr Henv).
  assert (Hload :
    load_with_fallback w (resume_start a)
    = (Ok tt,
       {| load_universal_checkpoint := false;
          rs_args := a;
          rs_loads := 2;
          rs_trace := [EvLoad false (lora_r a =? 0); EvPrepareUniversal;
                       EvLoad true (lora_r a =? 0)] |})).
  { destruct e; try discriminate Hmis. simpl in Hmis.
    run_py. rewrite Hfirst, Hmis. simpl. rewrite Hprep. simpl.
    rewrite Hretry. reflexivity. }
  rewrite Hload.
  match goal with
  | |- context [recover_last_step w lr ?st1] =>
      destruct (recover_last_step_parsed w lr st1 s n Hlatest Hparse Hebs)
        as (st2 & Hrun & Hargs & Hflag);
      destruct (recover_last_step_trace w lr st1)
        as (prints & Htrace & Hprints & _)
  end.
  rewrite Hrun in Htrace |- *. simpl in Htrace, Hargs, Hflag |- *.
  assert (Hnone : filter (fun ev => negb (is_print ev)) prints = []).
  { clear -Hprints. induction prints as [|ev prints IH]; [reflexivity|].
    simpl in Hprints. apply andb_true_iff in Hprints.
    destruct Hprints as [Hev Hprints]. simpl. rewrite Hev. simpl.
    now apply IH. }
  rewrite Hargs, Hflag, Htrace.
  cbn [filter is_print negb last_step set_last_step]. rewrite Hnone.
  repeat split.
Qed.

Lemma resume_through_universal_witness :
  let st' :=
    snd (maybe_resume_training (torchrun_environ "0" "0" "8")
                               (mismatch_world (Ok tt) (Ok tt))
                               (resume_start args_400)) in
  fst (maybe_resume_training (torchrun_environ "0" "0" "8")
                             (mismatch_world (Ok tt) (Ok tt))
                             (resume_start args_400)) = Ok tt /\
  last_step (rs_args st') = 12000 / effective_batch_size args_400 /\
  load_universal_checkpoint st' = false /\
  filter (fun ev => negb (is_print ev)) (rs_trace st')
  = [EvLoad false (lora_r args_400 =? 0); EvPrepareUniversal;
     EvLoad true (lora_r args_400 =? 0)].
Proof.
  apply (resume_through_universal
           (torchrun_environ "0" "0" "8") (mismatch_world (Ok tt) (Ok tt))
           args_400 0 mismatch_error "samples_12000" 12000);
    try reflexivity. simpl. lia.
Defined.
